(** * mcporter client runtime: OAuth bootstrap, refresh and connect orchestration

    A shallow embedding of the TypeScript sources
      - [src/oauth-discovery.ts]        (scope resolution),
      - [src/oauth-refresh.ts]          (silent token refresh),
      - [src/runtime-oauth-support.ts]  (OAuth promotion, three revisions),
      - [src/oauth.ts]                  (loopback session and callback handler),
      - [src/runtime/oauth.ts]          (connect loop and authorization wait),
      - [src/runtime/transport.ts]      (client context builder),
    followed by the properties established about them.

    Conventions.  JavaScript strings are [string]; a value that may be
    [undefined]/[null] is an [option]; a plain object used as a dictionary is
    a [gmap string _]; awaited I/O is explicit state passing over an abstract
    world [W] whose primitive operations are section variables; a rejected
    promise is an explicit error result.  A loop the code itself does not
    bound is followed for a given number of iterations, and the result says
    when that number did not suffice. *)

From Stdlib Require Import ZArith QArith Qround.
From stdpp Require Import base strings list gmap pretty.

Local Open Scope string_scope.
Local Open Scope list_scope.

(** ** JavaScript helpers *)

Module Js.

(** Truthiness of a string value: every string but the empty one. *)
Definition truthy (s : string) : bool :=
  match s with
  | EmptyString => false
  | String _ _ => true
  end.

(** Truthiness of a possibly-undefined string. *)
Definition truthy_opt (o : option string) : bool :=
  match o with
  | Some s => truthy s
  | None => false
  end.

(** [a ?? b] *)
Definition nullish {A : Type} (a : option A) (b : A) : A :=
  match a with
  | Some x => x
  | None => b
  end.

(** [a ?? b] where [b] may itself be undefined. *)
Definition nullish_opt {A : Type} (a b : option A) : option A :=
  match a with
  | Some x => Some x
  | None => b
  end.

Fixpoint startsWith (s prefix : string) : bool :=
  match prefix, s with
  | EmptyString, _ => true
  | String _ _, EmptyString => false
  | String a prefix', String b s' =>
      if Ascii.eqb a b then startsWith s' prefix' else false
  end.

(** [String.prototype.includes] *)
Fixpoint includes (s needle : string) : bool :=
  startsWith s needle ||
  match s with
  | EmptyString => false
  | String _ s' => includes s' needle
  end.

(** [Array.prototype.includes] on an array of strings. *)
Definition array_includes (l : list string) (x : string) : bool :=
  bool_decide (x ∈ l).

(** A parsed WHATWG URL of a special scheme.  [protocol] keeps its trailing
    colon and [search] its leading question mark, as the accessors return
    them.  [port] is the port as a number; [None] stands for the empty string
    the accessor returns when the port is absent or is the scheme's default. *)
Record Url := mkUrl {
  protocol : string;
  hostname : string;
  port : option N;
  pathname : string;
  search : string
}.

Definition host (u : Url) : string :=
  match port u with
  | Some p => hostname u +:+ ":" +:+ pretty p
  | None => hostname u
  end.

Definition origin (u : Url) : string :=
  protocol u +:+ "//" +:+ host u.

(** [url.toString()] *)
Definition href (u : Url) : string :=
  origin u +:+ pathname u +:+ search u.

(** [new URL(path, base.origin)] for an absolute [path] without query. *)
Definition at_origin (path : string) (base : Url) : Url :=
  {| protocol := protocol base; hostname := hostname base; port := port base;
     pathname := path; search := "" |}.

Definition default_port (proto : string) : option N :=
  if String.eqb proto "http:" then Some 80%N
  else if String.eqb proto "https:" then Some 443%N
  else None.

(** The [port] setter, given a decimal port: a port equal to the scheme's
    default is dropped. *)
Definition set_port (u : Url) (p : N) : Url :=
  {| protocol := protocol u; hostname := hostname u;
     port := if bool_decide (default_port (protocol u) = Some p) then None else Some p;
     pathname := pathname u; search := search u |}.

Definition set_pathname (u : Url) (p : string) : Url :=
  {| protocol := protocol u; hostname := hostname u; port := port u;
     pathname := p; search := search u |}.

(** A JavaScript number: finite values are kept as rationals, which cover
    every finite double. *)
Inductive Number :=
| NaN
| Infinity (negative : bool)
| Finite (q : Q).

(** [Number.isFinite] *)
Definition isFinite (n : Number) : bool :=
  match n with
  | Finite _ => true
  | _ => false
  end.

(** [n <= 0] *)
Definition le_zero (n : Number) : bool :=
  match n with
  | NaN => false
  | Infinity negative => negative
  | Finite q => Qle_bool q 0
  end.

(** [Number.MAX_SAFE_INTEGER], 2^53 - 1. *)
Definition MAX_SAFE_INTEGER : Z := 9007199254740991.

(** [k += 1] on a counter that started at 0: a double counts exactly up to
    2^53, where adding 1 rounds back to 2^53. *)
Definition increment (k : Z) : Z :=
  if (k <=? MAX_SAFE_INTEGER)%Z then (k + 1)%Z else k.

(** [k > n] for an integer [k]: no comparison with [NaN] holds. *)
Definition gt_int (k : Z) (n : Number) : bool :=
  match n with
  | NaN => false
  | Infinity negative => negative
  | Finite q => negb (Qle_bool (inject_Z k) q)
  end.

(** [n === 0], for a value that may be [undefined] *)
Definition is_zero (n : option Number) : bool :=
  match n with
  | Some (Finite q) => Qeq_bool q 0
  | _ => false
  end.

End Js.

(** ** Server definitions ([src/config.ts], declarations only) *)

Module Config.

Inductive CommandSpec :=
| StdioCommand (command : string) (args : list string) (cwd : option string)
| HttpCommand (url : Js.Url) (headers : option (gmap string string)).

Record Source := mkSource { kind : string; path : string }.

Record ServerDefinition := mkDefinition {
  name : string;
  command : CommandSpec;
  auth : option string;
  source : option Source;
  env : option (gmap string string);
  tokenCacheDir : option string;
  clientName : option string;
  (** [oauthRedirectUrl], already parsed by [new URL]; [None] when the field
      is absent or empty. *)
  oauthRedirectUrl : option Js.Url
}.

Definition is_http (d : ServerDefinition) : bool :=
  match command d with
  | HttpCommand _ _ => true
  | StdioCommand _ _ _ => false
  end.

Definition is_oauth (d : ServerDefinition) : bool :=
  bool_decide (auth d = Some "oauth").

(** [{ ...definition, auth: 'oauth' }] *)
Definition with_oauth (d : ServerDefinition) : ServerDefinition :=
  {| name := name d; command := command d; auth := Some "oauth";
     source := source d; env := env d; tokenCacheDir := tokenCacheDir d;
     clientName := clientName d; oauthRedirectUrl := oauthRedirectUrl d |}.

(** [{ ...definition, command: c }] *)
Definition with_command (d : ServerDefinition) (c : CommandSpec) : ServerDefinition :=
  {| name := name d; command := c; auth := auth d;
     source := source d; env := env d; tokenCacheDir := tokenCacheDir d;
     clientName := clientName d; oauthRedirectUrl := oauthRedirectUrl d |}.

End Config.

(** ** OAuth discovery: [resolveOAuthScope] ([src/oauth-discovery.ts]) *)

Module OAuthDiscovery.

(** The fields of the protected-resource and authorization-server metadata
    documents that the runtime reads. *)
Record Metadata := mkMetadata {
  scopes_supported : option (list string);
  grant_types_supported : option (list string)
}.

Record ScopeOptions := mkScopeOptions {
  resourceMetadata : option Metadata;
  authorizationServerMetadata : option Metadata;
  fallbackScope : option string
}.

(** [options.resourceMetadata?.scopes_supported ??
     options.authorizationServerMetadata?.scopes_supported] *)
Definition supportedScopes (options : ScopeOptions) : option (list string) :=
  Js.nullish_opt
    (resourceMetadata options ≫= scopes_supported)
    (authorizationServerMetadata options ≫= scopes_supported).

Definition resolveOAuthScope (options : ScopeOptions) : string :=
  match supportedScopes options with
  | Some (first :: rest) =>
      if Js.array_includes (first :: rest) "mcp:tools" then "mcp:tools"
      else if Js.array_includes (first :: rest) "mcp:connect" then "mcp:connect"
      else first
  | _ => Js.nullish (fallbackScope options) "mcp:tools"
  end.

(** The scope list the server advertises: the resource document's
    [scopes_supported] when that field is present, the authorization server's
    otherwise, and no scope at all when neither document carries the field. *)
Definition advertised (options : ScopeOptions) : list string :=
  match resourceMetadata options ≫= scopes_supported with
  | Some l => l
  | None => default [] (authorizationServerMetadata options ≫= scopes_supported)
  end.

(** The resolution rule as the design document words it, over [advertised]. *)
Definition preferred_scope (options : ScopeOptions) : string :=
  if decide ("mcp:tools" ∈ advertised options) then "mcp:tools"
  else if decide ("mcp:connect" ∈ advertised options) then "mcp:connect"
  else match head (advertised options) with
       | Some first => first
       | None => default "mcp:tools" (fallbackScope options)
       end.

End OAuthDiscovery.

(** ** Silent token refresh: [tryRefreshTokens] ([src/oauth-refresh.ts]) *)

Module OAuthRefresh.
Import Config.

Record OAuthTokens := mkTokens {
  access_token : option string;
  refresh_token : option string
}.

Record ClientInfo := mkClientInfo {
  client_id : option string;
  client_secret : option string
}.

Record VaultEntry := mkVaultEntry {
  tokens : option OAuthTokens;
  clientInfo : option ClientInfo
}.

(** The POST issued against a candidate endpoint: its URL and the
    [URLSearchParams] body, in insertion order. *)
Record Request := mkRequest {
  req_url : string;
  req_body : list (string * string)
}.

(** What [fetch] followed by reading the body yields: the call rejects, or a
    response arrives with a status and a body that parses to a token object
    ([None] when [response.json()] throws or yields no object). *)
Inductive FetchOutcome :=
| FetchThrew
| Response (status : Z) (json : option OAuthTokens).

(** [response.ok] *)
Definition ok (status : Z) : bool :=
  (200 <=? status)%Z && (status <=? 299)%Z.

(** One iteration of the endpoint loop, as recorded: the URL requested, what
    came back, and whether persisting the new tokens went through ([None]
    when the iteration never got as far as persisting). *)
Record Attempt := mkAttempt {
  at_url : string;
  at_outcome : FetchOutcome;
  at_saved : option bool
}.

(** The access token an iteration returns, if it returns one: the response
    is 2xx, its JSON carries a truthy [access_token], and the tokens were
    persisted without an exception. *)
Definition accepted (a : Attempt) : option string :=
  match at_outcome a, at_saved a with
  | Response status (Some newTokens), Some true =>
      if ok status && Js.truthy_opt (access_token newTokens)
      then access_token newTokens else None
  | _, _ => None
  end.

Definition tokenParams (refresh client : string) (secret : option string)
  : list (string * string) :=
  [("grant_type", "refresh_token"); ("refresh_token", refresh); ("client_id", client)]
  ++ (if Js.truthy_opt secret then [("client_secret", default "" secret)] else []).

Definition possibleEndpoints (serverUrl : Js.Url) : list Js.Url :=
  let common :=
    [ Js.at_origin "/oauth2/token" serverUrl;
      Js.at_origin "/token" serverUrl;
      Js.at_origin "/.well-known/oauth-authorization-server" serverUrl ] in
  if Js.includes (Js.hostname serverUrl) "athom.com"
     || Js.includes (Js.hostname serverUrl) "homey"
  then Js.mkUrl "https:" "api.athom.com" None "/oauth2/token" "" :: common
  else common.

(** [entry?.tokens?.refresh_token] *)
Definition storedRefreshToken (entry : option VaultEntry) : option string :=
  (entry ≫= tokens) ≫= refresh_token.

Section Refresh.

Context {W : Type}.
Variable loadVaultEntry : ServerDefinition → W → option VaultEntry * W.
Variable fetch : Request → W → FetchOutcome * W.
(** [buildOAuthPersistence] followed by [saveTokens]; [false] when either
    throws. *)
Variable saveTokens : ServerDefinition → OAuthTokens → W → bool * W.

(** The body of the [for] loop: [Some token] is the [return], [None] is a
    [continue] (explicit, or through the [catch]). *)
Definition tryEndpoint (definition : ServerDefinition)
    (refresh client : string) (secret : option string)
    (tokenEndpoint : Js.Url) (w : W) : option string * Attempt * W :=
  let url := Js.href tokenEndpoint in
  let '(outcome, w1) := fetch (mkRequest url (tokenParams refresh client secret)) w in
  match outcome with
  | FetchThrew => (None, mkAttempt url outcome None, w1)
  | Response status body =>
      if negb (ok status) then (None, mkAttempt url outcome None, w1)
      else match body with
           | None => (None, mkAttempt url outcome None, w1)
           | Some newTokens =>
               if negb (Js.truthy_opt (access_token newTokens))
               then (None, mkAttempt url outcome None, w1)
               else
                 let kept :=
                   if Js.truthy_opt (refresh_token newTokens) then newTokens
                   else mkTokens (access_token newTokens) (Some refresh) in
                 let '(saved, w2) := saveTokens definition kept w1 in
                 if saved
                 then (access_token newTokens, mkAttempt url outcome (Some true), w2)
                 else (None, mkAttempt url outcome (Some false), w2)
           end
  end.

Fixpoint tryEndpoints (definition : ServerDefinition)
    (refresh client : string) (secret : option string)
    (endpoints : list Js.Url) (w : W) : option string * list Attempt * W :=
  match endpoints with
  | [] => (None, [], w)
  | tokenEndpoint :: rest =>
      let '(result, attempt, w1) :=
        tryEndpoint definition refresh client secret tokenEndpoint w in
      match result with
      | Some token => (Some token, [attempt], w1)
      | None =>
          let '(result', attempts, w2) :=
            tryEndpoints definition refresh client secret rest w1 in
          (result', attempt :: attempts, w2)
      end
  end.

(** Returns the new access token (or nothing), the attempts made in order,
    and the world afterwards. *)
Definition tryRefreshTokens (definition : ServerDefinition) (w : W)
  : option string * list Attempt * W :=
  match command definition with
  | StdioCommand _ _ _ => (None, [], w)
  | HttpCommand url _ =>
      let '(entry, w1) := loadVaultEntry definition w in
      match storedRefreshToken entry, entry ≫= clientInfo with
      | Some refresh, Some info =>
          if negb (Js.truthy refresh) then (None, [], w1)
          else match client_id info with
               | Some client =>
                   if negb (Js.truthy client) then (None, [], w1)
                   else tryEndpoints definition refresh client (client_secret info)
                          (possibleEndpoints url) w1
               | None => (None, [], w1)
               end
      | _, _ => (None, [], w1)
      end
  end.

(** The new tokens of an answer the loop can use: a 2xx response whose
    JSON carries a truthy [access_token]. *)
Definition usable (outcome : FetchOutcome) : option OAuthTokens :=
  match outcome with
  | Response status (Some newTokens) =>
      if ok status && Js.truthy_opt (access_token newTokens) then Some newTokens else None
  | _ => None
  end.

(** [attempts] is a true record of the calls made between world [w] and world
    [w']: each attempt's URL was posted to [fetch], with the refresh
    parameters, in the world the call before left behind, and the answer
    recorded is the one [fetch] gave; after a usable answer, and only then,
    its tokens (with the stored refresh token where the answer brought none)
    went to [saveTokens], whose verdict is the one recorded; and nothing else
    touched the world. *)
Fixpoint performed (definition : ServerDefinition) (refresh client : string)
    (secret : option string) (attempts : list Attempt) (w w' : W) : Prop :=
  match attempts with
  | [] => w' = w
  | a :: rest =>
      ∃ w1,
        fetch (mkRequest (at_url a) (tokenParams refresh client secret)) w
        = (at_outcome a, w1)
        ∧ match usable (at_outcome a) with
          | None =>
              at_saved a = None
              ∧ performed definition refresh client secret rest w1 w'
          | Some newTokens =>
              ∃ saved w2,
                saveTokens definition
                  (if Js.truthy_opt (refresh_token newTokens) then newTokens
                   else mkTokens (access_token newTokens) (Some refresh)) w1
                = (saved, w2)
                ∧ at_saved a = Some saved
                ∧ performed definition refresh client secret rest w2 w'
          end
  end.

End Refresh.

End OAuthRefresh.

(** ** OAuth promotion: [maybeEnableOAuth] ([src/runtime-oauth-support.ts])

    The sources carry three revisions of this function.  [Permissive] is the
    file as [src/runtime/transport.ts] imports and calls it (synchronously);
    [ProbeFirst] is the asynchronous revision that probes the server first;
    [AdHocOnly] is the revision restricted to ad-hoc sources. *)

Module OAuthSupport.
Import Config.

(** [definition.source && definition.source.kind === 'local' &&
     definition.source.path === '<adhoc>'] *)
Definition isAdHocSource (definition : ServerDefinition) : bool :=
  match source definition with
  | Some src => String.eqb (kind src) "local" && String.eqb (path src) "<adhoc>"
  | None => false
  end.

Module Permissive.

Definition maybeEnableOAuth (definition : ServerDefinition) : option ServerDefinition :=
  if is_oauth definition then None
  else match command definition with
       | StdioCommand _ _ _ => None
       | HttpCommand _ _ => Some (with_oauth definition)
       end.

End Permissive.

Module AdHocOnly.

Definition maybeEnableOAuth (definition : ServerDefinition) : option ServerDefinition :=
  if is_oauth definition then None
  else match command definition with
       | StdioCommand _ _ _ => None
       | HttpCommand _ _ =>
           if negb (isAdHocSource definition) then None
           else Some (with_oauth definition)
       end.

End AdHocOnly.

Module ProbeFirst.

(** The protected-resource document as the probe reads it;
    [authorization_servers] is [None] when the field is missing or is not an
    array. *)
Record ProtectedResource := mkProtectedResource {
  authorization_servers : option (list string)
}.

(** What the GET under its 5-second abort signal yields: the call rejects
    (network failure or deadline), or a response arrives whose body parses to
    a document ([None] when [response.json()] throws or yields no object). *)
Inductive ProbeOutcome :=
| ProbeThrew
| ProbeResponse (status : Z) (json : option ProtectedResource).

Section Probe.

Context {W : Type}.
Variable fetch : string → W → ProbeOutcome * W.

(** Returns the verdict, the URLs requested, and the world afterwards. *)
Definition probeOAuthSupport (url : Js.Url) (w : W) : bool * list string * W :=
  let wellKnownUrl := Js.at_origin "/.well-known/oauth-protected-resource" url in
  let '(outcome, w1) := fetch (Js.href wellKnownUrl) w in
  let supports :=
    match outcome with
    | ProbeThrew => false
    | ProbeResponse status body =>
        if negb (OAuthRefresh.ok status) then false
        else match body with
             | None => false
             | Some metadata =>
                 match authorization_servers metadata with
                 | Some servers => (0 <? length servers)%nat
                 | None => false
                 end
             end
    end in
  (supports, [Js.href wellKnownUrl], w1).

Definition maybeEnableOAuth (definition : ServerDefinition) (w : W)
  : option ServerDefinition * list string * W :=
  if is_oauth definition then (None, [], w)
  else match command definition with
       | StdioCommand _ _ _ => (None, [], w)
       | HttpCommand url _ =>
           if negb (isAdHocSource definition) then
             let '(supportsOAuth, probes, w1) := probeOAuthSupport url w in
             if negb supportsOAuth then (None, probes, w1)
             else (Some (with_oauth definition), probes, w1)
           else (Some (with_oauth definition), [], w)
       end.

End Probe.

End ProbeFirst.

End OAuthSupport.

(** ** The OAuth session: [PersistentOAuthClientProvider] ([src/oauth.ts]) *)

Module OAuthSession.
Import Config.

Definition CALLBACK_HOST : string := "127.0.0.1".
Definition CALLBACK_PATH : string := "/".
Definition DEFAULT_CALLBACK_PORT : N := 33418.
Definition DEFAULT_CLIENT_URI : string := "https://github.com/steipete/mcporter".
Definition DEFAULT_GRANT_TYPES : list string := ["authorization_code"; "refresh_token"].

Record ClientMetadata := mkClientMetadata {
  client_name : string;
  client_uri : string;
  redirect_uris : list string;
  grant_types : list string;
  response_types : list string;
  token_endpoint_auth_method : string;
  scope : string;
  application_type : string
}.

(** The provider's mutable fields.  [authorizationDeferred] holds the handle
    of the pending code promise, [server] the port the attached listener is
    bound to. *)
Record Provider := mkProvider {
  definition : ServerDefinition;
  redirectUrlValue : Js.Url;
  metadata : ClientMetadata;
  authorizationStarted : bool;
  authorizationDeferred : option nat;
  server : option N
}.

(** What [server.listen(port, host)] comes to: the listener is bound and
    reports its port, or an error event carrying an optional [code]. *)
Inductive ListenOutcome :=
| Listening (port : N)
| ListenError (code : option string).

Record DiscoveryResult := mkDiscovery {
  resourceMetadata : option OAuthDiscovery.Metadata;
  authorizationServerMetadata : option OAuthDiscovery.Metadata
}.

Inductive CreateResult :=
| Created (provider : Provider)
| CreateThrew.

(** [new Set<string>()] followed by [add]: insertion order, no duplicates. *)
Definition set_add (x : string) (l : list string) : list string :=
  if bool_decide (x ∈ l) then l else l ++ [x].

Section Create.

Context {W : Type}.
(** [false] when [buildOAuthPersistence] throws. *)
Variable buildOAuthPersistence : ServerDefinition → W → bool * W.
Variable listen : N → string → W → ListenOutcome * W.
Variable discoverOAuthMetadata : Js.Url → W → DiscoveryResult * W.

(** The [try]/[catch] around the first [listenServer] call: the bound port,
    or nothing when the error is rethrown. *)
Definition bindPort (shouldPreferStablePort : bool) (desiredPort : option N)
    (listenHost : string) (w : W) : option N * W :=
  let first := if shouldPreferStablePort then DEFAULT_CALLBACK_PORT
               else default 0%N desiredPort in
  match listen first listenHost w with
  | (Listening port, w1) => (Some port, w1)
  | (ListenError code, w1) =>
      let isAddressInUse := bool_decide (code = Some "EADDRINUSE") in
      if shouldPreferStablePort && isAddressInUse then
        match listen (default 0%N desiredPort) listenHost w1 with
        | (Listening port, w2) => (Some port, w2)
        | (ListenError _, w2) => (None, w2)
        end
      else (None, w1)
  end.

Definition create (definition : ServerDefinition) (w : W) : CreateResult * W :=
  let '(built, w0) := buildOAuthPersistence definition w in
  if negb built then (CreateThrew, w0) else
  let overrideRedirect := oauthRedirectUrl definition in
  let listenHost := default CALLBACK_HOST (Js.hostname <$> overrideRedirect) in
  let overridePort := overrideRedirect ≫= Js.port in
  let usesDynamicPort :=
    bool_decide (overrideRedirect = None)
    || bool_decide (overridePort = None) || bool_decide (overridePort = Some 0%N) in
  let shouldPreferStablePort := bool_decide (overrideRedirect = None) in
  let desiredPort := if usesDynamicPort then None else overridePort in
  let callbackPath :=
    match overrideRedirect with
    | Some o =>
        if Js.truthy (Js.pathname o) && negb (String.eqb (Js.pathname o) "/")
        then Js.pathname o else CALLBACK_PATH
    | None => CALLBACK_PATH
    end in
  match bindPort shouldPreferStablePort desiredPort listenHost w0 with
  | (None, w1) => (CreateThrew, w1)
  | (Some port, w1) =>
      let parsed :=
        match overrideRedirect with
        | Some o => o
        | None => Js.set_port (Js.mkUrl "http:" listenHost None callbackPath "") port
        end in
      let ported := if usesDynamicPort then Js.set_port parsed port else parsed in
      let redirectUrl :=
        match overrideRedirect with
        | Some o =>
            if String.eqb (Js.pathname o) "/" || String.eqb (Js.pathname o) ""
            then Js.set_pathname ported callbackPath else ported
        | None => Js.set_pathname ported callbackPath
        end in
      let '(effectiveScope, authorizationServer, w2) :=
        match command definition with
        | HttpCommand url _ =>
            let '(discovery, w') := discoverOAuthMetadata url w1 in
            (OAuthDiscovery.resolveOAuthScope
               (OAuthDiscovery.mkScopeOptions
                  (resourceMetadata discovery)
                  (authorizationServerMetadata discovery)
                  (Some "mcp:tools")),
             authorizationServerMetadata discovery, w')
        | StdioCommand _ _ _ => ("mcp:tools", None, w1)
        end in
      let filtered :=
        default DEFAULT_GRANT_TYPES
          (filter (λ grant, grant ∈ DEFAULT_GRANT_TYPES)
             <$> (authorizationServer ≫= OAuthDiscovery.grant_types_supported)) in
      let grantTypes :=
        match filtered with
        | [] => DEFAULT_GRANT_TYPES
        | _ :: _ => filtered
        end in
      let redirectUris :=
        if bool_decide (overrideRedirect = None) && String.eqb listenHost CALLBACK_HOST
        then set_add ("http://" +:+ CALLBACK_HOST +:+ ":" +:+ pretty DEFAULT_CALLBACK_PORT +:+ "/")
               (set_add ("http://" +:+ CALLBACK_HOST +:+ "/") [])
        else set_add (Js.href redirectUrl) [] in
      let clientMetadata :=
        {| client_name :=
             default ("mcporter (" +:+ name definition +:+ ")") (clientName definition);
           client_uri := DEFAULT_CLIENT_URI;
           redirect_uris := redirectUris;
           grant_types := grantTypes;
           response_types := ["code"];
           token_endpoint_auth_method := "none";
           scope := effectiveScope;
           application_type := "native" |} in
      (Created (mkProvider definition redirectUrl clientMetadata false None (Some port)), w2)
  end.

End Create.

(** *** The callback request handler installed by [attachServer] *)

(** [new URL(req.url, this.redirectUrlValue)]: the constructor throws, or
    yields a path and the query pairs in order of appearance. *)
Inductive IncomingUrl :=
| Unparseable (reason : string)
| Parsed (pathname : string) (query : list (string * string)).

(** [searchParams.get(key)]: the first value for [key], or [null]. *)
Fixpoint searchParams_get (query : list (string * string)) (key : string)
  : option string :=
  match query with
  | [] => None
  | (k, v) :: rest => if String.eqb k key then Some v else searchParams_get rest key
  end.

Record HttpResponse := mkResponse {
  statusCode : Z;
  contentType : option string;
  body : string
}.

(** What happens to a pending code promise. *)
Inductive Settlement :=
| Resolve (code : string)
| Reject (reason : string).

(** [persistence.readState()]: it throws, or yields the stored state. *)
Inductive ReadOutcome :=
| ReadThrew (reason : string)
| ReadValue (state : option string).

(** The observable effect of one request: the response written ([None]
    when the handler never ends it) and the settlement applied to the
    deferred with the given handle ([None] when nothing was settled). *)
Record Handled := mkHandled {
  response : option HttpResponse;
  settled : option (nat * Settlement)
}.

(** [this.authorizationDeferred?.resolve/reject(...)] *)
Definition settle (p : Provider) (how : Settlement) : option (nat * Settlement) :=
  (λ handle, (handle, how)) <$> authorizationDeferred p.

(** [this.authorizationDeferred = null] *)
Definition dropDeferred (p : Provider) : Provider :=
  {| definition := definition p; redirectUrlValue := redirectUrlValue p;
     metadata := metadata p; authorizationStarted := authorizationStarted p;
     authorizationDeferred := None; server := server p |}.

Definition expectedPath (p : Provider) : string :=
  if Js.truthy (Js.pathname (redirectUrlValue p))
  then Js.pathname (redirectUrlValue p) else "/".

Definition fallbackPath (p : Provider) : option string :=
  if String.eqb (expectedPath p) "/" then Some "/callback" else None.

Definition html (heading text : string) : string :=
  "<html><body><h1>" +:+ heading +:+ "</h1><p>" +:+ text +:+ "</p></body></html>".

Section Handler.

Context {W : Type}.
Variable readState : W → ReadOutcome * W.

Definition handleRequest (p : Provider) (req : IncomingUrl) (w : W)
  : Handled * Provider * W :=
  match req with
  | Unparseable reason =>
      (mkHandled None (settle p (Reject reason)), dropDeferred p, w)
  | Parsed pathname query =>
      if negb (String.eqb pathname (expectedPath p))
         && negb (bool_decide (Some pathname = fallbackPath p))
      then (mkHandled (Some (mkResponse 404 None "Not found")) None, p, w)
      else
        let code := searchParams_get query "code" in
        let error := searchParams_get query "error" in
        let receivedState := searchParams_get query "state" in
        match readState w with
        | (ReadThrew reason, w1) =>
            (mkHandled None (settle p (Reject reason)), dropDeferred p, w1)
        | (ReadValue expectedState, w1) =>
            if Js.truthy_opt expectedState && Js.truthy_opt receivedState
               && negb (bool_decide (receivedState = expectedState))
            then
              (mkHandled
                 (Some (mkResponse 400 (Some "text/html")
                          (html "Authorization failed" "Invalid OAuth state")))
                 (settle p (Reject "Invalid OAuth state")),
               dropDeferred p, w1)
            else if Js.truthy_opt code then
              (mkHandled
                 (Some (mkResponse 200 (Some "text/html")
                          (html "Authorization successful" "You can return to the CLI.")))
                 (settle p (Resolve (default "" code))),
               dropDeferred p, w1)
            else if Js.truthy_opt error then
              (mkHandled
                 (Some (mkResponse 400 (Some "text/html")
                          (html "Authorization failed" (default "" error))))
                 (settle p (Reject ("OAuth error: " +:+ default "" error))),
               dropDeferred p, w1)
            else
              (mkHandled
                 (Some (mkResponse 400 None "Missing authorization code"))
                 (settle p (Reject "Missing authorization code")),
               dropDeferred p, w1)
        end
  end.

End Handler.

End OAuthSession.

(** ** The connect loop and the authorization wait ([src/runtime/oauth.ts]) *)

Module RuntimeOAuth.

Definition DEFAULT_OAUTH_CODE_TIMEOUT_MS : Js.Number := Js.Finite 60000.

(** Values thrown along the connect path: the runtime's own timeout error,
    or any other error with its message and, when it carries one, its
    [status]/[code] property. *)
Inductive Failure :=
| OAuthTimeoutError (serverName : string) (timeoutMs : Js.Number)
| Error (message : string) (status : option Z).

(** [error instanceof Error ? error.message : String(error)], up to the
    wording of the timeout message. *)
Definition detail (e : Failure) : string :=
  match e with
  | OAuthTimeoutError serverName _ =>
      "OAuth authorization for '" +:+ serverName +:+ "' timed out; aborting."
  | Error message _ => message
  end.

(** *** Promises and the timer race *)

Inductive Promise :=
| Pending
| Fulfilled (code : string)
| Rejected (e : Failure).

(** What can happen while a caller waits: the timer armed by [setTimeout]
    fires, or the session settles its code promise. *)
Inductive Happening :=
| TimerFired
| SessionSettled (how : OAuthSession.Settlement).

Definition of_settlement (how : OAuthSession.Settlement) : Promise :=
  match how with
  | OAuthSession.Resolve code => Fulfilled code
  | OAuthSession.Reject reason => Rejected (Error reason None)
  end.

(** [resolve]/[reject] on a promise: only the first settlement counts. *)
Definition settle_once (p v : Promise) : Promise :=
  match p with
  | Pending => v
  | _ => p
  end.

(** The promise [waitForAuthorizationCodeWithTimeout] hands back: the
    session's own promise, or a new promise raced against a timer. *)
Inductive Wait :=
| SessionPromise
| Race (displayName : string) (timeoutMs : Js.Number).

Definition waitForAuthorizationCodeWithTimeout
    (serverName : option string) (timeoutMs : option Js.Number) : Wait :=
  let timeoutMs := default DEFAULT_OAUTH_CODE_TIMEOUT_MS timeoutMs in
  if negb (Js.isFinite timeoutMs) || Js.le_zero timeoutMs then SessionPromise
  else Race (default "unknown" serverName) timeoutMs.

(** The state the race closes over: the session's promise, the timer (armed
    until it fires or is cleared), and the promise handed back. *)
Record RaceState := mkRace {
  inner : Promise;
  timer : bool;
  outer : Promise
}.

Definition race_step (displayName : string) (timeoutMs : Js.Number)
    (st : RaceState) (h : Happening) : RaceState :=
  match h with
  | TimerFired =>
      if timer st
      then mkRace (inner st) false
             (settle_once (outer st) (Rejected (OAuthTimeoutError displayName timeoutMs)))
      else st
  | SessionSettled how =>
      match inner st with
      | Pending =>
          mkRace (of_settlement how) false (settle_once (outer st) (of_settlement how))
      | _ => st
      end
  end.

(** The session's own promise ignores timers: none was armed. *)
Definition session_step (p : Promise) (h : Happening) : Promise :=
  match h with
  | TimerFired => p
  | SessionSettled how => settle_once p (of_settlement how)
  end.

(** The state of the promise handed back once [schedule] has played out. *)
Definition observe (wait : Wait) (schedule : list Happening) : Promise :=
  match wait with
  | SessionPromise => fold_left session_step schedule Pending
  | Race displayName timeoutMs =>
      outer (fold_left (race_step displayName timeoutMs) schedule
               (mkRace Pending true Pending))
  end.

(** [p] is a rejection with the runtime's timeout error. *)
Definition is_timeout (p : Promise) : bool :=
  match p with
  | Rejected (OAuthTimeoutError _ _) => true
  | _ => false
  end.

(** *** [connectWithAuth] *)

(** The error thrown when the session never started the browser flow. *)
Definition neverStarted (error : Failure) : Failure :=
  Error ("OAuth flow failed before a browser authorization could begin. "
         +:+ "This may mean the server rejected dynamic client registration. "
         +:+ "Original error: " +:+ detail error) None.

(** How an awaited call ends; [Hung] when the promise it awaits never
    settles. *)
Inductive Completion :=
| Returned
| Threw (e : Failure)
| Hung.

Inductive Event :=
| EvConnect (failure : option Failure)
| EvWait (wait : Wait) (result : Promise)
| EvFinishAuth (code : string) (failure : option Failure).

Section Connect.

Context {W Transport Session : Type}.
(** [analyzeConnectionError(error).kind === 'auth'] *)
Variable isUnauthorizedError : Failure → bool.
(** [client.connect(transport)]; [None] when it resolves. *)
Variable connect : Transport → W → option Failure * W.
Variable hasFinishAuth : Transport → bool.
Variable finishAuth : Transport → string → W → option Failure * W.
Variable didStartAuthorization : Session → W → bool.
(** What happens, in order, while the caller waits on the session. *)
Variable happenings : Session → W → list Happening * W.

(** The [while (true)] loop, followed for at most [fuel] iterations: [None]
    says that the loop was still running after that many.  [maxAttempts] is
    whatever number the caller passed. *)
Fixpoint connectLoop (fuel : nat) (transport : Transport) (session : option Session)
    (serverName : option string) (maxAttempts : Js.Number) (oauthTimeoutMs : Js.Number)
    (attempt : Z) (w : W) : option (Completion * list Event * W) :=
  match fuel with
  | O => None
  | S fuel' =>
      let '(failure, w1) := connect transport w in
      match failure, session with
      | None, _ => Some (Returned, [EvConnect None], w1)
      | Some error, None => Some (Threw error, [EvConnect failure], w1)
      | Some error, Some sess =>
          if negb (isUnauthorizedError error)
          then Some (Threw error, [EvConnect failure], w1)
          else
            let attempt := Js.increment attempt in
            if Js.gt_int attempt maxAttempts
            then Some (Threw error, [EvConnect failure], w1)
            else if negb (didStartAuthorization sess w1)
            then Some (Threw (neverStarted error), [EvConnect failure], w1)
            else
              let wait :=
                waitForAuthorizationCodeWithTimeout serverName (Some oauthTimeoutMs) in
              let '(schedule, w2) := happenings sess w1 in
              match observe wait schedule with
              | Pending =>
                  Some (Hung, [EvConnect failure; EvWait wait Pending], w2)
              | Rejected authError =>
                  Some (Threw authError,
                        [EvConnect failure; EvWait wait (Rejected authError)], w2)
              | Fulfilled code =>
                  if hasFinishAuth transport then
                    match finishAuth transport code w2 with
                    | (Some authError, w3) =>
                        Some (Threw authError,
                              [EvConnect failure; EvWait wait (Fulfilled code);
                               EvFinishAuth code (Some authError)], w3)
                    | (None, w3) =>
                        match connectLoop fuel' transport session serverName
                                maxAttempts oauthTimeoutMs attempt w3 with
                        | Some (completion, events, w4) =>
                            Some (completion,
                                  [EvConnect failure; EvWait wait (Fulfilled code);
                                   EvFinishAuth code None] ++ events, w4)
                        | None => None
                        end
                    end
                  else
                    Some (Threw error,
                          [EvConnect failure; EvWait wait (Fulfilled code)], w2)
              end
      end
  end.

(** The loop is entered with [attempt = 0]; [maxAttempts] defaults to 3 when
    the caller left it undefined. *)
Definition connectWithAuth (fuel : nat) (transport : Transport) (session : option Session)
    (serverName : option string) (maxAttempts : option Js.Number)
    (oauthTimeoutMs : option Js.Number) (w : W)
  : option (Completion * list Event * W) :=
  let maxAttempts := default (Js.Finite 3) maxAttempts in
  let oauthTimeoutMs := default DEFAULT_OAUTH_CODE_TIMEOUT_MS oauthTimeoutMs in
  connectLoop fuel transport session serverName maxAttempts oauthTimeoutMs 0 w.

(** [events] is a true record of the calls made between world [w] and world
    [w']: every connect, wait and [finishAuth] recorded was made, in that
    order, each in the world the call before left behind, and gave the result
    recorded; and nothing else touched the world. *)
Fixpoint performed (transport : Transport) (session : option Session)
    (events : list Event) (w w' : W) : Prop :=
  match events with
  | [] => w' = w
  | EvConnect failure :: rest =>
      ∃ w1, connect transport w = (failure, w1) ∧ performed transport session rest w1 w'
  | EvWait wait result :: rest =>
      ∃ sess schedule w1,
        session = Some sess
        ∧ happenings sess w = (schedule, w1)
        ∧ observe wait schedule = result
        ∧ performed transport session rest w1 w'
  | EvFinishAuth code failure :: rest =>
      ∃ w1, finishAuth transport code w = (failure, w1)
            ∧ performed transport session rest w1 w'
  end.

End Connect.

(** A number of iterations within which the loop is sure to end, whatever
    the server and the user do: one more than the whole part of a finite
    [maxAttempts] below 2^53, a single one for minus infinity, and none at
    all for [NaN], plus infinity and the numbers from 2^53 on, which the
    attempt counter never exceeds. *)
Definition iterations (maxAttempts : option Js.Number) : option nat :=
  match default (Js.Finite 3) maxAttempts with
  | Js.Finite q =>
      if (Qfloor q <=? Js.MAX_SAFE_INTEGER)%Z then Some (S (Z.to_nat (Qfloor q)))
      else None
  | Js.Infinity true => Some 1%nat
  | _ => None
  end.

(** The connect calls an event list records. *)
Definition connects (events : list Event) : list (option Failure) :=
  omap (λ e, match e with EvConnect failure => Some failure | _ => None end) events.

End RuntimeOAuth.

(** ** The client context builder ([src/runtime/transport.ts]) *)

Module Transport.
Import Config.

Inductive TransportKind := Stdio | StreamableHTTP | SSE.

(** [readCachedAccessToken]: it throws, or yields a token or nothing. *)
Inductive CachedToken :=
| CacheThrew
| Cached (token : option string).

(** The first step of [createClientContext]'s cached-auth path, once a
    truthy token is at hand: put it into the headers unless an
    [Authorization] key is already there. *)
Definition injectCachedToken (activeDefinition : ServerDefinition) (cached : string)
  : ServerDefinition :=
  match command activeDefinition with
  | HttpCommand url headers =>
      let existingHeaders := default ∅ headers in
      match existingHeaders !! "Authorization" with
      | Some _ => activeDefinition
      | None =>
          with_command activeDefinition
            (HttpCommand url
               (Some (<["Authorization" := "Bearer " +:+ cached]> existingHeaders)))
      end
  | StdioCommand _ _ _ => activeDefinition
  end.

Section Builder.

Context {W Session : Type}.

Record ClientTransport := mkTransport {
  kind : TransportKind;
  target : CommandSpec;
  requestHeaders : option (gmap string string);
  authProvider : option Session
}.

Record ClientContext := mkContext {
  transport : ClientTransport;
  definition : ServerDefinition;
  oauthSession : option Session
}.

Inductive Event :=
| EvEnvApplied (env : option (gmap string string))
| EvEnvRestored
| EvReadCachedToken (result : CachedToken)
| EvCreateSession (definition : ServerDefinition) (created : bool)
| EvCloseSession (session : Session)
| EvConnect (transport : ClientTransport) (steps : list RuntimeOAuth.Event)
| EvCloseTransport (transport : ClientTransport)
| EvPromotion (definition : ServerDefinition) (promoted : option ServerDefinition)
| EvDefinitionPromoted (promoted : ServerDefinition).

(** How the builder's promise ends. *)
Inductive Outcome :=
| Ready (context : ClientContext)
| Failed (e : RuntimeOAuth.Failure)
| NeverSettles.

Variable isUnauthorizedError : RuntimeOAuth.Failure → bool.
Variable readCachedAccessToken : ServerDefinition → W → CachedToken * W.
(** [materializeHeaders(headers, name)]: it throws (a placeholder that cannot
    be resolved), or yields the resolved headers, if any. *)
Variable materializeHeaders :
  option (gmap string string) → string
  → RuntimeOAuth.Failure + option (gmap string string).
Variable createOAuthSession : ServerDefinition → W → (RuntimeOAuth.Failure + Session) * W.
Variable closeSession : Session → W → W.
Variable closeTransport : ClientTransport → W → W.
Variable connect : ClientTransport → W → option RuntimeOAuth.Failure * W.
Variable finishAuth : ClientTransport → string → W → option RuntimeOAuth.Failure * W.
Variable didStartAuthorization : Session → W → bool.
Variable happenings : Session → W → list RuntimeOAuth.Happening * W.

Record Options := mkOptions {
  maxOAuthAttempts : option Js.Number;
  oauthTimeoutMs : option Js.Number;
  allowCachedAuth : bool
}.

(** The HTTP transports of the SDK both offer [finishAuth]. *)
Definition hasFinishAuth (t : ClientTransport) : bool :=
  match kind t with
  | Stdio => false
  | StreamableHTTP | SSE => true
  end.

Definition connectWithAuth (fuel : nat) (t : ClientTransport) (session : option Session)
    (activeDefinition : ServerDefinition) (options : Options) (w : W)
  : option (RuntimeOAuth.Completion * list RuntimeOAuth.Event * W) :=
  RuntimeOAuth.connectWithAuth isUnauthorizedError connect hasFinishAuth finishAuth
    didStartAuthorization happenings fuel t session (Some (name activeDefinition))
    (maxOAuthAttempts options) (oauthTimeoutMs options) w.

(** [await oauthSession?.close().catch(() => {})] *)
Definition closeIfOpen (session : option Session) (w : W) : list Event * W :=
  match session with
  | Some s => ([EvCloseSession s], closeSession s w)
  | None => ([], w)
  end.

Definition isTimeoutError (e : RuntimeOAuth.Failure) : bool :=
  match e with
  | RuntimeOAuth.OAuthTimeoutError _ _ => true
  | RuntimeOAuth.Error _ _ => false
  end.

(** The cached-auth step in front of the connection attempts. *)
Definition cachedAuth (definition : ServerDefinition) (options : Options) (w : W)
  : ServerDefinition * list Event * W :=
  if allowCachedAuth options && is_oauth definition && is_http definition then
    let '(result, w1) := readCachedAccessToken definition w in
    match result with
    | Cached (Some cached) =>
        if Js.truthy cached
        then (injectCachedToken definition cached, [EvReadCachedToken result], w1)
        else (definition, [EvReadCachedToken result], w1)
    | _ => (definition, [EvReadCachedToken result], w1)
    end
  else (definition, [], w).

(** One pass through the body of the [while (true)] loop; [inr] is a
    [continue] with the promoted definition.  [fuel] is handed to each
    [connectWithAuth]; [None] says one of them was still looping.  The
    session is created before the headers are materialised, and nothing
    catches what [materializeHeaders] throws. *)
Definition httpAttempt (fuel : nat) (activeDefinition : ServerDefinition)
    (options : Options) (w : W)
  : option ((Outcome + ServerDefinition) * list Event * W) :=
  match command activeDefinition with
  | StdioCommand _ _ _ =>
      Some (inl (Failed (RuntimeOAuth.Error
                   ("Server '" +:+ name activeDefinition
                    +:+ "' is not configured for HTTP transport.") None)), [], w)
  | HttpCommand url headers =>
      let promotionAllowed := negb (Js.is_zero (maxOAuthAttempts options)) in
      let shouldEstablishOAuth := is_oauth activeDefinition && promotionAllowed in
      let '(established, ev0, w0) :=
        if shouldEstablishOAuth then
          match createOAuthSession activeDefinition w with
          | (inr session, w') =>
              (inr (Some session), [EvCreateSession activeDefinition true], w')
          | (inl e, w') => (inl e, [EvCreateSession activeDefinition false], w')
          end
        else (inr None, [], w) in
      match established with
      | inl e => Some (inl (Failed e), ev0, w0)
      | inr oauthSession =>
        match materializeHeaders headers (name activeDefinition) with
        | inl thrown => Some (inl (Failed thrown), ev0, w0)
        | inr resolvedHeaders =>
          let streamableTransport :=
            mkTransport StreamableHTTP (command activeDefinition) resolvedHeaders oauthSession in
          match connectWithAuth fuel streamableTransport oauthSession activeDefinition options w0 with
          | None => None
          | Some (RuntimeOAuth.Returned, steps, w1) =>
              Some (inl (Ready (mkContext streamableTransport activeDefinition oauthSession)),
                    ev0 ++ [EvConnect streamableTransport steps], w1)
          | Some (RuntimeOAuth.Hung, steps, w1) =>
              Some (inl NeverSettles, ev0 ++ [EvConnect streamableTransport steps], w1)
          | Some (RuntimeOAuth.Threw primaryError, steps, w1) =>
              let w2 := closeTransport streamableTransport w1 in
              let ev1 :=
                ev0 ++ [EvConnect streamableTransport steps;
                        EvCloseTransport streamableTransport] in
              let unauthorized := isUnauthorizedError primaryError in
              let '(ev2, w3) :=
                if unauthorized then closeIfOpen oauthSession w2 else ([], w2) in
              let oauthSession' := if unauthorized then None else oauthSession in
              let promoted :=
                if unauthorized && promotionAllowed
                then Some (OAuthSupport.Permissive.maybeEnableOAuth activeDefinition)
                else None in
              let ev3 :=
                match promoted with
                | Some result => [EvPromotion activeDefinition result]
                | None => []
                end in
              match promoted with
              | Some (Some promotedDefinition) =>
                  Some (inr promotedDefinition,
                        ev1 ++ ev2 ++ ev3 ++ [EvDefinitionPromoted promotedDefinition], w3)
              | _ =>
                  if isTimeoutError primaryError then
                    let '(ev4, w4) := closeIfOpen oauthSession' w3 in
                    Some (inl (Failed primaryError), ev1 ++ ev2 ++ ev3 ++ ev4, w4)
                  else
                    let sseTransport :=
                      mkTransport SSE (command activeDefinition) resolvedHeaders oauthSession in
                    match connectWithAuth fuel sseTransport oauthSession' activeDefinition options w3 with
                    | None => None
                    | Some (RuntimeOAuth.Returned, steps', w4) =>
                        Some (inl (Ready (mkContext sseTransport activeDefinition oauthSession')),
                              ev1 ++ ev2 ++ ev3 ++ [EvConnect sseTransport steps'], w4)
                    | Some (RuntimeOAuth.Hung, steps', w4) =>
                        Some (inl NeverSettles,
                              ev1 ++ ev2 ++ ev3 ++ [EvConnect sseTransport steps'], w4)
                    | Some (RuntimeOAuth.Threw sseError, steps', w4) =>
                        let w5 := closeTransport sseTransport w4 in
                        let '(ev5, w6) := closeIfOpen oauthSession' w5 in
                        let ev6 :=
                          ev1 ++ ev2 ++ ev3
                          ++ [EvConnect sseTransport steps'; EvCloseTransport sseTransport]
                          ++ ev5 in
                        if isTimeoutError sseError then Some (inl (Failed sseError), ev6, w6)
                        else if isUnauthorizedError sseError && promotionAllowed then
                          match OAuthSupport.Permissive.maybeEnableOAuth activeDefinition with
                          | Some promotedDefinition =>
                              Some (inr promotedDefinition,
                                    ev6 ++ [EvPromotion activeDefinition (Some promotedDefinition);
                                            EvDefinitionPromoted promotedDefinition], w6)
                          | None =>
                              Some (inl (Failed sseError),
                                    ev6 ++ [EvPromotion activeDefinition None], w6)
                          end
                        else Some (inl (Failed sseError), ev6, w6)
                    end
              end
          end
        end
      end
  end.

Fixpoint httpLoop (passes : nat) (fuel : nat) (activeDefinition : ServerDefinition)
    (options : Options) (w : W) : option (Outcome * list Event * W) :=
  match passes with
  | O => None
  | S passes' =>
      match httpAttempt fuel activeDefinition options w with
      | None => None
      | Some (inl outcome, events, w1) => Some (outcome, events, w1)
      | Some (inr promotedDefinition, events, w1) =>
          match httpLoop passes' fuel promotedDefinition options w1 with
          | Some (outcome, events', w2) => Some (outcome, events ++ events', w2)
          | None => None
          end
      end
  end.

(** A promotion turns [auth] into "oauth" and a definition with that [auth]
    is never promoted again, so the loop body runs at most twice.  [fuel]
    bounds the iterations followed in each connect loop. *)
Definition createClientContext (fuel : nat) (definition : ServerDefinition)
    (options : Options) (w : W)
  : option (Outcome * list Event * W) :=
  let '(activeDefinition, ev0, w0) := cachedAuth definition options w in
  let body :=
    match command activeDefinition with
    | StdioCommand _ _ _ =>
        let stdioTransport := mkTransport Stdio (command activeDefinition) None None in
        match connect stdioTransport w0 with
        | (None, w1) =>
            Some (Ready (mkContext stdioTransport activeDefinition None),
                  [EvConnect stdioTransport [RuntimeOAuth.EvConnect None]], w1)
        | (Some error, w1) =>
            Some (Failed error,
                  [EvConnect stdioTransport [RuntimeOAuth.EvConnect (Some error)];
                   EvCloseTransport stdioTransport],
                  closeTransport stdioTransport w1)
        end
    | HttpCommand _ _ => httpLoop 2 fuel activeDefinition options w0
    end in
  match body with
  | Some (outcome, events, w1) =>
      Some (outcome,
            ev0 ++ [EvEnvApplied (env activeDefinition)] ++ events ++ [EvEnvRestored], w1)
  | None => None
  end.

(** The session [createOAuthSession] gave, when it did not throw. *)
Definition createdSession (made : RuntimeOAuth.Failure + Session) : option Session :=
  match made with
  | inr session => Some session
  | inl _ => None
  end.

(** [events] is a true record of the calls the builder made between world
    [w] and world [w'], [definition] being the definition it was called with
    and [held] the OAuth session it holds: the token cache was read, sessions
    were created, sessions and transports were closed and the calls inside
    each connect were made, all in the order recorded, each in the world the
    call before left behind and with the result recorded, and nothing else
    touched the world.  A session is created only while none is held, the
    session closed is the one held, and every connect is given the session
    held at that point.  [held'] is the session held in the end. *)
Fixpoint performed (definition : ServerDefinition) (events : list Event)
    (held : option Session) (w : W) (held' : option Session) (w' : W) : Prop :=
  match events with
  | [] => held' = held ∧ w' = w
  | EvReadCachedToken result :: rest =>
      ∃ w1, readCachedAccessToken definition w = (result, w1)
            ∧ performed definition rest held w1 held' w'
  | EvCreateSession active created :: rest =>
      held = None
      ∧ ∃ made w1,
          createOAuthSession active w = (made, w1)
          ∧ created = (if made is inr _ then true else false)
          ∧ performed definition rest (createdSession made) w1 held' w'
  | EvCloseSession session :: rest =>
      held = Some session
      ∧ performed definition rest None (closeSession session w) held' w'
  | EvConnect transport steps :: rest =>
      ∃ w1,
        RuntimeOAuth.performed connect finishAuth happenings transport held steps w w1
        ∧ performed definition rest held w1 held' w'
  | EvCloseTransport transport :: rest =>
      performed definition rest held (closeTransport transport w) held' w'
  | EvEnvApplied _ :: rest | EvEnvRestored :: rest
  | EvPromotion _ _ :: rest | EvDefinitionPromoted _ :: rest =>
      performed definition rest held w held' w'
  end.

(** The sessions opened and the promotions attempted along a run. *)
Definition opensSession (e : Event) : bool :=
  match e with
  | EvCreateSession _ _ => true
  | _ => false
  end.

Definition attemptsPromotion (e : Event) : bool :=
  match e with
  | EvPromotion _ _ | EvDefinitionPromoted _ => true
  | _ => false
  end.

End Builder.

End Transport.

(** ** Concrete servers and worlds used to exercise the model *)

Module Scenarios.
Import Config.

Definition example_url : Js.Url :=
  Js.mkUrl "https:" "mcp.example.com" None "/mcp" "".

Definition homey_url : Js.Url :=
  Js.mkUrl "https:" "homey.example.com" None "/mcp" "".

Definition http_definition (n : string) (u : Js.Url) (a : option string)
    (src : option Source) : ServerDefinition :=
  {| name := n; command := HttpCommand u None; auth := a; source := src;
     env := None; tokenCacheDir := None; clientName := None;
     oauthRedirectUrl := None |}.

Definition example_server : ServerDefinition :=
  http_definition "example" example_url (Some "oauth")
    (Some (mkSource "local" "/home/user/.mcporter/mcporter.json")).

Definition homey_server : ServerDefinition :=
  http_definition "homey" homey_url (Some "oauth")
    (Some (mkSource "local" "/home/user/.mcporter/mcporter.json")).

Definition stored_tokens : OAuthRefresh.OAuthTokens :=
  OAuthRefresh.mkTokens (Some "stale") (Some "r1").

Definition stored_client : OAuthRefresh.ClientInfo :=
  OAuthRefresh.mkClientInfo (Some "c1") None.

Definition stored_entry : OAuthRefresh.VaultEntry :=
  OAuthRefresh.mkVaultEntry (Some stored_tokens) (Some stored_client).

(** A vault that holds [stored_entry] for every server; the world carries
    no further state. *)
Definition vault (_ : ServerDefinition) (w : unit)
  : option OAuthRefresh.VaultEntry * unit := (Some stored_entry, w).

Definition persist (_ : ServerDefinition) (_ : OAuthRefresh.OAuthTokens) (w : unit)
  : bool * unit := (true, w).

(** Every endpoint is unreachable. *)
Definition offline (_ : OAuthRefresh.Request) (w : unit)
  : OAuthRefresh.FetchOutcome * unit := (OAuthRefresh.FetchThrew, w).

(** Only "/token" at the example origin is a token endpoint; every other
    path answers 404. *)
Definition token_at_slash_token (r : OAuthRefresh.Request) (w : unit)
  : OAuthRefresh.FetchOutcome * unit :=
  if String.eqb (OAuthRefresh.req_url r) "https://mcp.example.com/token"
  then (OAuthRefresh.Response 200 (Some (OAuthRefresh.mkTokens (Some "fresh") None)), w)
  else (OAuthRefresh.Response 404 None, w).

(** A configured (not ad-hoc) HTTP server without an [auth] field. *)
Definition configured_server : ServerDefinition :=
  http_definition "configured" example_url None
    (Some (mkSource "local" "/home/user/.mcporter/mcporter.json")).

Definition adhoc_server : ServerDefinition :=
  http_definition "adhoc" example_url None (Some (mkSource "local" "<adhoc>")).

(** The server publishes a protected-resource document naming one
    authorization server. *)
Definition advertising (_ : string) (w : unit)
  : OAuthSupport.ProbeFirst.ProbeOutcome * unit :=
  (OAuthSupport.ProbeFirst.ProbeResponse 200
     (Some (OAuthSupport.ProbeFirst.mkProtectedResource (Some ["https://auth.example.com"]))),
   w).

(** The server has no protected-resource document. *)
Definition silent (_ : string) (w : unit)
  : OAuthSupport.ProbeFirst.ProbeOutcome * unit :=
  (OAuthSupport.ProbeFirst.ProbeResponse 404 None, w).

Definition persistence_ok (_ : ServerDefinition) (w : unit) : bool * unit := (true, w).

(** Port 33418 is free; a request for port 0 is given port 49152. *)
Definition stable_port_free (requested : N) (_ : string) (w : unit)
  : OAuthSession.ListenOutcome * unit :=
  (OAuthSession.Listening (if (requested =? 0)%N then 49152%N else requested), w).

(** Port 33418 is taken by another process; a request for port 0 is given
    port 54321. *)
Definition stable_port_busy (requested : N) (_ : string) (w : unit)
  : OAuthSession.ListenOutcome * unit :=
  if (requested =? 33418)%N then (OAuthSession.ListenError (Some "EADDRINUSE"), w)
  else (OAuthSession.Listening (if (requested =? 0)%N then 54321%N else requested), w).

(** Neither metadata document can be fetched. *)
Definition no_discovery (_ : Js.Url) (w : unit) : OAuthSession.DiscoveryResult * unit :=
  (OAuthSession.mkDiscovery None None, w).

(** A session on the stable port whose authorization is under way: the code
    promise with handle 7 is pending. *)
Definition waiting_provider : OAuthSession.Provider :=
  {| OAuthSession.definition := example_server;
     OAuthSession.redirectUrlValue := Js.mkUrl "http:" "127.0.0.1" (Some 33418%N) "/" "";
     OAuthSession.metadata :=
       {| OAuthSession.client_name := "mcporter (example)";
          OAuthSession.client_uri := OAuthSession.DEFAULT_CLIENT_URI;
          OAuthSession.redirect_uris := ["http://127.0.0.1/"; "http://127.0.0.1:33418/"];
          OAuthSession.grant_types := OAuthSession.DEFAULT_GRANT_TYPES;
          OAuthSession.response_types := ["code"];
          OAuthSession.token_endpoint_auth_method := "none";
          OAuthSession.scope := "mcp:tools";
          OAuthSession.application_type := "native" |};
     OAuthSession.authorizationStarted := true;
     OAuthSession.authorizationDeferred := Some 7%nat;
     OAuthSession.server := Some 33418%N |}.

(** The session [create] yields when the stable port is busy. *)
Definition fallback_provider : OAuthSession.Provider :=
  {| OAuthSession.definition := example_server;
     OAuthSession.redirectUrlValue := Js.mkUrl "http:" "127.0.0.1" (Some 54321%N) "/" "";
     OAuthSession.metadata := OAuthSession.metadata waiting_provider;
     OAuthSession.authorizationStarted := false;
     OAuthSession.authorizationDeferred := None;
     OAuthSession.server := Some 54321%N |}.

Definition state_persisted (state : string) (w : unit) : OAuthSession.ReadOutcome * unit :=
  (OAuthSession.ReadValue (Some state), w).

Definition state_missing (w : unit) : OAuthSession.ReadOutcome * unit :=
  (OAuthSession.ReadValue None, w).

(** A stand-in for the classifier: an error is [auth] when it carries
    status 401. *)
Definition status_401 (e : RuntimeOAuth.Failure) : bool :=
  match e with
  | RuntimeOAuth.Error _ (Some 401%Z) => true
  | _ => false
  end.

Definition unauthorized_error : RuntimeOAuth.Failure :=
  RuntimeOAuth.Error "Non-200 status code (401)" (Some 401%Z).

Definition refused_error : RuntimeOAuth.Failure :=
  RuntimeOAuth.Error "connect ECONNREFUSED 127.0.0.1:443" None.

(** The server answers every connect with 401, whatever code was handed in. *)
Definition always_401 (_ : unit) (w : unit) : option RuntimeOAuth.Failure * unit :=
  (Some unauthorized_error, w).

Definition always_refused (_ : unit) (w : unit) : option RuntimeOAuth.Failure * unit :=
  (Some refused_error, w).

Definition finish_ok (_ : unit) (_ : string) (w : unit)
  : option RuntimeOAuth.Failure * unit := (None, w).

(** The browser flow was started and the user approves at once. *)
Definition started (_ : unit) (_ : unit) : bool := true.

Definition approves (_ : unit) (w : unit) : list RuntimeOAuth.Happening * unit :=
  ([RuntimeOAuth.SessionSettled (OAuthSession.Resolve "abc")], w).

(** An OAuth server whose configured headers already carry a bearer. *)
Definition preset_headers : gmap string string :=
  <["Authorization" := "Bearer preset"]> (<["X-Trace" := "1"]> ∅).

Definition preset_server : ServerDefinition :=
  {| name := "preset"; command := HttpCommand example_url (Some preset_headers);
     auth := Some "oauth"; source := None; env := None; tokenCacheDir := None;
     clientName := None; oauthRedirectUrl := None |}.

Definition cached_token (_ : ServerDefinition) (w : unit) : Transport.CachedToken * unit :=
  (Transport.Cached (Some "tok"), w).

Definition cached_options : Transport.Options :=
  Transport.mkOptions None None true.

(** A builder world: headers hold no placeholders, sessions open without
    trouble, and the server answers every connect with 401. *)
Definition plain_headers (headers : option (gmap string string)) (_ : string)
  : RuntimeOAuth.Failure + option (gmap string string) := inr headers.

Definition opens_session (_ : ServerDefinition) (w : unit)
  : (RuntimeOAuth.Failure + unit) * unit := (inr (), w).

Definition closes (A : Type) (_ : A) (w : unit) : unit := w.

Definition rejects_all (_ : @Transport.ClientTransport unit) (w : unit)
  : option RuntimeOAuth.Failure * unit := (Some unauthorized_error, w).

Definition finishes (_ : @Transport.ClientTransport unit) (_ : string) (w : unit)
  : option RuntimeOAuth.Failure * unit := (None, w).

(** Each connect loop is followed for up to eight iterations, twice what
    the default attempt budget can take. *)
Definition build_against_401 (definition : ServerDefinition) (options : Transport.Options)
  : option (@Transport.Outcome unit * list (@Transport.Event unit) * unit) :=
  Transport.createClientContext status_401 cached_token plain_headers opens_session
    (closes unit) (closes _) rejects_all finishes started approves 8 definition options ().

End Scenarios.

(** ** Timeout configuration ([src/runtime/oauth.ts], continued) *)

Module OAuthTimeout.

Section Parse.

(** [Number.parseInt(raw, 10)] *)
Variable parseInt : string → Js.Number.

Definition parseOAuthTimeout (raw : option string) : Js.Number :=
  match raw with
  | None => RuntimeOAuth.DEFAULT_OAUTH_CODE_TIMEOUT_MS
  | Some text =>
      if negb (Js.truthy text) then RuntimeOAuth.DEFAULT_OAUTH_CODE_TIMEOUT_MS
      else
        let parsed := parseInt text in
        if negb (Js.isFinite parsed) || Js.le_zero parsed
        then RuntimeOAuth.DEFAULT_OAUTH_CODE_TIMEOUT_MS
        else parsed
  end.

(** [process.env] is a dictionary of strings. *)
Definition resolveOAuthTimeoutFromEnv (env : gmap string string) : Js.Number :=
  parseOAuthTimeout
    (Js.nullish_opt (env !! "MCPORTER_OAUTH_TIMEOUT_MS") (env !! "MCPORTER_OAUTH_TIMEOUT")).

End Parse.

(** The events one unauthorized failure turned into a retry leaves behind:
    the failed connect, the code the wait delivered, and [finishAuth]
    accepting that code. *)
Definition retry (r : RuntimeOAuth.Failure * RuntimeOAuth.Wait * string)
  : list RuntimeOAuth.Event :=
  [ RuntimeOAuth.EvConnect (Some r.1.1);
    RuntimeOAuth.EvWait r.1.2 (RuntimeOAuth.Fulfilled r.2);
    RuntimeOAuth.EvFinishAuth r.2 None ].

(** [finishAuth] went through. *)
Definition finished (e : RuntimeOAuth.Event) : bool :=
  match e with
  | RuntimeOAuth.EvFinishAuth _ None => true
  | _ => false
  end.

End OAuthTimeout.

(** ** The provider's methods ([src/oauth.ts], continued) *)

Module OAuthProvider.
Import OAuthSession.

Definition CLOSED_MESSAGE : string :=
  "OAuth session closed before receiving authorization code.".

(** The callback path the handler serves: the expected one, or "/callback"
    when the expected one is "/". *)
Definition servesPath (p : Provider) (pathname : string) : bool :=
  String.eqb pathname (expectedPath p) || bool_decide (Some pathname = fallbackPath p).

(** The handler's state guard: both states are truthy and they differ. *)
Definition stateMismatch (expectedState receivedState : option string) : bool :=
  Js.truthy_opt expectedState && Js.truthy_opt receivedState
  && negb (bool_decide (receivedState = expectedState)).

Section Methods.

Context {W : Type}.
(** [createDeferred()]: a new promise, named by its handle. *)
Variable createDeferred : W → nat * W.
(** [openExternal(url)] and the lines printed for the user. *)
Variable openExternal : string → W → W.
(** [server.close(callback)] for the listener bound to the given port. *)
Variable closeServer : N → W → W.

Definition redirectToAuthorization (p : Provider) (authorizationUrl : string) (w : W)
  : Provider * W :=
  let '(handle, w1) := createDeferred w in
  (mkProvider (definition p) (redirectUrlValue p) (metadata p) true (Some handle)
     (server p),
   openExternal authorizationUrl w1).

(** Returns the handle of the promise handed out. *)
Definition waitForAuthorizationCode (p : Provider) (w : W) : nat * Provider * W :=
  match authorizationDeferred p with
  | Some handle => (handle, p, w)
  | None =>
      let '(handle, w1) := createDeferred w in
      (handle,
       mkProvider (definition p) (redirectUrlValue p) (metadata p)
         (authorizationStarted p) (Some handle) (server p),
       w1)
  end.

Definition didStartAuthorization (p : Provider) : bool := authorizationStarted p.

(** Returns the settlement applied to the pending promise, if there was
    one. *)
Definition close (p : Provider) (w : W) : option (nat * Settlement) * Provider * W :=
  let rejected := settle p (Reject CLOSED_MESSAGE) in
  let p1 := dropDeferred p in
  match server p1 with
  | None => (rejected, p1, w)
  | Some port =>
      (rejected,
       mkProvider (definition p1) (redirectUrlValue p1) (metadata p1)
         (authorizationStarted p1) None None,
       closeServer port w)
  end.

End Methods.

End OAuthProvider.

(** ** Metadata discovery: [discoverOAuthMetadata] ([src/oauth-discovery.ts]) *)

Module Discovery.

(** The protected-resource document: the list of authorization servers it
    names besides the fields read elsewhere. *)
Record ResourceDocument := mkResourceDocument {
  authorization_servers : option (list string);
  fields : OAuthDiscovery.Metadata
}.

(** [discoverAuthorizationServerMetadata]: it throws, or yields a document
    or [undefined]. *)
Inductive Lookup :=
| LookupThrew
| Found (document : option OAuthDiscovery.Metadata).

Record OAuthDiscoveryResult := mkResult {
  resourceMetadata : option ResourceDocument;
  authorizationServerMetadata : option OAuthDiscovery.Metadata;
  authorizationServerUrl : Js.Url
}.

Section Discover.

Context {W : Type}.
(** [new URL(text)]; [None] when the constructor throws. *)
Variable parseUrl : string → option Js.Url.
(** [discoverOAuthProtectedResourceMetadata]; [None] when it throws. *)
Variable discoverOAuthProtectedResourceMetadata :
  Js.Url → W → option ResourceDocument * W.
Variable discoverAuthorizationServerMetadata : Js.Url → W → Lookup * W.

(** Returns the result, the URLs at which authorization-server metadata was
    looked up, and the world afterwards. *)
Definition discoverOAuthMetadata (resourceUrl : Js.Url) (w : W)
  : OAuthDiscoveryResult * list Js.Url * W :=
  let '(resourceMetadata, w1) := discoverOAuthProtectedResourceMetadata resourceUrl w in
  let authorizationServer :=
    (resourceMetadata ≫= authorization_servers) ≫= head in
  let parsed :=
    match authorizationServer with
    | Some text => if Js.truthy text then parseUrl text else None
    | None => None
    end in
  let authorizationServerUrl := default (Js.at_origin "/" resourceUrl) parsed in
  let '(lookup, w2) := discoverAuthorizationServerMetadata authorizationServerUrl w1 in
  let authorizationServerMetadata :=
    match lookup with
    | LookupThrew => None
    | Found document => document
    end in
  (mkResult resourceMetadata authorizationServerMetadata authorizationServerUrl,
   [authorizationServerUrl], w2).

(** What [PersistentOAuthClientProvider.create] reads off the result. *)
Definition forSession (resourceUrl : Js.Url) (w : W) : OAuthSession.DiscoveryResult * W :=
  let '(result, _, w') := discoverOAuthMetadata resourceUrl w in
  (OAuthSession.mkDiscovery (fields <$> resourceMetadata result)
     (authorizationServerMetadata result), w').

End Discover.

End Discovery.

(** ** A world that records what is persisted *)

Module Recording.

(** Runs [f] on the first component of the world and leaves the record
    alone. *)
Definition lifted {A B W L : Type} (f : A → W → B * W) (a : A) (s : W * L)
  : B * (W * L) :=
  let '(b, w') := f a s.1 in (b, (w', s.2)).

Definition lifted2 {D A B W L : Type} (f : D → A → W → B * W) (d : D) (a : A)
    (s : W * L) : B * (W * L) :=
  let '(b, w') := f d a s.1 in (b, (w', s.2)).

(** [saveTokens], noting down the tokens it is handed. *)
Definition recording {D T W : Type} (save : D → T → W → bool * W) (d : D) (t : T)
    (s : W * list T) : bool * (W * list T) :=
  let '(b, w') := save d t s.1 in (b, (w', s.2 ++ [t])).

End Recording.

(** ** What a run of the builder opens and closes *)

Module Resources.

Section Counts.

Context {Session : Type}.

(** The definitions for which a session was opened. *)
Definition openedSessions (events : list (@Transport.Event Session))
  : list Config.ServerDefinition :=
  omap (λ e, match e with
             | Transport.EvCreateSession definition true => Some definition
             | _ => None
             end) events.

Definition closedSessions (events : list (@Transport.Event Session)) : list Session :=
  omap (λ e, match e with
             | Transport.EvCloseSession session => Some session
             | _ => None
             end) events.

(** The definitions reported through [onDefinitionPromoted]. *)
Definition promotions (events : list (@Transport.Event Session))
  : list Config.ServerDefinition :=
  omap (λ e, match e with
             | Transport.EvDefinitionPromoted promoted => Some promoted
             | _ => None
             end) events.

(** The number of sessions a context keeps open. *)
Definition kept (session : option Session) : nat :=
  match session with
  | Some _ => 1
  | None => 0
  end.

(** What the builder does to its transports, in order. *)
Inductive TransportOp :=
| Connected (transport : @Transport.ClientTransport Session)
| Closed (transport : @Transport.ClientTransport Session).

Definition transportOps (events : list (@Transport.Event Session)) : list TransportOp :=
  omap (λ e, match e with
             | Transport.EvConnect transport _ => Some (Connected transport)
             | Transport.EvCloseTransport transport => Some (Closed transport)
             | _ => None
             end) events.

(** [ops] never has two transports open at once: starting with [open], a
    transport is connected only while none is open, what is closed is the
    transport that is open, and [final] is what is open at the end. *)
Fixpoint alternates (open : option (@Transport.ClientTransport Session))
    (ops : list TransportOp) (final : option (@Transport.ClientTransport Session))
  : Prop :=
  match ops with
  | [] => final = open
  | Connected transport :: rest => open = None ∧ alternates (Some transport) rest final
  | Closed transport :: rest => open = Some transport ∧ alternates None rest final
  end.

End Counts.

End Resources.

(** ** Further concrete worlds *)

(** ** [createOAuthFetch]: the fetch given to the HTTP transports of an
    OAuth session ([src/runtime/transport.ts], lines 27-98)

    The platform's string functions, the URL parser, the [Headers] class and
    the global [fetch] are section variables.  [Headers] and the literal
    forms of [HeadersInit] stay abstract; the global [Request] class is taken
    to exist, as it does on every supported runtime. *)

Module OAuthFetch.

Definition REGISTRATION_TOKEN_ENV : string := "MCPORTER_OAUTH_REGISTRATION_TOKEN".
Definition REGISTRATION_HEADER_ENV : string := "MCPORTER_OAUTH_REGISTRATION_HEADER".

(** [String.prototype.endsWith] *)
Fixpoint endsWith (s suffix : string) : bool :=
  String.eqb s suffix ||
  match s with
  | EmptyString => false
  | String _ s' => endsWith s' suffix
  end.

Section Fetch.

Context {W Headers Literal Blob Opaque Response Thrown : Type}.

(** [HeadersInit]: a [Headers] object or a literal (record or pair list). *)
Inductive HeadersInit :=
  | HeadersObject (h : Headers)
  | HeadersLiteral (l : Literal).

Inductive Body :=
  | TextBody (text : string)
  | OtherBody (b : Blob).

(** [RequestInit]; [others] holds the members the function never reads. *)
Record RequestInit := mkRequestInit {
  method : option string;
  headers : option HeadersInit;
  body : option Body;
  others : gmap string Opaque
}.

Record Request := mkRequest {
  request_url : string;
  request_method : string;
  request_headers : Headers
}.

(** [RequestInfo | URL] *)
Inductive Input :=
  | InputText (s : string)
  | InputUrl (u : Js.Url)
  | InputRequest (r : Request).

Inductive Fetched :=
  | Resolved (response : Response)
  | Rejected (error : Thrown).

(** What became of one call of the returned function: [fetch] was called
    with the caller's input and [sent], or building the headers threw before
    [fetch] was reached. *)
Inductive Outcome :=
  | Sent (sent : option RequestInit) (result : Fetched)
  | HeadersThrew.

Variable trim toUpperCase toLowerCase : string → string.
(** [new URL(text)]; [None] when it throws. *)
Variable parseUrl : string → option Js.Url.
(** [new Headers(init)]; [None] when it throws. *)
Variable newHeaders : option HeadersInit → option Headers.
(** [headers.set(name, value)] on a fresh [Headers]; [None] when it throws. *)
Variable headersSet : Headers → string → string → option Headers.
Variable fetch : Input → option RequestInit → W → Fetched * W.
Variable status : Response → N.
Variable statusText : Response → string.
(** [text.length] and [text.slice(0, n)], which count UTF-16 code units. *)
Variable codeUnits : string → nat.
Variable sliceUnits : nat → string → string.

Definition resolveFetchUrl (input : Input) : option Js.Url :=
  match input with
  | InputText s => parseUrl s
  | InputUrl u => Some u
  | InputRequest r => parseUrl (request_url r)
  end.

Definition isRegistrationRequest (url : option Js.Url) (method : string) : bool :=
  match url with
  | None => false
  | Some u =>
      if negb (String.eqb (toUpperCase method) "POST") then false
      else endsWith (Js.pathname u) "/register"
  end.

Definition headerName (env : gmap string string) : string :=
  match trim <$> env !! REGISTRATION_HEADER_ENV with
  | Some raw => if Js.truthy raw && (0 <? String.length raw)%nat then raw else "Authorization"
  | None => "Authorization"
  end.

Definition rawToken (env : gmap string string) : option string :=
  trim <$> env !! REGISTRATION_TOKEN_ENV.

Definition headerValue (env : gmap string string) : option string :=
  if Js.truthy_opt (rawToken env)
     && String.eqb (toLowerCase (headerName env)) "authorization"
  then Some ("Bearer " +:+ Js.nullish (rawToken env) "")
  else rawToken env.

(** [{ ...init, headers }] *)
Definition withHeaders (init : option RequestInit) (h : Headers) : RequestInit :=
  match init with
  | Some i => mkRequestInit (method i) (Some (HeadersObject h)) (body i) (others i)
  | None => mkRequestInit None (Some (HeadersObject h)) None ∅
  end.

Definition describe (url : option Js.Url) : string :=
  match url with
  | Some u => Js.href u
  | None => "unknown"
  end.

Definition payloadLog (init : option RequestInit) : list string :=
  match init ≫= body with
  | Some (TextBody text) =>
      let bodyPreview :=
        if (500 <? codeUnits text)%nat
        then sliceUnits 500 text +:+ "..."
        else text in
      ["OAuth registration payload: " +:+ bodyPreview]
  | _ => []
  end.

Definition requestMethod (input : Input) (init : option RequestInit) : string :=
  toUpperCase
    (Js.nullish (init ≫= method)
       (match input with
        | InputRequest r => request_method r
        | _ => "GET"
        end)).

Definition inheritedHeaders (input : Input) (init : option RequestInit)
  : option HeadersInit :=
  Js.nullish_opt (init ≫= headers)
    (match input with
     | InputRequest r => Some (HeadersObject (request_headers r))
     | _ => None
     end).

Definition responseLog (result : Fetched) : list string :=
  match result with
  | Resolved response =>
      [trim ("OAuth registration response: " +:+ pretty (status response)
             +:+ " " +:+ statusText response)]
  | Rejected _ => []
  end.

(** The function [createOAuthFetch] returns, with the environment it read
    when it was created; the list holds the [logger.debug] messages. *)
Definition createOAuthFetch (env : gmap string string) (input : Input)
    (init : option RequestInit) (w : W) : Outcome * list string * W :=
  let url := resolveFetchUrl input in
  let isRegistration := isRegistrationRequest url (requestMethod input init) in
  if isRegistration then
    let decorated : option (option RequestInit * list string) :=
      if Js.truthy_opt (headerValue env) then
        match newHeaders (inheritedHeaders input init) with
        | None => None
        | Some h =>
            match headersSet h (headerName env) (Js.nullish (headerValue env) "") with
            | None => None
            | Some h' =>
                Some (Some (withHeaders init h'),
                      ["OAuth registration request: " +:+ describe url
                       +:+ " (added header " +:+ headerName env +:+ ")."])
            end
        end
      else
        Some (init,
              ["OAuth registration request: " +:+ describe url
               +:+ " (no registration token provided)."]) in
    match decorated with
    | None => (HeadersThrew, [], w)
    | Some (nextInit, logs) =>
        let '(result, w') := fetch input nextInit w in
        (Sent nextInit result, logs ++ payloadLog init ++ responseLog result, w')
    end
  else
    let '(result, w') := fetch input init w in
    (Sent init result, [], w').

End Fetch.

End OAuthFetch.

Module Cases.
Import Config.

(** The user never approves: the timer is the only thing that happens. *)
Definition never_approves (_ : unit) (w : unit) : list RuntimeOAuth.Happening * unit :=
  ([RuntimeOAuth.TimerFired], w).

(** The resource names two authorization servers; the authorization server
    supports three grants, one of which the client does not use. *)
Definition resource_document : Discovery.ResourceDocument :=
  Discovery.mkResourceDocument
    (Some ["https://auth.example.com/"; "https://backup.example.com/"])
    (OAuthDiscovery.mkMetadata (Some ["mcp:connect"; "openid"]) None).

Definition server_document : OAuthDiscovery.Metadata :=
  OAuthDiscovery.mkMetadata None
    (Some ["refresh_token"; "client_credentials"; "authorization_code"]).

Definition auth_url : Js.Url := Js.mkUrl "https:" "auth.example.com" None "/" "".

Definition parses_auth (text : string) : option Js.Url :=
  if String.eqb text "https://auth.example.com/" then Some auth_url else None.

Definition finds_resource (_ : Js.Url) (w : unit) : option Discovery.ResourceDocument * unit :=
  (Some resource_document, w).

Definition finds_server (_ : Js.Url) (w : unit) : Discovery.Lookup * unit :=
  (Discovery.Found (Some server_document), w).

(** An override on a fixed port that another process holds. *)
Definition override_server : ServerDefinition :=
  {| name := "override"; command := HttpCommand Scenarios.example_url None;
     auth := Some "oauth"; source := None; env := None; tokenCacheDir := None;
     clientName := Some "My client";
     oauthRedirectUrl := Some (Js.mkUrl "http:" "localhost" (Some 8080%N) "/cb" "") |}.

Definition all_ports_busy (_ : N) (_ : string) (w : unit)
  : OAuthSession.ListenOutcome * unit :=
  (OAuthSession.ListenError (Some "EADDRINUSE"), w).

Definition permission_denied (_ : N) (_ : string) (w : unit)
  : OAuthSession.ListenOutcome * unit :=
  (OAuthSession.ListenError (Some "EACCES"), w).





(** Headers with a placeholder that cannot be resolved. *)
Definition placeholder_error : RuntimeOAuth.Failure :=
  RuntimeOAuth.Error "Header placeholder cannot be resolved" None.

Definition unresolved_headers (_ : option (gmap string string)) (_ : string)
  : RuntimeOAuth.Failure + option (gmap string string) := inl placeholder_error.

(** ASCII renderings of the platform's string functions, enough for the
    texts used below: on ASCII text a byte is a code unit. *)
Fixpoint lower_ascii (s : string) : string :=
  match s with
  | EmptyString => EmptyString
  | String c s' =>
      let n := Ascii.nat_of_ascii c in
      String (if (65 <=? n)%nat && (n <=? 90)%nat
              then Ascii.ascii_of_nat (n + 32) else c)
        (lower_ascii s')
  end.

Fixpoint upper_ascii (s : string) : string :=
  match s with
  | EmptyString => EmptyString
  | String c s' =>
      let n := Ascii.nat_of_ascii c in
      String (if (97 <=? n)%nat && (n <=? 122)%nat
              then Ascii.ascii_of_nat (n - 32) else c)
        (upper_ascii s')
  end.

Fixpoint trim_start (s : string) : string :=
  match s with
  | String c s' => if Ascii.eqb c (Ascii.ascii_of_nat 32) then trim_start s' else s
  | EmptyString => s
  end.

Definition trim_spaces (s : string) : string :=
  String.rev (trim_start (String.rev (trim_start s))).

Definition register_url : Js.Url :=
  Js.mkUrl "https:" "auth.example.com" None "/oauth/register" "".

Definition token_url : Js.Url :=
  Js.mkUrl "https:" "auth.example.com" None "/oauth/token" "".

Definition parses_endpoints (text : string) : option Js.Url :=
  if String.eqb text "https://auth.example.com/oauth/register" then Some register_url
  else if String.eqb text "https://auth.example.com/oauth/token" then Some token_url
  else None.

(** [Headers] as a list of pairs under lower-cased names. *)
Definition copies_headers
    (init : option (OAuthFetch.HeadersInit (Headers := list (string * string))
                      (Literal := list (string * string))))
  : option (list (string * string)) :=
  match init with
  | None => Some []
  | Some (OAuthFetch.HeadersObject h) => Some h
  | Some (OAuthFetch.HeadersLiteral l) => Some (prod_map lower_ascii id <$> l)
  end.

Definition sets_header (h : list (string * string)) (name value : string)
  : option (list (string * string)) :=
  Some (filter (λ entry, entry.1 ≠ lower_ascii name) h ++ [(lower_ascii name, value)]).

(** Every request is answered 201 Created; the world counts the calls. *)
Definition answers_created
    (_ : OAuthFetch.Input (Headers := list (string * string)))
    (_ : option (OAuthFetch.RequestInit (Headers := list (string * string))
                   (Literal := list (string * string)) (Blob := unit)
                   (Opaque := unit)))
    (calls : nat)
  : OAuthFetch.Fetched (Response := N * string) (Thrown := unit) * nat :=
  (OAuthFetch.Resolved (201%N, "Created"), S calls).

Definition registration_env : gmap string string :=
  {[ OAuthFetch.REGISTRATION_TOKEN_ENV := "  s3cret " ]}.

Definition json_post
  : OAuthFetch.RequestInit (Headers := list (string * string))
      (Literal := list (string * string)) (Blob := unit) (Opaque := unit) :=
  OAuthFetch.mkRequestInit (Some "post")
    (Some (OAuthFetch.HeadersLiteral [("Content-Type", "application/json")]))
    (Some (OAuthFetch.TextBody "{}")) ∅.

Definition registration_fetch :=
  OAuthFetch.createOAuthFetch trim_spaces upper_ascii lower_ascii parses_endpoints
    copies_headers sets_header answers_created fst snd String.length
    (String.substring 0) registration_env.

End Cases.

(** * Properties *)

(** ** Scope resolution *)

Example resolveOAuthScope_prefers_tools :
  OAuthDiscovery.resolveOAuthScope
    {| OAuthDiscovery.resourceMetadata :=
         Some (OAuthDiscovery.mkMetadata (Some ["openid"; "mcp:connect"; "mcp:tools"]) None);
       OAuthDiscovery.authorizationServerMetadata := None;
       OAuthDiscovery.fallbackScope := None |} = "mcp:tools".
Proof. reflexivity. Qed.

Example resolveOAuthScope_empty_resource_list_hides_as_list :
  OAuthDiscovery.resolveOAuthScope
    {| OAuthDiscovery.resourceMetadata :=
         Some (OAuthDiscovery.mkMetadata (Some []) None);
       OAuthDiscovery.authorizationServerMetadata :=
         Some (OAuthDiscovery.mkMetadata (Some ["mcp:connect"]) None);
       OAuthDiscovery.fallbackScope := Some "custom" |} = "custom".
Proof. reflexivity. Qed.

Lemma supportedScopes_advertised (o : OAuthDiscovery.ScopeOptions) :
  OAuthDiscovery.advertised o = default [] (OAuthDiscovery.supportedScopes o).
Proof.
  unfold OAuthDiscovery.advertised, OAuthDiscovery.supportedScopes, Js.nullish_opt.
  by destruct (OAuthDiscovery.resourceMetadata o ≫= OAuthDiscovery.scopes_supported).
Qed.

(** The resolver's case analysis on [supportedScopes], restated over the
    advertised list. *)
Lemma resolveOAuthScope_rule (o : OAuthDiscovery.ScopeOptions) :
  OAuthDiscovery.resolveOAuthScope o = OAuthDiscovery.preferred_scope o.
Proof.
  unfold OAuthDiscovery.resolveOAuthScope, OAuthDiscovery.preferred_scope.
  rewrite supportedScopes_advertised.
  destruct (OAuthDiscovery.supportedScopes o) as [[|first rest]|]; simpl.
  - repeat case_decide; try done; exfalso; by eapply not_elem_of_nil.
  - unfold Js.array_includes.
    rewrite !bool_decide_decide.
    repeat case_decide; done.
  - repeat case_decide; try done; exfalso; by eapply not_elem_of_nil.
Qed.

(** C6: [resolveOAuthScope] picks "mcp:tools" when the advertised list (the
    resource metadata's [scopes_supported], else the authorization server's)
    contains it, otherwise "mcp:connect" when contained, otherwise the first
    advertised scope, and with nothing advertised the fallback scope, which
    defaults to "mcp:tools". *)
Theorem resolveOAuthScope_preference (o : OAuthDiscovery.ScopeOptions) :
  let scopes := OAuthDiscovery.advertised o in
  let result := OAuthDiscovery.resolveOAuthScope o in
  ("mcp:tools" ∈ scopes → result = "mcp:tools")
  ∧ ("mcp:tools" ∉ scopes → "mcp:connect" ∈ scopes → result = "mcp:connect")
  ∧ (∀ first rest,
       scopes = first :: rest → "mcp:tools" ∉ scopes → "mcp:connect" ∉ scopes →
       result = first)
  ∧ (scopes = [] → result = default "mcp:tools" (OAuthDiscovery.fallbackScope o))
  ∧ result = OAuthDiscovery.preferred_scope o.
Proof.
  intros scopes result. subst result. rewrite resolveOAuthScope_rule.
  unfold OAuthDiscovery.preferred_scope. fold scopes.
  repeat split.
  - intros Htools. by rewrite decide_True.
  - intros Hno Hconnect. by rewrite decide_False, decide_True.
  - intros first rest Hscopes Hno Hno'.
    rewrite !decide_False by done. by rewrite Hscopes.
  - intros Hnil. rewrite Hnil.
    rewrite !decide_False by apply not_elem_of_nil. done.
Qed.

(** C7, as stated, fails: an advertised list whose first entry is the empty
    string makes the resolver return the empty string. *)
Lemma resolveOAuthScope_empty_result :
  OAuthDiscovery.resolveOAuthScope
    {| OAuthDiscovery.resourceMetadata :=
         Some (OAuthDiscovery.mkMetadata (Some [""]) None);
       OAuthDiscovery.authorizationServerMetadata := None;
       OAuthDiscovery.fallbackScope := None |} = "".
Proof. reflexivity. Qed.

Example resolveOAuthScope_empty_fallback :
  OAuthDiscovery.resolveOAuthScope
    {| OAuthDiscovery.resourceMetadata := None;
       OAuthDiscovery.authorizationServerMetadata := None;
       OAuthDiscovery.fallbackScope := Some "" |} = "".
Proof. reflexivity. Qed.

(** C7 (amended): [resolveOAuthScope] is a total function, and its result is
    a non-empty string on every input but these: neither "mcp:tools" nor
    "mcp:connect" is advertised and the first advertised scope is the empty
    string; or nothing is advertised and the fallback scope that was given is
    the empty string.  An empty string further down the advertised list, or
    an empty fallback next to a non-empty advertised list, does no harm. *)
Theorem resolveOAuthScope_nonempty (o : OAuthDiscovery.ScopeOptions) :
  let scopes := OAuthDiscovery.advertised o in
  OAuthDiscovery.resolveOAuthScope o = ""
  ↔ (("mcp:tools" ∉ scopes) ∧ ("mcp:connect" ∉ scopes) ∧ head scopes = Some "")
    ∨ (scopes = [] ∧ OAuthDiscovery.fallbackScope o = Some "").
Proof.
  intros scopes. rewrite resolveOAuthScope_rule.
  unfold OAuthDiscovery.preferred_scope. fold scopes.
  destruct (decide ("mcp:tools" ∈ scopes)) as [Htools|Htools].
  { split; [done|]. intros [(Hno & _)|(Hnil & _)]; [done|].
    rewrite Hnil in Htools. by apply not_elem_of_nil in Htools. }
  destruct (decide ("mcp:connect" ∈ scopes)) as [Hconnect|Hconnect].
  { split; [done|]. intros [(_ & Hno & _)|(Hnil & _)]; [done|].
    rewrite Hnil in Hconnect. by apply not_elem_of_nil in Hconnect. }
  destruct scopes as [|first rest]; simpl.
  - split.
    + intros Hempty. right. split; [done|].
      by destruct (OAuthDiscovery.fallbackScope o) as [fallback|]; simplify_eq/=.
    + intros [(_ & _ & [=])|(_ & ->)]. done.
  - split.
    + intros ->. left. by repeat split.
    + intros [(_ & _ & [= ->])|([=] & _)]. done.
Qed.

Example resolveOAuthScope_empty_entry_further_down :
  OAuthDiscovery.resolveOAuthScope
    {| OAuthDiscovery.resourceMetadata :=
         Some (OAuthDiscovery.mkMetadata (Some ["openid"; ""]) None);
       OAuthDiscovery.authorizationServerMetadata := None;
       OAuthDiscovery.fallbackScope := Some "" |} = "openid".
Proof. reflexivity. Qed.

(** ** Token refresh *)

Section RefreshFacts.

Context {W : Type}.
Variable loadVaultEntry : Config.ServerDefinition → W → option OAuthRefresh.VaultEntry * W.
Variable fetch : OAuthRefresh.Request → W → OAuthRefresh.FetchOutcome * W.
Variable saveTokens : Config.ServerDefinition → OAuthRefresh.OAuthTokens → W → bool * W.

Lemma tryEndpoint_accepted definition refresh client secret endpoint w result attempt w' :
  OAuthRefresh.tryEndpoint fetch saveTokens definition refresh client secret endpoint w
    = (result, attempt, w') →
  OAuthRefresh.at_url attempt = Js.href endpoint ∧ OAuthRefresh.accepted attempt = result.
Proof.
  unfold OAuthRefresh.tryEndpoint, OAuthRefresh.accepted.
  destruct (fetch _ w) as [[|status [newTokens|]] w1]; simpl.
  - intros [= <- <- <-]. done.
  - destruct (OAuthRefresh.ok status) eqn:Hok; simpl.
    + destruct (Js.truthy_opt (OAuthRefresh.access_token newTokens)) eqn:Htok; simpl.
      * destruct (saveTokens _ _ w1) as [[|] w2]; intros [= <- <- <-]; simpl;
          [by rewrite Hok, Htok | done].
      * intros [= <- <- <-]. done.
    + intros [= <- <- <-]. done.
  - destruct (OAuthRefresh.ok status); intros [= <- <- <-]; done.
Qed.

Lemma tryEndpoints_trace definition refresh client secret endpoints :
  ∀ w result attempts w',
  OAuthRefresh.tryEndpoints fetch saveTokens definition refresh client secret endpoints w
    = (result, attempts, w') →
  (result = None
   ∧ map OAuthRefresh.at_url attempts = map Js.href endpoints
   ∧ Forall (λ a, OAuthRefresh.accepted a = None) attempts)
  ∨ (∃ token earlier last,
       result = Some token
       ∧ attempts = earlier ++ [last]
       ∧ OAuthRefresh.accepted last = Some token
       ∧ Forall (λ a, OAuthRefresh.accepted a = None) earlier
       ∧ map OAuthRefresh.at_url attempts `prefix_of` map Js.href endpoints).
Proof.
  induction endpoints as [|endpoint rest IH]; intros w result attempts w'; simpl.
  - intros [= <- <- <-]. left. by repeat split.
  - destruct (OAuthRefresh.tryEndpoint _ _ _ _ _ _ endpoint w) as [[r a] w1] eqn:Hone.
    apply tryEndpoint_accepted in Hone as [Hurl Hacc].
    destruct r as [token|].
    + intros [= <- <- <-]. right. exists token, [], a. simpl.
      repeat split; auto.
      rewrite Hurl. by exists (map Js.href rest).
    + destruct (OAuthRefresh.tryEndpoints _ _ _ _ _ _ rest w1) as [[r' tr] w2] eqn:Hrest.
      intros [= <- <- <-].
      destruct (IH _ _ _ _ Hrest) as [(-> & Hurls & Hall)|(token & earlier & last & -> & -> & Hl & He & Hp)].
      * left. simpl. rewrite Hurl, Hurls. repeat split; auto.
      * right. exists token, (a :: earlier), last. simpl.
        repeat split; auto.
        rewrite Hurl. by apply prefix_cons.
Qed.

Lemma possibleEndpoints_hrefs (url : Js.Url) :
  map Js.href (OAuthRefresh.possibleEndpoints url) =
  (if Js.includes (Js.hostname url) "athom.com" || Js.includes (Js.hostname url) "homey"
   then ["https://api.athom.com/oauth2/token"] else [])
  ++ [ Js.origin url +:+ "/oauth2/token";
       Js.origin url +:+ "/token";
       Js.origin url +:+ "/.well-known/oauth-authorization-server" ].
Proof.
  unfold OAuthRefresh.possibleEndpoints.
  destruct (_ || _); reflexivity.
Qed.

Lemma tryEndpoint_performed definition refresh client secret endpoint w result attempt w' :
  OAuthRefresh.tryEndpoint fetch saveTokens definition refresh client secret endpoint w
    = (result, attempt, w') →
  ∀ rest w'',
    OAuthRefresh.performed fetch saveTokens definition refresh client secret rest w' w'' →
    OAuthRefresh.performed fetch saveTokens definition refresh client secret
      (attempt :: rest) w w''.
Proof.
  unfold OAuthRefresh.tryEndpoint.
  destruct (fetch _ w) as [outcome w1] eqn:Hfetch.
  assert (Hskip : ∀ rest w'',
            OAuthRefresh.usable outcome = None →
            OAuthRefresh.performed fetch saveTokens definition refresh client secret
              rest w1 w'' →
            OAuthRefresh.performed fetch saveTokens definition refresh client secret
              (OAuthRefresh.mkAttempt (Js.href endpoint) outcome None :: rest) w w'').
  { intros rest w'' Hno Hrest. exists w1.
    cbn [OAuthRefresh.at_url OAuthRefresh.at_outcome OAuthRefresh.at_saved].
    rewrite Hno. by split. }
  destruct outcome as [|status [newTokens|]].
  - intros [= <- <- <-] rest w'' Hrest. by apply Hskip.
  - destruct (OAuthRefresh.ok status) eqn:Hok; cbn [negb].
    + destruct (Js.truthy_opt (OAuthRefresh.access_token newTokens)) eqn:Htok; cbn [negb].
      * destruct (saveTokens _ _ w1) as [saved w2] eqn:Hsave.
        assert (Hsaved : ∀ rest w'',
                  OAuthRefresh.performed fetch saveTokens definition refresh client
                    secret rest w2 w'' →
                  OAuthRefresh.performed fetch saveTokens definition refresh client secret
                    (OAuthRefresh.mkAttempt (Js.href endpoint)
                       (OAuthRefresh.Response status (Some newTokens)) (Some saved)
                     :: rest) w w'').
        { intros rest w'' Hrest. exists w1.
          cbn [OAuthRefresh.at_url OAuthRefresh.at_outcome OAuthRefresh.at_saved
               OAuthRefresh.usable].
          rewrite Hok, Htok. cbn [andb]. split; [done|].
          exists saved, w2. by split. }
        destruct saved; intros [= <- <- <-] rest w'' Hrest; by apply Hsaved.
      * intros [= <- <- <-] rest w'' Hrest. apply Hskip; [|done].
        cbn [OAuthRefresh.usable]. by rewrite Hok, Htok.
    + intros [= <- <- <-] rest w'' Hrest. apply Hskip; [|done].
      cbn [OAuthRefresh.usable]. by rewrite Hok.
  - intros Hrun rest w'' Hrest.
    destruct (OAuthRefresh.ok status); injection Hrun as <- <- <-; by apply Hskip.
Qed.

Lemma tryEndpoints_performed definition refresh client secret endpoints :
  ∀ w result attempts w',
  OAuthRefresh.tryEndpoints fetch saveTokens definition refresh client secret endpoints w
    = (result, attempts, w') →
  OAuthRefresh.performed fetch saveTokens definition refresh client secret attempts w w'.
Proof.
  induction endpoints as [|endpoint rest IH]; intros w result attempts w'; simpl.
  - by intros [= <- <- <-].
  - destruct (OAuthRefresh.tryEndpoint _ _ _ _ _ _ endpoint w) as [[r a] w1] eqn:Hone.
    destruct r as [token|].
    + intros [= <- <- <-]. by apply (tryEndpoint_performed _ _ _ _ _ _ _ _ _ Hone).
    + destruct (OAuthRefresh.tryEndpoints _ _ _ _ _ _ rest w1) as [[r' tr] w2] eqn:Hrest.
      intros [= <- <- <-].
      apply (tryEndpoint_performed _ _ _ _ _ _ _ _ _ Hone). by eapply IH.
Qed.

(** C1 (amended): for an HTTP definition with a persisted non-empty
    [refresh_token] and [client_id], the candidates are "/oauth2/token",
    "/token" and "/.well-known/oauth-authorization-server" at the server's
    origin, in that order, preceded by "https://api.athom.com/oauth2/token"
    when the hostname contains "athom.com" or "homey".  [fetch] is called on
    them in that order, each call in the world the one before left, with the
    refresh parameters as body; the tokens of a 2xx answer carrying a
    non-empty [access_token] go to [saveTokens]; and the loop stops at the
    first candidate that gave such an answer and whose tokens could be
    persisted, that token being the result.  With no such candidate [fetch]
    is called on every candidate and the result is nothing. *)
Theorem tryRefreshTokens_endpoint_order
    definition url headers entry stored info refresh client w w1 result attempts w' :
  Config.command definition = Config.HttpCommand url headers →
  loadVaultEntry definition w = (Some entry, w1) →
  OAuthRefresh.tokens entry = Some stored →
  OAuthRefresh.refresh_token stored = Some refresh → refresh ≠ "" →
  OAuthRefresh.clientInfo entry = Some info →
  OAuthRefresh.client_id info = Some client → client ≠ "" →
  OAuthRefresh.tryRefreshTokens loadVaultEntry fetch saveTokens definition w
    = (result, attempts, w') →
  let candidates :=
    (if Js.includes (Js.hostname url) "athom.com" || Js.includes (Js.hostname url) "homey"
     then ["https://api.athom.com/oauth2/token"] else [])
    ++ [ Js.origin url +:+ "/oauth2/token";
         Js.origin url +:+ "/token";
         Js.origin url +:+ "/.well-known/oauth-authorization-server" ] in
  OAuthRefresh.performed fetch saveTokens definition refresh client
    (OAuthRefresh.client_secret info) attempts w1 w'
  ∧ ((result = None
      ∧ map OAuthRefresh.at_url attempts = candidates
      ∧ Forall (λ a, OAuthRefresh.accepted a = None) attempts)
     ∨ (∃ token earlier last,
          result = Some token
          ∧ attempts = earlier ++ [last]
          ∧ OAuthRefresh.accepted last = Some token
          ∧ Forall (λ a, OAuthRefresh.accepted a = None) earlier
          ∧ map OAuthRefresh.at_url attempts `prefix_of` candidates)).
Proof.
  intros Hcmd Hload Htok Hrt Hrne Hci Hcid Hcne Hrun candidates.
  unfold OAuthRefresh.tryRefreshTokens in Hrun.
  rewrite Hcmd, Hload in Hrun.
  unfold OAuthRefresh.storedRefreshToken in Hrun. simpl in Hrun.
  rewrite Htok in Hrun. simpl in Hrun. rewrite Hrt, Hci, Hcid in Hrun.
  destruct refresh; [done|]. destruct client; [done|]. simpl in Hrun.
  split; [by eapply tryEndpoints_performed|].
  apply tryEndpoints_trace in Hrun.
  rewrite possibleEndpoints_hrefs in Hrun. exact Hrun.
Qed.

End RefreshFacts.

Example tryRefreshTokens_stops_at_slash_token :
  OAuthRefresh.tryRefreshTokens Scenarios.vault Scenarios.token_at_slash_token
    Scenarios.persist Scenarios.example_server ()
  = (Some "fresh",
     [ OAuthRefresh.mkAttempt "https://mcp.example.com/oauth2/token"
         (OAuthRefresh.Response 404 None) None;
       OAuthRefresh.mkAttempt "https://mcp.example.com/token"
         (OAuthRefresh.Response 200 (Some (OAuthRefresh.mkTokens (Some "fresh") None)))
         (Some true) ],
     ()).
Proof. reflexivity. Qed.

(** C1, as stated, fails: for a hostname containing "homey" the first
    endpoint tried is the fixed Athom token endpoint, not "/oauth2/token" at
    the server's origin, and four endpoints are tried rather than three. *)
Lemma tryRefreshTokens_homey_tries_athom_first :
  map OAuthRefresh.at_url
    (OAuthRefresh.tryRefreshTokens Scenarios.vault Scenarios.offline
       Scenarios.persist Scenarios.homey_server ()).1.2
  = [ "https://api.athom.com/oauth2/token";
      "https://homey.example.com/oauth2/token";
      "https://homey.example.com/token";
      "https://homey.example.com/.well-known/oauth-authorization-server" ].
Proof. reflexivity. Qed.

Lemma tryRefreshTokens_endpoint_order_witness :
  let run :=
    OAuthRefresh.tryRefreshTokens Scenarios.vault Scenarios.token_at_slash_token
      Scenarios.persist Scenarios.example_server () in
  let candidates :=
    [ "https://mcp.example.com/oauth2/token";
      "https://mcp.example.com/token";
      "https://mcp.example.com/.well-known/oauth-authorization-server" ] in
  OAuthRefresh.performed Scenarios.token_at_slash_token Scenarios.persist
    Scenarios.example_server "r1" "c1" None run.1.2 () run.2
  ∧ ((run.1.1 = None
      ∧ map OAuthRefresh.at_url run.1.2 = candidates
      ∧ Forall (λ a, OAuthRefresh.accepted a = None) run.1.2)
     ∨ (∃ token earlier last,
          run.1.1 = Some token
          ∧ run.1.2 = earlier ++ [last]
          ∧ OAuthRefresh.accepted last = Some token
          ∧ Forall (λ a, OAuthRefresh.accepted a = None) earlier
          ∧ map OAuthRefresh.at_url run.1.2 `prefix_of` candidates)).
Proof.
  exact (tryRefreshTokens_endpoint_order
           Scenarios.vault Scenarios.token_at_slash_token Scenarios.persist
           Scenarios.example_server Scenarios.example_url None
           Scenarios.stored_entry Scenarios.stored_tokens Scenarios.stored_client
           "r1" "c1" () () _ _ _
           eq_refl eq_refl eq_refl eq_refl ltac:(discriminate)
           eq_refl eq_refl ltac:(discriminate) eq_refl).
Defined.

(** ** OAuth promotion *)

Example probe_first_promotes_advertising :
  OAuthSupport.ProbeFirst.maybeEnableOAuth Scenarios.advertising Scenarios.configured_server ()
  = (Some (Config.with_oauth Scenarios.configured_server),
     ["https://mcp.example.com/.well-known/oauth-protected-resource"], ()).
Proof. reflexivity. Qed.

Example probe_first_keeps_silent :
  OAuthSupport.ProbeFirst.maybeEnableOAuth Scenarios.silent Scenarios.configured_server ()
  = (None, ["https://mcp.example.com/.well-known/oauth-protected-resource"], ()).
Proof. reflexivity. Qed.

Example probe_first_adhoc_skips_probe :
  OAuthSupport.ProbeFirst.maybeEnableOAuth Scenarios.silent Scenarios.adhoc_server ()
  = (Some (Config.with_oauth Scenarios.adhoc_server), [], ()).
Proof. reflexivity. Qed.

Lemma is_oauth_false (definition : Config.ServerDefinition) :
  Config.auth definition ≠ Some "oauth" → Config.is_oauth definition = false.
Proof. intros H. unfold Config.is_oauth. by apply bool_decide_eq_false. Qed.

(** The revision restricted to ad-hoc sources promotes exactly those. *)
Lemma adhoc_only_promotion definition url headers :
  Config.auth definition ≠ Some "oauth" →
  Config.command definition = Config.HttpCommand url headers →
  OAuthSupport.AdHocOnly.maybeEnableOAuth definition
  = if OAuthSupport.isAdHocSource definition
    then Some (Config.with_oauth definition) else None.
Proof.
  intros Hauth Hcmd. unfold OAuthSupport.AdHocOnly.maybeEnableOAuth.
  rewrite (is_oauth_false _ Hauth), Hcmd.
  by destruct (OAuthSupport.isAdHocSource definition).
Qed.

(** C2, as stated, fails on the revision the context builder calls: a
    configured server that is not ad-hoc is promoted, and no probe is made
    (the function performs no request at all). *)
Lemma maybeEnableOAuth_promotes_configured_server :
  OAuthSupport.isAdHocSource Scenarios.configured_server = false
  ∧ OAuthSupport.Permissive.maybeEnableOAuth Scenarios.configured_server
    = Some (Config.with_oauth Scenarios.configured_server).
Proof. split; reflexivity. Qed.

(** C2 (amended): for a definition whose auth is not "oauth" and whose
    command is HTTP, the probe-first revision of [maybeEnableOAuth] promotes
    directly, without a request, when the source is the ad-hoc sentinel;
    otherwise it requests "/.well-known/oauth-protected-resource" at the
    server's origin once and promotes exactly when the answer is a 2xx
    response whose JSON lists at least one authorization server, so a failed
    probe or one listing none does not promote.  The revision called by
    [createClientContext] promotes every such definition without probing. *)
Theorem maybeEnableOAuth_promotion {W : Type}
    (fetch : string → W → OAuthSupport.ProbeFirst.ProbeOutcome * W)
    definition url headers (w : W) :
  Config.auth definition ≠ Some "oauth" →
  Config.command definition = Config.HttpCommand url headers →
  let wellKnown := Js.origin url +:+ "/.well-known/oauth-protected-resource" in
  let run := OAuthSupport.ProbeFirst.maybeEnableOAuth fetch definition w in
  (if OAuthSupport.isAdHocSource definition
   then run = (Some (Config.with_oauth definition), [], w)
   else run.1.2 = [wellKnown]
        ∧ run.2 = (fetch wellKnown w).2
        ∧ (run.1.1 = Some (Config.with_oauth definition) ∨ run.1.1 = None)
        ∧ (run.1.1 = Some (Config.with_oauth definition) ↔
           ∃ status servers first rest,
             (fetch wellKnown w).1
               = OAuthSupport.ProbeFirst.ProbeResponse status
                   (Some (OAuthSupport.ProbeFirst.mkProtectedResource (Some servers)))
             ∧ (200 ≤ status ≤ 299)%Z
             ∧ servers = first :: rest))
  ∧ OAuthSupport.Permissive.maybeEnableOAuth definition
    = Some (Config.with_oauth definition).
Proof.
  intros Hauth Hcmd wellKnown run. split.
  - subst run. unfold OAuthSupport.ProbeFirst.maybeEnableOAuth.
    rewrite (is_oauth_false _ Hauth), Hcmd.
    destruct (OAuthSupport.isAdHocSource definition); simpl; [done|].
    unfold OAuthSupport.ProbeFirst.probeOAuthSupport.
    change (Js.href (Js.at_origin "/.well-known/oauth-protected-resource" url))
      with wellKnown.
    destruct (fetch wellKnown w) as [outcome w1]; simpl.
    destruct outcome as [|status [[[servers|]]|]]; simpl.
    + repeat split; auto. all: try by intros [=].
      intros (? & ? & ? & ? & [=] & _).
    + destruct (OAuthRefresh.ok status) eqn:Hok; simpl.
      * destruct servers as [|first rest]; simpl.
        -- repeat split; auto. all: try by intros [=].
           intros (? & ? & ? & ? & [= _ <-] & _ & [=]).
        -- repeat split; auto.
           intros _. exists status, (first :: rest), first, rest.
           repeat split; auto.
           all: unfold OAuthRefresh.ok in Hok; lia.
      * repeat split; auto. all: try by intros [=].
        intros (? & ? & ? & ? & [= <- _] & Hrange & _).
        unfold OAuthRefresh.ok in Hok. lia.
    + destruct (OAuthRefresh.ok status); simpl; repeat split; auto.
      all: try by intros [=].
      all: intros (? & ? & ? & ? & [=] & _).
    + destruct (OAuthRefresh.ok status); simpl; repeat split; auto.
      all: try by intros [=].
      all: intros (? & ? & ? & ? & [=] & _).
  - unfold OAuthSupport.Permissive.maybeEnableOAuth.
    by rewrite (is_oauth_false _ Hauth), Hcmd.
Qed.

Lemma maybeEnableOAuth_promotion_witness :
  let wellKnown := "https://mcp.example.com/.well-known/oauth-protected-resource" in
  let run :=
    OAuthSupport.ProbeFirst.maybeEnableOAuth Scenarios.advertising
      Scenarios.configured_server () in
  (run.1.2 = [wellKnown]
   ∧ run.2 = (Scenarios.advertising wellKnown ()).2
   ∧ (run.1.1 = Some (Config.with_oauth Scenarios.configured_server) ∨ run.1.1 = None)
   ∧ (run.1.1 = Some (Config.with_oauth Scenarios.configured_server) ↔
      ∃ status servers first rest,
        (Scenarios.advertising wellKnown ()).1
          = OAuthSupport.ProbeFirst.ProbeResponse status
              (Some (OAuthSupport.ProbeFirst.mkProtectedResource (Some servers)))
        ∧ (200 ≤ status ≤ 299)%Z
        ∧ servers = first :: rest))
  ∧ OAuthSupport.Permissive.maybeEnableOAuth Scenarios.configured_server
    = Some (Config.with_oauth Scenarios.configured_server).
Proof.
  exact (maybeEnableOAuth_promotion Scenarios.advertising Scenarios.configured_server
           Scenarios.example_url None ()
           ltac:(discriminate) eq_refl).
Defined.

(** ** Session construction *)

Example create_on_stable_port :
  (OAuthSession.create Scenarios.persistence_ok Scenarios.stable_port_free
     Scenarios.no_discovery Scenarios.example_server ()).1
  = OAuthSession.Created
      {| OAuthSession.definition := Scenarios.example_server;
         OAuthSession.redirectUrlValue := Js.mkUrl "http:" "127.0.0.1" (Some 33418%N) "/" "";
         OAuthSession.metadata := OAuthSession.metadata Scenarios.waiting_provider;
         OAuthSession.authorizationStarted := false;
         OAuthSession.authorizationDeferred := None;
         OAuthSession.server := Some 33418%N |}.
Proof. vm_compute. reflexivity. Qed.

(** C3, as stated, fails: with port 33418 taken the listener binds the
    OS-assigned port 54321, and the registered redirect URIs are the port-less
    loopback URI and the stable-port URI only; the URI listened on is not
    among them. *)
Lemma create_fallback_omits_dynamic_uri :
  match (OAuthSession.create Scenarios.persistence_ok Scenarios.stable_port_busy
           Scenarios.no_discovery Scenarios.example_server ()).1 with
  | OAuthSession.Created provider =>
      OAuthSession.server provider = Some 54321%N
      ∧ Js.href (OAuthSession.redirectUrlValue provider) = "http://127.0.0.1:54321/"
      ∧ OAuthSession.redirect_uris (OAuthSession.metadata provider)
        = ["http://127.0.0.1/"; "http://127.0.0.1:33418/"]
      ∧ Js.href (OAuthSession.redirectUrlValue provider)
        ∉ OAuthSession.redirect_uris (OAuthSession.metadata provider)
  | OAuthSession.CreateThrew => False
  end.
Proof.
  vm_compute.
  repeat split.
  intros H. apply list_elem_of_In in H. simpl in H.
  destruct H as [H|[H|[]]]; discriminate H.
Qed.

Lemma length_append (s t : string) :
  String.length (s +:+ t) = (String.length s + String.length t)%nat.
Proof. induction s as [|a s IH]; simpl; [done | by rewrite IH]. Qed.

Lemma append_cancel_r (t s1 s2 : string) : s1 +:+ t = s2 +:+ t → s1 = s2.
Proof.
  revert s2. induction s1 as [|a s1 IH]; intros [|b s2] H; simpl in H.
  - done.
  - apply (f_equal String.length) in H. simpl in H. rewrite ?length_append in H. simpl in H. lia.
  - apply (f_equal String.length) in H. simpl in H. rewrite ?length_append in H. simpl in H. lia.
  - injection H as -> H. f_equal. by apply IH.
Qed.

Lemma loopback_redirect_uris :
  OAuthSession.set_add
    ("http://" +:+ OAuthSession.CALLBACK_HOST +:+ ":"
       +:+ pretty OAuthSession.DEFAULT_CALLBACK_PORT +:+ "/")
    (OAuthSession.set_add ("http://" +:+ OAuthSession.CALLBACK_HOST +:+ "/") [])
  = ["http://127.0.0.1/"; "http://127.0.0.1:33418/"].
Proof. vm_compute. reflexivity. Qed.

Lemma loopback_href (port : N) :
  Js.href (Js.set_pathname
             (Js.set_port (Js.set_port (Js.mkUrl "http:" "127.0.0.1" None "/" "") port) port)
             "/")
  = if bool_decide (port = 80%N) then "http://127.0.0.1/"
    else "http://127.0.0.1:" +:+ pretty port +:+ "/".
Proof.
  unfold Js.set_pathname, Js.set_port, Js.href, Js.origin, Js.host; simpl.
  destruct (decide (port = 80%N)) as [->|Hne].
  - reflexivity.
  - rewrite (bool_decide_eq_false_2 (port = 80%N)) by done.
    change (Js.default_port "http:") with (Some 80%N).
    rewrite !(bool_decide_eq_false_2 (Some 80%N = Some port)) by congruence.
    reflexivity.
Qed.

(** C3 (amended): with an [oauthRedirectUrl] override the registered
    [redirect_uris] are exactly the session's effective redirect URI.
    Without one they are exactly "http://127.0.0.1/" and
    "http://127.0.0.1:33418/", whatever port the listener bound; the effective
    URI "http://127.0.0.1:<port>/" is among them when the listener bound the
    stable port 33418 (or port 80, which a URL does not print) and is not
    registered when it fell back to any other OS-assigned port. *)
Theorem create_redirect_uris {W : Type}
    (buildOAuthPersistence : Config.ServerDefinition → W → bool * W)
    (listen : N → string → W → OAuthSession.ListenOutcome * W)
    (discoverOAuthMetadata : Js.Url → W → OAuthSession.DiscoveryResult * W)
    definition (w : W) provider w' :
  OAuthSession.create buildOAuthPersistence listen discoverOAuthMetadata definition w
    = (OAuthSession.Created provider, w') →
  match Config.oauthRedirectUrl definition with
  | Some _ =>
      OAuthSession.redirect_uris (OAuthSession.metadata provider)
      = [Js.href (OAuthSession.redirectUrlValue provider)]
  | None =>
      ∃ port,
        OAuthSession.server provider = Some port
        ∧ OAuthSession.redirect_uris (OAuthSession.metadata provider)
          = ["http://127.0.0.1/"; "http://127.0.0.1:33418/"]
        ∧ Js.href (OAuthSession.redirectUrlValue provider)
          = (if bool_decide (port = 80%N) then "http://127.0.0.1/"
             else "http://127.0.0.1:" +:+ pretty port +:+ "/")
        ∧ (Js.href (OAuthSession.redirectUrlValue provider)
             ∈ OAuthSession.redirect_uris (OAuthSession.metadata provider)
           ↔ port = 33418%N ∨ port = 80%N)
  end.
Proof.
  unfold OAuthSession.create.
  destruct (buildOAuthPersistence definition w) as [[|] w0]; simpl; [|by intros [=]].
  destruct (Config.oauthRedirectUrl definition) as [o|] eqn:Ho; simpl.
  - destruct (OAuthSession.bindPort _ _ _ _ _) as [[port|] w1]; [|by intros [=]].
    destruct (Config.command definition) as [? ? ?|url headers].
    + intros [= <- <-]. reflexivity.
    + destruct (discoverOAuthMetadata url w1) as [discovery w2].
      intros [= <- <-]. reflexivity.
  - destruct (OAuthSession.bindPort _ _ _ _ _) as [[port|] w1]; [|by intros [=]].
    assert (Hmem : ∀ href : string,
               href = (if bool_decide (port = 80%N) then "http://127.0.0.1/"
                       else "http://127.0.0.1:" +:+ pretty port +:+ "/") →
               href ∈ ["http://127.0.0.1/"; "http://127.0.0.1:33418/"]
               ↔ port = 33418%N ∨ port = 80%N).
    { intros href ->. destruct (decide (port = 80%N)) as [->|Hne].
      - simpl. split; [auto | intros _; left].
      - rewrite bool_decide_eq_false_2 by done. split.
        + intros H. apply list_elem_of_In in H. simpl in H.
          destruct H as [H|[H|[]]]; [discriminate H|].
          left. simpl in H. injection H as H.
          assert (H' : pretty 33418%N +:+ "/" = pretty port +:+ "/").
          { etrans; [|exact H]. vm_compute. reflexivity. }
          apply append_cancel_r in H'. symmetry. by apply (inj pretty).
        + intros [->|?]; [|done]. right. left. }
    destruct (Config.command definition) as [? ? ?|url headers].
    + intros [= <- <-]. exists port. simpl.
      rewrite loopback_redirect_uris, loopback_href.
      repeat split; auto; by apply Hmem.
    + destruct (discoverOAuthMetadata url w1) as [discovery w2].
      intros [= <- <-]. exists port. simpl.
      rewrite loopback_redirect_uris, loopback_href.
      repeat split; auto; by apply Hmem.
Qed.

Lemma create_redirect_uris_witness :
  ∃ port,
    OAuthSession.server Scenarios.fallback_provider = Some port
    ∧ OAuthSession.redirect_uris (OAuthSession.metadata Scenarios.fallback_provider)
      = ["http://127.0.0.1/"; "http://127.0.0.1:33418/"]
    ∧ Js.href (OAuthSession.redirectUrlValue Scenarios.fallback_provider)
      = (if bool_decide (port = 80%N) then "http://127.0.0.1/"
         else "http://127.0.0.1:" +:+ pretty port +:+ "/")
    ∧ (Js.href (OAuthSession.redirectUrlValue Scenarios.fallback_provider)
         ∈ OAuthSession.redirect_uris (OAuthSession.metadata Scenarios.fallback_provider)
       ↔ port = 33418%N ∨ port = 80%N).
Proof.
  apply (create_redirect_uris Scenarios.persistence_ok Scenarios.stable_port_busy
           Scenarios.no_discovery Scenarios.example_server ()
           Scenarios.fallback_provider ()).
  vm_compute. reflexivity.
Defined.

(** ** The callback handler *)

Example callback_with_matching_state :
  (OAuthSession.handleRequest (Scenarios.state_persisted "s1") Scenarios.waiting_provider
     (OAuthSession.Parsed "/callback" [("code", "abc"); ("state", "s1")]) ()).1.1
  = OAuthSession.mkHandled
      (Some (OAuthSession.mkResponse 200 (Some "text/html")
         "<html><body><h1>Authorization successful</h1><p>You can return to the CLI.</p></body></html>"))
      (Some (7%nat, OAuthSession.Resolve "abc")).
Proof. reflexivity. Qed.

Example callback_on_other_path :
  (OAuthSession.handleRequest (Scenarios.state_persisted "s1") Scenarios.waiting_provider
     (OAuthSession.Parsed "/favicon.ico" []) ()).1
  = (OAuthSession.mkHandled (Some (OAuthSession.mkResponse 404 None "Not found")) None,
     Scenarios.waiting_provider).
Proof. reflexivity. Qed.

(** C8, as stated, fails: a request on the expected path whose [state]
    parameter is present but empty, or one arriving while no state is
    persisted, differs from the persisted state and is nevertheless answered
    with 200, and the pending code promise is resolved with the code. *)
Lemma callback_state_check_skipped :
  (OAuthSession.handleRequest (Scenarios.state_persisted "s1") Scenarios.waiting_provider
     (OAuthSession.Parsed "/" [("code", "abc"); ("state", "")]) ()).1.1
  = OAuthSession.mkHandled
      (Some (OAuthSession.mkResponse 200 (Some "text/html")
         "<html><body><h1>Authorization successful</h1><p>You can return to the CLI.</p></body></html>"))
      (Some (7%nat, OAuthSession.Resolve "abc"))
  ∧ (OAuthSession.handleRequest Scenarios.state_missing Scenarios.waiting_provider
       (OAuthSession.Parsed "/" [("code", "abc"); ("state", "forged")]) ()).1.1
    = OAuthSession.mkHandled
        (Some (OAuthSession.mkResponse 200 (Some "text/html")
           "<html><body><h1>Authorization successful</h1><p>You can return to the CLI.</p></body></html>"))
        (Some (7%nat, OAuthSession.Resolve "abc")).
Proof. split; reflexivity. Qed.

Lemma truthy_nonempty (s : string) : s ≠ "" → Js.truthy s = true.
Proof. by destruct s. Qed.

(** C8 (amended): for every request on the expected path (or "/callback"
    when the expected path is "/") that carries a non-empty [state] parameter
    different from a non-empty persisted state, the handler responds with
    status 400 and a body containing "Invalid OAuth state", rejects the
    pending authorization-code promise (when there is one) with that message
    instead of resolving it, and forgets it, whatever other parameters the
    request carries. *)
Theorem callback_invalid_state {W : Type}
    (readState : W → OAuthSession.ReadOutcome * W)
    (p : OAuthSession.Provider) pathname query (w w1 : W) expected received :
  pathname = OAuthSession.expectedPath p
    ∨ (OAuthSession.expectedPath p = "/" ∧ pathname = "/callback") →
  readState w = (OAuthSession.ReadValue (Some expected), w1) →
  OAuthSession.searchParams_get query "state" = Some received →
  expected ≠ "" → received ≠ "" → received ≠ expected →
  ∃ page,
    OAuthSession.handleRequest readState p (OAuthSession.Parsed pathname query) w
    = (OAuthSession.mkHandled
         (Some (OAuthSession.mkResponse 400 (Some "text/html") page))
         (OAuthSession.settle p (OAuthSession.Reject "Invalid OAuth state")),
       OAuthSession.dropDeferred p, w1)
    ∧ Js.includes page "Invalid OAuth state" = true
    ∧ ∀ handle how,
        OAuthSession.settle p (OAuthSession.Reject "Invalid OAuth state") = Some (handle, how) →
        OAuthSession.authorizationDeferred p = Some handle
        ∧ how = OAuthSession.Reject "Invalid OAuth state".
Proof.
  intros Hpath Hread Hstate He Hr Hne.
  exists (OAuthSession.html "Authorization failed" "Invalid OAuth state").
  split; [|split].
  - unfold OAuthSession.handleRequest.
    assert (negb (String.eqb pathname (OAuthSession.expectedPath p))
            && negb (bool_decide (Some pathname = OAuthSession.fallbackPath p)) = false) as ->.
    { destruct Hpath as [->|[Hroot ->]].
      - by rewrite String.eqb_refl.
      - unfold OAuthSession.fallbackPath. by rewrite Hroot. }
    rewrite Hread, Hstate. simpl.
    rewrite (truthy_nonempty _ He), (truthy_nonempty _ Hr). simpl.
    rewrite bool_decide_eq_false_2 by congruence. reflexivity.
  - vm_compute. reflexivity.
  - unfold OAuthSession.settle. intros handle how.
    destruct (OAuthSession.authorizationDeferred p); simpl; [|done].
    by intros [= <- <-].
Qed.

Lemma callback_invalid_state_witness :
  ∃ page,
    OAuthSession.handleRequest (Scenarios.state_persisted "s1") Scenarios.waiting_provider
      (OAuthSession.Parsed "/callback" [("code", "abc"); ("state", "forged")]) ()
    = (OAuthSession.mkHandled
         (Some (OAuthSession.mkResponse 400 (Some "text/html") page))
         (OAuthSession.settle Scenarios.waiting_provider
            (OAuthSession.Reject "Invalid OAuth state")),
       OAuthSession.dropDeferred Scenarios.waiting_provider, ())
    ∧ Js.includes page "Invalid OAuth state" = true
    ∧ ∀ handle how,
        OAuthSession.settle Scenarios.waiting_provider
          (OAuthSession.Reject "Invalid OAuth state") = Some (handle, how) →
        OAuthSession.authorizationDeferred Scenarios.waiting_provider = Some handle
        ∧ how = OAuthSession.Reject "Invalid OAuth state".
Proof.
  apply (callback_invalid_state (Scenarios.state_persisted "s1") Scenarios.waiting_provider
           "/callback" [("code", "abc"); ("state", "forged")] () () "s1" "forged").
  - right. split; reflexivity.
  - reflexivity.
  - reflexivity.
  - discriminate.
  - discriminate.
  - discriminate.
Defined.

(** ** The authorization wait *)

Example wait_default_deadline :
  RuntimeOAuth.waitForAuthorizationCodeWithTimeout (Some "x") None
  = RuntimeOAuth.Race "x" (Js.Finite 60000).
Proof. reflexivity. Qed.

Example wait_times_out :
  RuntimeOAuth.observe
    (RuntimeOAuth.waitForAuthorizationCodeWithTimeout (Some "x") (Some (Js.Finite 1000)))
    [RuntimeOAuth.TimerFired;
     RuntimeOAuth.SessionSettled (OAuthSession.Resolve "late")]
  = RuntimeOAuth.Rejected (RuntimeOAuth.OAuthTimeoutError "x" (Js.Finite 1000)).
Proof. reflexivity. Qed.

Example wait_code_first :
  RuntimeOAuth.observe
    (RuntimeOAuth.waitForAuthorizationCodeWithTimeout (Some "x") (Some (Js.Finite 1000)))
    [RuntimeOAuth.SessionSettled (OAuthSession.Resolve "abc"); RuntimeOAuth.TimerFired]
  = RuntimeOAuth.Fulfilled "abc".
Proof. reflexivity. Qed.

Example wait_without_deadline :
  RuntimeOAuth.observe
    (RuntimeOAuth.waitForAuthorizationCodeWithTimeout (Some "x") (Some (Js.Infinity false)))
    [RuntimeOAuth.TimerFired]
  = RuntimeOAuth.Pending.
Proof. reflexivity. Qed.

(** A promise that is settled stays as it is. *)
Lemma race_outer_settled displayName timeoutMs schedule :
  ∀ st, RuntimeOAuth.outer st ≠ RuntimeOAuth.Pending →
  RuntimeOAuth.outer
    (fold_left (RuntimeOAuth.race_step displayName timeoutMs) schedule st)
  = RuntimeOAuth.outer st.
Proof.
  induction schedule as [|h schedule IH]; intros st Hst; simpl; [done|].
  assert (RuntimeOAuth.outer (RuntimeOAuth.race_step displayName timeoutMs st h)
          = RuntimeOAuth.outer st) as Hstep.
  { destruct h as [|how]; simpl.
    - destruct (RuntimeOAuth.timer st); simpl; [|done].
      by destruct (RuntimeOAuth.outer st).
    - destruct (RuntimeOAuth.inner st); simpl; try done.
      by destruct (RuntimeOAuth.outer st). }
  rewrite IH; rewrite Hstep; done.
Qed.

Lemma session_promise_no_timeout schedule :
  ∀ p, RuntimeOAuth.is_timeout p = false →
  RuntimeOAuth.is_timeout (fold_left RuntimeOAuth.session_step schedule p) = false.
Proof.
  induction schedule as [|h schedule IH]; intros p Hp; simpl; [done|].
  apply IH. destruct h as [|[code|reason]]; simpl; [done| |]; by destruct p.
Qed.

(** C10: when [timeoutMs] is not a finite positive number the function hands
    back the session's own pending promise, with no timer, so that whatever
    happens it never rejects with [OAuthTimeoutError]; when [timeoutMs] is
    finite and positive and the timer fires before the session settles, the
    promise handed back rejects with an [OAuthTimeoutError] carrying the
    server name ("unknown" when none was given) and that [timeoutMs]. *)
Theorem waitForAuthorizationCodeWithTimeout_deadline
    (serverName : option string) (timeoutMs : Js.Number) :
  let wait :=
    RuntimeOAuth.waitForAuthorizationCodeWithTimeout serverName (Some timeoutMs) in
  (Js.isFinite timeoutMs = false ∨ Js.le_zero timeoutMs = true →
   wait = RuntimeOAuth.SessionPromise
   ∧ ∀ schedule,
       RuntimeOAuth.observe wait schedule
       = fold_left RuntimeOAuth.session_step schedule RuntimeOAuth.Pending
       ∧ ∀ name ms,
           RuntimeOAuth.observe wait schedule
           ≠ RuntimeOAuth.Rejected (RuntimeOAuth.OAuthTimeoutError name ms))
  ∧ (Js.isFinite timeoutMs = true ∧ Js.le_zero timeoutMs = false →
     ∀ later,
       RuntimeOAuth.observe wait (RuntimeOAuth.TimerFired :: later)
       = RuntimeOAuth.Rejected
           (RuntimeOAuth.OAuthTimeoutError (default "unknown" serverName) timeoutMs)).
Proof.
  intros wait. subst wait.
  unfold RuntimeOAuth.waitForAuthorizationCodeWithTimeout. simpl. split.
  - intros Hno.
    assert (negb (Js.isFinite timeoutMs) || Js.le_zero timeoutMs = true) as ->.
    { destruct Hno as [-> | ->]; [done | by rewrite orb_true_r]. }
    split; [done|]. intros schedule. split; [done|].
    intros name ms Heq.
    pose proof (session_promise_no_timeout schedule RuntimeOAuth.Pending eq_refl) as Hnt.
    simpl in Heq. rewrite Heq in Hnt. discriminate Hnt.
  - intros [-> ->]. simpl. intros later.
    by rewrite race_outer_settled.
Qed.

(** ** The connect loop *)

Lemma gt_int_finite (k : Z) (q : Q) :
  Js.gt_int k (Js.Finite q) = (Qfloor q <? k)%Z.
Proof.
  unfold Js.gt_int.
  destruct (Qle_bool (inject_Z k) q) eqn:Hle; simpl; symmetry.
  - apply Z.ltb_ge. apply Qle_bool_iff in Hle.
    apply Qfloor_resp_le in Hle. by rewrite Qfloor_Z in Hle.
  - apply Z.ltb_lt. apply Z.lt_nge. intros Hk.
    assert (Qle_bool (inject_Z k) q = true) as Hyes; [|congruence].
    apply Qle_bool_iff. eapply Qle_trans; [|apply Qfloor_le].
    by rewrite <- Zle_Qle.
Qed.

(** The counter after [n] increments from 0. *)
Lemma increment_from_zero (n : nat) :
  Nat.iter n Js.increment 0%Z = Z.min (Z.of_nat n) (Js.MAX_SAFE_INTEGER + 1).
Proof.
  induction n as [|n IH]; [done|].
  rewrite Nat.iter_succ, IH. unfold Js.increment, Js.MAX_SAFE_INTEGER.
  destruct (Z.leb_spec (Z.min (Z.of_nat n) (9007199254740991 + 1)) 9007199254740991); lia.
Qed.

Section ConnectFacts.

Context {W Transport Session : Type}.
Variable isUnauthorizedError : RuntimeOAuth.Failure → bool.
Variable connect : Transport → W → option RuntimeOAuth.Failure * W.
Variable hasFinishAuth : Transport → bool.
Variable finishAuth : Transport → string → W → option RuntimeOAuth.Failure * W.
Variable didStartAuthorization : Session → W → bool.
Variable happenings : Session → W → list RuntimeOAuth.Happening * W.

Let loop := RuntimeOAuth.connectLoop isUnauthorizedError connect hasFinishAuth
              finishAuth didStartAuthorization happenings.

(** A completed run is a sequence of retries followed by one last connect
    and what that connect leads to; [attempt] is the counter the loop was
    entered with. *)
Let shaped (transport : Transport) (session : option Session)
    (maxAttempts : Js.Number) (attempt : Z) (completion : RuntimeOAuth.Completion)
    (events : list RuntimeOAuth.Event) (w w' : W) : Prop :=
  ∃ retries failure rest,
    events = concat (map OAuthTimeout.retry retries)
             ++ RuntimeOAuth.EvConnect failure :: rest
    ∧ RuntimeOAuth.performed connect finishAuth happenings transport session events w w'
    ∧ RuntimeOAuth.connects rest = []
    ∧ Forall (λ e, OAuthTimeout.finished e = false) rest
    ∧ Forall (λ r, isUnauthorizedError r.1.1 = true) retries
    ∧ (retries ≠ [] →
       session ≠ None
       ∧ Js.gt_int (Nat.iter (length retries) Js.increment attempt) maxAttempts = false)
    ∧ (completion = RuntimeOAuth.Returned ↔ failure = None)
    ∧ (failure = None → rest = [])
    ∧ (∀ error,
         failure = Some error →
         isUnauthorizedError error = false ∨ session = None
         ∨ Js.gt_int (Nat.iter (S (length retries)) Js.increment attempt) maxAttempts
           = true →
         completion = RuntimeOAuth.Threw error ∧ rest = [])
    ∧ (∀ error,
         failure = Some error →
         isUnauthorizedError error = true → session ≠ None →
         Js.gt_int (Nat.iter (S (length retries)) Js.increment attempt) maxAttempts
         = false →
         rest ≠ [] ∨ completion = RuntimeOAuth.Threw (RuntimeOAuth.neverStarted error)).

Lemma connectLoop_run transport session serverName maxAttempts oauthTimeoutMs fuel :
  ∀ attempt w completion events w',
  loop fuel transport session serverName maxAttempts oauthTimeoutMs attempt w
  = Some (completion, events, w') →
  shaped transport session maxAttempts attempt completion events w w'.
Proof.
  induction fuel as [|fuel IH]; intros attempt w completion events w';
    subst loop; simpl; [done|].
  assert (Hstop : ∀ failure rest c w1,
            connect transport w = (failure, w1) →
            RuntimeOAuth.performed connect finishAuth happenings transport session
              rest w1 w' →
            RuntimeOAuth.connects rest = [] →
            Forall (λ e, OAuthTimeout.finished e = false) rest →
            (c = RuntimeOAuth.Returned ↔ failure = None) →
            (failure = None → rest = []) →
            (∀ error,
               failure = Some error →
               isUnauthorizedError error = false ∨ session = None
               ∨ Js.gt_int (Js.increment attempt) maxAttempts = true →
               c = RuntimeOAuth.Threw error ∧ rest = []) →
            (∀ error,
               failure = Some error →
               isUnauthorizedError error = true → session ≠ None →
               Js.gt_int (Js.increment attempt) maxAttempts = false →
               rest ≠ [] ∨ c = RuntimeOAuth.Threw (RuntimeOAuth.neverStarted error)) →
            shaped transport session maxAttempts attempt c
              (RuntimeOAuth.EvConnect failure :: rest) w w').
  { intros failure rest c w1 Hconnect Hrest Hc Hf Hret Hnone Hthrow Hgoes.
    exists [], failure, rest.
    split; [done|]. split; [by exists w1|]. split; [done|]. split; [done|].
    split; [constructor|]. split; [done|]. split; [done|]. split; [done|].
    split; [|done].
    intros error Herror Hcase. by apply Hthrow. }
  destruct (connect transport w) as [[error|] w1] eqn:Hconnect; cycle 1.
  { intros [= <- <- <-].
    eapply Hstop; [reflexivity | reflexivity | reflexivity | constructor
                  | by split | done | by intros e [=] | by intros e [=]]. }
  destruct session as [sess|]; cycle 1.
  { intros [= <- <- <-].
    eapply Hstop; [reflexivity | reflexivity | reflexivity | constructor
                  | by split | done | by intros e [= <-] _ | by intros e _ _ Hs]. }
  destruct (isUnauthorizedError error) eqn:Hauth; simpl; cycle 1.
  { intros [= <- <- <-].
    eapply Hstop; [reflexivity | reflexivity | reflexivity | constructor
                  | by split | done | by intros e [= <-] _
                  | intros e [= <-] Hyes; congruence]. }
  destruct (Js.gt_int (Js.increment attempt) maxAttempts) eqn:Hover.
  { intros [= <- <- <-].
    eapply Hstop; [reflexivity | reflexivity | reflexivity | constructor
                  | by split | done | by intros e [= <-] _
                  | by intros e _ _ _ [=]]. }
  assert (Hwithin : ∀ (e : RuntimeOAuth.Failure) (P : Prop),
            Some error = Some e →
            isUnauthorizedError e = false ∨ Some sess = None ∨ false = true → P).
  { intros e P [= <-] [Hcase|[Hcase|Hcase]]; congruence. }
  destruct (didStartAuthorization sess w1); simpl; cycle 1.
  { intros [= <- <- <-].
    eapply Hstop; [reflexivity | reflexivity | reflexivity | constructor
                  | by split | done | intros e; by apply Hwithin
                  | intros e [= <-] _ _ _; by right]. }
  destruct (happenings sess w1) as [schedule w2] eqn:Hhappen.
  destruct (RuntimeOAuth.observe _ schedule) as [|code|authError] eqn:Hobs.
  { intros [= <- <- <-].
    eapply Hstop; [reflexivity | by exists sess, schedule, w2 | reflexivity
                  | by repeat constructor | by split | done
                  | intros e; by apply Hwithin | intros e _ _ _ _; by left]. }
  2: { intros [= <- <- <-].
       eapply Hstop; [reflexivity | by exists sess, schedule, w2 | reflexivity
                     | by repeat constructor | by split | done
                     | intros e; by apply Hwithin | intros e _ _ _ _; by left]. }
  destruct (hasFinishAuth transport); cycle 1.
  { intros [= <- <- <-].
    eapply Hstop; [reflexivity | by exists sess, schedule, w2 | reflexivity
                  | by repeat constructor | by split | done
                  | intros e; by apply Hwithin | intros e _ _ _ _; by left]. }
  destruct (finishAuth transport code w2) as [[authError|] w3] eqn:Hfinish.
  { intros [= <- <- <-].
    eapply Hstop; [reflexivity | | reflexivity
                  | by repeat constructor | by split | done
                  | intros e; by apply Hwithin | intros e _ _ _ _; by left].
    exists sess, schedule, w2. split; [done|]. split; [done|]. split; [done|].
    by exists w3. }
  destruct (RuntimeOAuth.connectLoop _ _ _ _ _ _ fuel _ _ _ _ _ _ w3)
    as [[[c ev] w4]|] eqn:Hrun; [|done].
  intros [= <- <- <-].
  destruct (IH _ _ _ _ _ Hrun)
    as (retries & failure & rest & -> & Hperformed & Hc & Hf & Hr & Hbound
        & Hret & Hnone & Hthrow & Hgoes).
  eexists ((error, _, code) :: retries), failure, rest.
  split; [reflexivity|]. split.
  { exists w1. split; [done|]. exists sess, schedule, w2.
    split; [done|]. split; [done|]. split; [done|]. by exists w3. }
  split; [done|]. split; [done|]. split; [by constructor|].
  split.
  { intros _. split; [done|]. cbn [length]. rewrite Nat.iter_succ_r.
    destruct retries as [|r retries]; [done | by apply Hbound]. }
  split; [done|]. split; [done|]. split.
  - intros e He Hcase. apply Hthrow; [done|].
    cbn [length] in Hcase. by rewrite Nat.iter_succ_r in Hcase.
  - intros e He Hyes Hsome Hcase. apply Hgoes; [done | done | done |].
    cbn [length] in Hcase. by rewrite Nat.iter_succ_r in Hcase.
Qed.

(** The loop runs out of [fuel] only when [maxAttempts] lets it go on that
    long. *)
Lemma connectLoop_out_of_fuel transport session serverName maxAttempts oauthTimeoutMs fuel :
  ∀ attempt w,
  loop fuel transport session serverName maxAttempts oauthTimeoutMs attempt w = None →
  fuel = 0%nat
  ∨ Js.gt_int (Nat.iter fuel Js.increment attempt) maxAttempts = false.
Proof.
  induction fuel as [|fuel IH]; intros attempt w; subst loop; simpl; [by left|].
  destruct (connect transport w) as [[error|] w1]; [|done].
  destruct session as [sess|]; [|done].
  destruct (isUnauthorizedError error); simpl; [|done].
  destruct (Js.gt_int (Js.increment attempt) maxAttempts) eqn:Hover; [done|].
  destruct (didStartAuthorization sess w1); simpl; [|done].
  destruct (happenings sess w1) as [schedule w2].
  destruct (RuntimeOAuth.observe _ schedule) as [|code|authError]; [done| |done].
  destruct (hasFinishAuth transport); [|done].
  destruct (finishAuth transport code w2) as [[authError|] w3]; [done|].
  destruct (RuntimeOAuth.connectLoop _ _ _ _ _ _ fuel _ _ _ _ _ _ w3)
    as [[[c ev] w4]|] eqn:Hrun; [done|].
  intros _. right. rewrite <- Nat.iter_succ, Nat.iter_succ_r.
  by destruct (IH _ _ Hrun) as [->|Hmore].
Qed.

End ConnectFacts.

(** A call that runs out of fuel was given less than [maxAttempts] allows
    the loop to use. *)
Lemma connectWithAuth_out_of_fuel {W Transport Session : Type}
    isUnauthorizedError connect hasFinishAuth finishAuth didStartAuthorization happenings
    fuel (transport : Transport) (session : option Session) serverName
    (maxAttempts : option Js.Number) (timeout : option Js.Number) (w : W) :
  RuntimeOAuth.connectWithAuth isUnauthorizedError connect hasFinishAuth finishAuth
    didStartAuthorization happenings fuel transport session serverName maxAttempts
    timeout w = None →
  ∀ n, RuntimeOAuth.iterations maxAttempts = Some n → (fuel < n)%nat.
Proof.
  unfold RuntimeOAuth.connectWithAuth, RuntimeOAuth.iterations.
  intros Hrun n Hn.
  apply connectLoop_out_of_fuel in Hrun.
  destruct (default (Js.Finite 3) maxAttempts) as [|[|]|q]; try done.
  - injection Hn as <-. destruct Hrun as [->|Hmore]; [lia | done].
  - destruct (Z.leb_spec (Qfloor q) Js.MAX_SAFE_INTEGER) as [Hsafe|]; [|done].
    injection Hn as <-. destruct Hrun as [->|Hmore]; [lia|].
    rewrite gt_int_finite, increment_from_zero in Hmore.
    apply Z.ltb_ge in Hmore. lia.
Qed.

(** What a completed call records is what it did. *)
Lemma connectWithAuth_performed {W Transport Session : Type}
    isUnauthorizedError connect hasFinishAuth finishAuth didStartAuthorization happenings
    fuel (transport : Transport) (session : option Session) serverName
    (maxAttempts : option Js.Number) (timeout : option Js.Number) (w : W)
    completion events w' :
  RuntimeOAuth.connectWithAuth isUnauthorizedError connect hasFinishAuth finishAuth
    didStartAuthorization happenings fuel transport session serverName maxAttempts
    timeout w = Some (completion, events, w') →
  RuntimeOAuth.performed connect finishAuth happenings transport session events w w'.
Proof.
  unfold RuntimeOAuth.connectWithAuth. intros Hrun.
  by destruct (connectLoop_run _ _ _ _ _ _ _ _ _ _ _ _ _ _ _ _ _ Hrun)
    as (retries & failure & rest & _ & Hperformed & _).
Qed.

(** Without a session, or with a connect that does not fail with an
    unauthorized error, one iteration is all there is. *)
Lemma connectWithAuth_without_session {W Transport Session : Type}
    isUnauthorizedError connect hasFinishAuth finishAuth didStartAuthorization happenings
    fuel (transport : Transport) serverName maxAttempts timeout (w : W) :
  RuntimeOAuth.connectWithAuth (Session := Session) isUnauthorizedError connect
    hasFinishAuth finishAuth didStartAuthorization happenings (S fuel) transport None
    serverName maxAttempts timeout w
  = Some (match (connect transport w).1 with
          | None => RuntimeOAuth.Returned
          | Some error => RuntimeOAuth.Threw error
          end,
          [RuntimeOAuth.EvConnect (connect transport w).1], (connect transport w).2).
Proof.
  unfold RuntimeOAuth.connectWithAuth. simpl.
  by destruct (connect transport w) as [[error|] w1].
Qed.

Example connectWithAuth_gives_up_after_two_retries :
  RuntimeOAuth.connectWithAuth Scenarios.status_401 Scenarios.always_401 (λ _, true)
    Scenarios.finish_ok Scenarios.started Scenarios.approves
    3 () (Some ()) (Some "example") (Some (Js.Finite 2)) None ()
  = let wait := RuntimeOAuth.Race "example" (Js.Finite 60000) in
    let retry :=
      [ RuntimeOAuth.EvConnect (Some Scenarios.unauthorized_error);
        RuntimeOAuth.EvWait wait (RuntimeOAuth.Fulfilled "abc");
        RuntimeOAuth.EvFinishAuth "abc" None ] in
    Some (RuntimeOAuth.Threw Scenarios.unauthorized_error,
          retry ++ retry ++ [RuntimeOAuth.EvConnect (Some Scenarios.unauthorized_error)],
          ()).
Proof. reflexivity. Qed.

(** A fractional budget counts as its whole part. *)
Example connectWithAuth_fractional_budget :
  RuntimeOAuth.connectWithAuth Scenarios.status_401 Scenarios.always_401 (λ _, true)
    Scenarios.finish_ok Scenarios.started Scenarios.approves
    3 () (Some ()) (Some "example") (Some (Js.Finite (5 # 2))) None ()
  = RuntimeOAuth.connectWithAuth Scenarios.status_401 Scenarios.always_401 (λ _, true)
      Scenarios.finish_ok Scenarios.started Scenarios.approves
      3 () (Some ()) (Some "example") (Some (Js.Finite 2)) None ().
Proof. reflexivity. Qed.

Example connectWithAuth_refused_is_not_retried :
  RuntimeOAuth.connectWithAuth Scenarios.status_401 Scenarios.always_refused (λ _, true)
    Scenarios.finish_ok Scenarios.started Scenarios.approves
    4 () (Some ()) (Some "example") None None ()
  = Some (RuntimeOAuth.Threw Scenarios.refused_error,
          [RuntimeOAuth.EvConnect (Some Scenarios.refused_error)], ()).
Proof. reflexivity. Qed.

Example connectWithAuth_without_session_is_not_retried :
  RuntimeOAuth.connectWithAuth (Session := unit)
    Scenarios.status_401 Scenarios.always_401 (λ _, true)
    Scenarios.finish_ok Scenarios.started Scenarios.approves
    4 () None (Some "example") None None ()
  = Some (RuntimeOAuth.Threw Scenarios.unauthorized_error,
          [RuntimeOAuth.EvConnect (Some Scenarios.unauthorized_error)], ()).
Proof. reflexivity. Qed.






(** ** The client context builder *)

Section BuilderFacts.

Context {W Session : Type}.
Variable isUnauthorizedError : RuntimeOAuth.Failure → bool.
Variable readCachedAccessToken : Config.ServerDefinition → W → Transport.CachedToken * W.
Variable materializeHeaders :
  option (gmap string string) → string
  → RuntimeOAuth.Failure + option (gmap string string).
Variable createOAuthSession :
  Config.ServerDefinition → W → (RuntimeOAuth.Failure + Session) * W.
Variable closeSession : Session → W → W.
Variable closeTransport : @Transport.ClientTransport Session → W → W.
Variable connect : @Transport.ClientTransport Session → W → option RuntimeOAuth.Failure * W.
Variable finishAuth :
  @Transport.ClientTransport Session → string → W → option RuntimeOAuth.Failure * W.
Variable didStartAuthorization : Session → W → bool.
Variable happenings : Session → W → list RuntimeOAuth.Happening * W.

(** An event that neither opens a session nor attempts a promotion. *)
Let quiet (e : @Transport.Event Session) : Prop :=
  Transport.opensSession e = false ∧ Transport.attemptsPromotion e = false.

Let attempt := Transport.httpAttempt isUnauthorizedError materializeHeaders
                 createOAuthSession closeSession closeTransport connect finishAuth
                 didStartAuthorization happenings.

(** With [maxOAuthAttempts] zero, however the zero is written, one pass
    through the loop body settles the outcome once each connect loop is
    followed for a single iteration. *)
Lemma httpAttempt_without_oauth fuel definition d timeout allow (w : W) :
  ∃ outcome events w',
    attempt (S fuel) definition
      (Transport.mkOptions (Some (Js.Finite (0 # d))) timeout allow) w
    = Some (inl outcome, events, w')
    ∧ Forall quiet events
    ∧ ∀ context, outcome = Transport.Ready context → Transport.oauthSession context = None.
Proof.
  subst attempt. unfold Transport.httpAttempt.
  destruct (Config.command definition) as [exe args cwd|url headers] eqn:Hcmd.
  { eexists _, _, _. split; [reflexivity | split; [constructor | by intros ? [=]]]. }
  cbn [Transport.maxOAuthAttempts].
  change (Js.is_zero (Some (Js.Finite (0 # d)))) with true.
  cbn [negb]. rewrite !andb_false_r.
  destruct (materializeHeaders headers (Config.name definition)) as [thrown|resolved].
  { eexists _, _, _. split; [reflexivity | split; [constructor | by intros ? [=]]]. }
  set (streamable := Transport.mkTransport Transport.StreamableHTTP _ _ None).
  unfold Transport.connectWithAuth.
  rewrite connectWithAuth_without_session.
  destruct (connect streamable w) as [[primaryError|] w1]; cbn [fst snd]; cycle 1.
  { eexists _, _, _. split; [reflexivity|]. split; [repeat constructor | by intros ? [= <-]]. }
  destruct (isUnauthorizedError primaryError); cbn [Transport.closeIfOpen];
    (destruct (Transport.isTimeoutError primaryError);
     [ eexists _, _, _; split; [reflexivity|]; (split; [repeat constructor | by intros ? [= <-]]) |]).
  all: set (sse := Transport.mkTransport Transport.SSE _ _ None).
  all: rewrite connectWithAuth_without_session.
  all: destruct (connect sse (closeTransport streamable w1)) as [[sseError|] w2];
    cbn [fst snd];
    try (eexists _, _, _; split; [reflexivity|]; (split; [repeat constructor | by intros ? [= <-]])).
  all: cbn [Transport.closeIfOpen].
  all: destruct (Transport.isTimeoutError sseError);
    try (eexists _, _, _; split; [reflexivity|]; (split; [repeat constructor | by intros ? [= <-]])).
  all: rewrite !andb_false_r.
  all: eexists _, _, _; split; [reflexivity|]; (split; [repeat constructor | by intros ? [= <-]]).
Qed.

Lemma cachedAuth_quiet definition options (w : W) :
  Forall quiet
    (Transport.cachedAuth (Session := Session) readCachedAccessToken definition options w).1.2.
Proof.
  unfold Transport.cachedAuth.
  destruct (_ && _); [|constructor].
  destruct (readCachedAccessToken definition w) as [[|[cached|]] w1]; simpl.
  - repeat constructor.
  - destruct (Js.truthy cached); repeat constructor.
  - repeat constructor.
Qed.

(** C5: a [createClientContext] call with [maxOAuthAttempts] equal to 0,
    however that zero is written, completes without ever creating an OAuth
    session and without ever attempting an OAuth promotion, whatever the
    definition and however the server answers the streamable-HTTP and SSE
    connects (401 included); a context it returns carries no OAuth session.
    A single iteration of each connect loop is all such a call takes. *)
Theorem createClientContext_without_oauth fuel definition d timeout allow (w : W) :
  ∃ outcome events w',
    Transport.createClientContext isUnauthorizedError readCachedAccessToken
      materializeHeaders createOAuthSession closeSession closeTransport connect
      finishAuth didStartAuthorization happenings (S fuel)
      definition (Transport.mkOptions (Some (Js.Finite (0 # d))) timeout allow) w
    = Some (outcome, events, w')
    ∧ (∀ e, e ∈ events →
         Transport.opensSession e = false ∧ Transport.attemptsPromotion e = false)
    ∧ ∀ context, outcome = Transport.Ready context → Transport.oauthSession context = None.
Proof.
  unfold Transport.createClientContext.
  pose proof (cachedAuth_quiet definition
                (Transport.mkOptions (Some (Js.Finite (0 # d))) timeout allow) w)
    as Hcached.
  destruct (Transport.cachedAuth _ _ _ _) as [[activeDefinition ev0] w0].
  simpl in Hcached.
  destruct (Config.command activeDefinition) as [exe args cwd|url headers] eqn:Hcmd.
  - destruct (connect _ w0) as [[error|] w1].
    + eexists _, _, _. split; [reflexivity|]. split; [|by intros ? [=]].
      apply Forall_forall. apply Forall_app. split; [done|]. repeat constructor.
    + eexists _, _, _. split; [reflexivity|]. split; [|by intros ? [= <-]].
      apply Forall_forall. apply Forall_app. split; [done|]. repeat constructor.
  - cbn [Transport.httpLoop].
    destruct (httpAttempt_without_oauth fuel activeDefinition d timeout allow w0)
      as (outcome & events & w1 & Hrun & Hquiet & Hctx).
    subst attempt. rewrite Hrun.
    eexists _, _, _. split; [reflexivity|]. split; [|done].
    apply Forall_forall. apply Forall_app. split; [done|].
    apply Forall_cons. split; [done|].
    apply Forall_app. split; [done|]. repeat constructor.
Qed.

End BuilderFacts.

Example createClientContext_401_without_oauth :
  Scenarios.build_against_401 Scenarios.example_server
    (Transport.mkOptions (Some (Js.Finite 0)) None false)
  = let streamable :=
      Transport.mkTransport Transport.StreamableHTTP
        (Config.command Scenarios.example_server) None None in
    let sse :=
      Transport.mkTransport Transport.SSE
        (Config.command Scenarios.example_server) None None in
    let refused := [RuntimeOAuth.EvConnect (Some Scenarios.unauthorized_error)] in
    Some (Transport.Failed Scenarios.unauthorized_error,
          [ Transport.EvEnvApplied None;
            Transport.EvConnect streamable refused; Transport.EvCloseTransport streamable;
            Transport.EvConnect sse refused; Transport.EvCloseTransport sse;
            Transport.EvEnvRestored ],
          ()).
Proof. reflexivity. Qed.

(** With the default attempt budget the same server makes the builder
    promote the definition and open a session. *)
Example createClientContext_401_with_oauth :
  match Scenarios.build_against_401 Scenarios.configured_server
          (Transport.mkOptions None None false) with
  | Some (outcome, events, _) =>
      outcome = Transport.Failed Scenarios.unauthorized_error
      ∧ existsb Transport.attemptsPromotion events = true
      ∧ existsb Transport.opensSession events = true
  | None => False
  end.
Proof. vm_compute. repeat split. Qed.

(** ** The cached-auth step *)

Example cachedAuth_injects_bearer :
  (Transport.cachedAuth (Session := unit) Scenarios.cached_token Scenarios.example_server
     Scenarios.cached_options ()).1.1
  = Config.with_command Scenarios.example_server
      (Config.HttpCommand Scenarios.example_url
         (Some (<["Authorization" := "Bearer tok"]> ∅))).
Proof. reflexivity. Qed.

Lemma injectCachedToken_frame definition cached :
  let active := Transport.injectCachedToken definition cached in
  Config.name active = Config.name definition
  ∧ Config.auth active = Config.auth definition
  ∧ Config.source active = Config.source definition
  ∧ Config.env active = Config.env definition
  ∧ Config.tokenCacheDir active = Config.tokenCacheDir definition
  ∧ Config.clientName active = Config.clientName definition
  ∧ Config.oauthRedirectUrl active = Config.oauthRedirectUrl definition.
Proof.
  unfold Transport.injectCachedToken.
  destruct (Config.command definition) as [? ? ?|url headers]; [done|].
  by destruct (default ∅ headers !! "Authorization").
Qed.

(** C9: on the cached-auth path (allowCachedAuth set, auth "oauth", HTTP
    command) with a non-empty token obtained, the step leaves the definition
    exactly as it is when the headers already have an [Authorization] entry;
    otherwise it adds [Authorization: Bearer <token>] to the headers.  In both
    cases the URL, every other header and every other field of the definition
    are unchanged. *)
Theorem cachedAuth_authorization_header {W Session : Type}
    (readCachedAccessToken : Config.ServerDefinition → W → Transport.CachedToken * W)
    definition url headers options token (w w1 : W) :
  Transport.allowCachedAuth options = true →
  Config.auth definition = Some "oauth" →
  Config.command definition = Config.HttpCommand url headers →
  readCachedAccessToken definition w = (Transport.Cached (Some token), w1) →
  token ≠ "" →
  let existing : gmap string string := default ∅ headers in
  let active :=
    (Transport.cachedAuth (Session := Session) readCachedAccessToken
       definition options w).1.1 in
  (is_Some (existing !! "Authorization") → active = definition)
  ∧ (existing !! "Authorization" = None →
     active = Config.with_command definition
                (Config.HttpCommand url
                   (Some (<["Authorization" := "Bearer " +:+ token]> existing))))
  ∧ (∃ headers' : option (gmap string string),
       Config.command active = Config.HttpCommand url headers'
       ∧ ∀ key, key ≠ "Authorization" → default ∅ headers' !! key = existing !! key)
  ∧ Config.name active = Config.name definition
  ∧ Config.auth active = Config.auth definition
  ∧ Config.source active = Config.source definition
  ∧ Config.env active = Config.env definition
  ∧ Config.tokenCacheDir active = Config.tokenCacheDir definition
  ∧ Config.clientName active = Config.clientName definition
  ∧ Config.oauthRedirectUrl active = Config.oauthRedirectUrl definition.
Proof.
  intros Hallow Hauth Hcmd Hread Htoken existing active.
  assert (active = Transport.injectCachedToken definition token) as ->.
  { subst active. unfold Transport.cachedAuth, Config.is_oauth, Config.is_http.
    rewrite Hallow, Hcmd, Hread, (bool_decide_eq_true_2 _ Hauth). simpl.
    by rewrite (truthy_nonempty _ Htoken). }
  split; [|split; [|split]]; [| | |apply injectCachedToken_frame].
  - intros [value Hvalue]. unfold Transport.injectCachedToken.
    rewrite Hcmd. fold existing. by rewrite Hvalue.
  - intros Hnone. unfold Transport.injectCachedToken.
    rewrite Hcmd. fold existing. by rewrite Hnone.
  - unfold Transport.injectCachedToken. rewrite Hcmd. fold existing.
    destruct (existing !! "Authorization") eqn:Hlookup.
    + exists headers. by rewrite Hcmd.
    + eexists. split; [reflexivity|]. intros key Hkey. simpl.
      by rewrite lookup_insert_ne.
Qed.

Lemma cachedAuth_authorization_header_witness :
  let existing : gmap string string := Scenarios.preset_headers in
  let active :=
    (Transport.cachedAuth (Session := unit) Scenarios.cached_token
       Scenarios.preset_server Scenarios.cached_options ()).1.1 in
  (is_Some (existing !! "Authorization") → active = Scenarios.preset_server)
  ∧ (existing !! "Authorization" = None →
     active = Config.with_command Scenarios.preset_server
                (Config.HttpCommand Scenarios.example_url
                   (Some (<["Authorization" := "Bearer " +:+ "tok"]> existing))))
  ∧ (∃ headers' : option (gmap string string),
       Config.command active = Config.HttpCommand Scenarios.example_url headers'
       ∧ ∀ key, key ≠ "Authorization" → default ∅ headers' !! key = existing !! key)
  ∧ Config.name active = Config.name Scenarios.preset_server
  ∧ Config.auth active = Config.auth Scenarios.preset_server
  ∧ Config.source active = Config.source Scenarios.preset_server
  ∧ Config.env active = Config.env Scenarios.preset_server
  ∧ Config.tokenCacheDir active = Config.tokenCacheDir Scenarios.preset_server
  ∧ Config.clientName active = Config.clientName Scenarios.preset_server
  ∧ Config.oauthRedirectUrl active = Config.oauthRedirectUrl Scenarios.preset_server.
Proof.
  apply (cachedAuth_authorization_header (Session := unit) Scenarios.cached_token
           Scenarios.preset_server Scenarios.example_url (Some Scenarios.preset_headers)
           Scenarios.cached_options "tok" () ()).
  - reflexivity.
  - reflexivity.
  - reflexivity.
  - reflexivity.
  - discriminate.
Defined.

(** * Further properties *)

(** ** Timeout configuration *)

Example parseOAuthTimeout_rejects_zero :
  OAuthTimeout.parseOAuthTimeout (λ _, Js.Finite 0) (Some "0") = Js.Finite 60000.
Proof. reflexivity. Qed.

Example resolveOAuthTimeoutFromEnv_empty_primary_hides_alias :
  OAuthTimeout.resolveOAuthTimeoutFromEnv (λ _, Js.Finite 5000)
    (<["MCPORTER_OAUTH_TIMEOUT_MS" := ""]> (<["MCPORTER_OAUTH_TIMEOUT" := "5000"]> ∅))
  = Js.Finite 60000.
Proof. reflexivity. Qed.

Lemma parseOAuthTimeout_usable (parseInt : string → Js.Number) (raw : option string) :
  Js.isFinite (OAuthTimeout.parseOAuthTimeout parseInt raw) = true
  ∧ Js.le_zero (OAuthTimeout.parseOAuthTimeout parseInt raw) = false.
Proof.
  unfold OAuthTimeout.parseOAuthTimeout.
  destruct raw as [[|a text]|]; simpl; try done.
  destruct (Js.isFinite (parseInt _)) eqn:Hfin; simpl; [|done].
  by destruct (Js.le_zero (parseInt _)) eqn:Hle.
Qed.

(** X1: whatever [Number.parseInt] makes of the text, [parseOAuthTimeout]
    returns a finite number greater than zero: it returns the parsed value
    whenever the text is non-empty and parses to a finite positive number,
    and 60000 in every other case (text missing or empty, no number,
    infinity, zero or a negative number). *)
Theorem parseOAuthTimeout_finite_positive
    (parseInt : string → Js.Number) (raw : option string) :
  let result := OAuthTimeout.parseOAuthTimeout parseInt raw in
  Js.isFinite result = true
  ∧ Js.le_zero result = false
  ∧ (∀ text,
       raw = Some text → text ≠ "" →
       Js.isFinite (parseInt text) = true → Js.le_zero (parseInt text) = false →
       result = parseInt text)
  ∧ (raw = None ∨ raw = Some ""
     ∨ (∃ text, raw = Some text
                ∧ (Js.isFinite (parseInt text) = false
                   ∨ Js.le_zero (parseInt text) = true)) →
     result = Js.Finite 60000).
Proof.
  intros result.
  split; [apply parseOAuthTimeout_usable|].
  split; [apply parseOAuthTimeout_usable|].
  subst result. unfold OAuthTimeout.parseOAuthTimeout. split.
  - intros text -> Hne Hfin Hpos.
    destruct text as [|a text]; [done|]. simpl. by rewrite Hfin, Hpos.
  - intros [->|[->|(text & -> & Hbad)]]; [done | done |].
    destruct text as [|a text]; [done|]. simpl.
    destruct Hbad as [-> | ->]; [done | by rewrite orb_true_r].
Qed.

Example parseOAuthTimeout_takes_parsed_value :
  OAuthTimeout.parseOAuthTimeout (λ _, Js.Finite 5000) (Some "5000") = Js.Finite 5000.
Proof. reflexivity. Qed.

(** X2: a timeout taken from the environment never switches the deadline
    off: the wait it configures is always raced against a timer with that
    timeout, so a timer that fires first rejects it with
    [OAuthTimeoutError]. *)
Theorem env_timeout_always_raced
    (parseInt : string → Js.Number) (env : gmap string string)
    (serverName : option string) :
  let timeoutMs := OAuthTimeout.resolveOAuthTimeoutFromEnv parseInt env in
  let wait :=
    RuntimeOAuth.waitForAuthorizationCodeWithTimeout serverName (Some timeoutMs) in
  wait = RuntimeOAuth.Race (default "unknown" serverName) timeoutMs
  ∧ ∀ later,
      RuntimeOAuth.observe wait (RuntimeOAuth.TimerFired :: later)
      = RuntimeOAuth.Rejected
          (RuntimeOAuth.OAuthTimeoutError (default "unknown" serverName) timeoutMs).
Proof.
  intros timeoutMs wait.
  destruct (parseOAuthTimeout_usable parseInt
              (Js.nullish_opt (env !! "MCPORTER_OAUTH_TIMEOUT_MS")
                 (env !! "MCPORTER_OAUTH_TIMEOUT")))
    as (Hfin & Hpos).
  fold (OAuthTimeout.resolveOAuthTimeoutFromEnv parseInt env) in Hfin, Hpos.
  fold timeoutMs in Hfin, Hpos.
  assert (wait = RuntimeOAuth.Race (default "unknown" serverName) timeoutMs) as Hwait.
  { subst wait. unfold RuntimeOAuth.waitForAuthorizationCodeWithTimeout. simpl.
    by rewrite Hfin, Hpos. }
  split; [done|]. intros later. rewrite Hwait. simpl.
  by rewrite race_outer_settled.
Qed.

(** ** The timer race, continued *)

Lemma session_promise_settled schedule :
  ∀ p, p ≠ RuntimeOAuth.Pending →
  fold_left RuntimeOAuth.session_step schedule p = p.
Proof.
  induction schedule as [|h schedule IH]; intros p Hp; simpl; [done|].
  destruct h as [|how]; simpl; [by apply IH|].
  destruct p; [done | by apply IH | by apply IH].
Qed.

Lemma of_settlement_settled how :
  RuntimeOAuth.of_settlement how ≠ RuntimeOAuth.Pending.
Proof. by destruct how. Qed.

(** X3: the promise [waitForAuthorizationCodeWithTimeout] hands back settles
    at most once: once it is settled, nothing that happens later changes it;
    and when the session settles its code promise first, the promise handed
    back takes that settlement, timer or not. *)
Theorem observe_settles_once
    (serverName : option string) (timeoutMs : option Js.Number)
    (before after : list RuntimeOAuth.Happening) :
  let wait := RuntimeOAuth.waitForAuthorizationCodeWithTimeout serverName timeoutMs in
  (RuntimeOAuth.observe wait before = RuntimeOAuth.Pending
   ∨ RuntimeOAuth.observe wait (before ++ after) = RuntimeOAuth.observe wait before)
  ∧ ∀ how,
      RuntimeOAuth.observe wait (RuntimeOAuth.SessionSettled how :: after)
      = RuntimeOAuth.of_settlement how.
Proof.
  intros wait. destruct wait as [|displayName ms]; simpl.
  - split.
    + rewrite fold_left_app.
      destruct (fold_left RuntimeOAuth.session_step before RuntimeOAuth.Pending) eqn:Hb;
        [by left | right | right]; by apply session_promise_settled.
    + intros how. apply session_promise_settled, of_settlement_settled.
  - split.
    + rewrite fold_left_app.
      destruct (RuntimeOAuth.outer (fold_left _ before _)) eqn:Hb;
        [by left | right | right]; rewrite race_outer_settled; congruence.
    + intros how. rewrite race_outer_settled; [done|]. apply of_settlement_settled.
Qed.

(** ** The connect loop, continued *)


(** X5: with a session whose browser flow has started, an unauthorized
    first connect within the attempt budget, a finite positive timeout and a
    timer that fires before the code arrives, [connectWithAuth] throws an
    [OAuthTimeoutError] carrying the server name and the timeout, after that
    one connect and without calling [finishAuth]. *)
Theorem connectWithAuth_times_out {W Transport Session : Type}
    (isUnauthorizedError : RuntimeOAuth.Failure → bool)
    (connect : Transport → W → option RuntimeOAuth.Failure * W)
    (hasFinishAuth : Transport → bool)
    (finishAuth : Transport → string → W → option RuntimeOAuth.Failure * W)
    (didStartAuthorization : Session → W → bool)
    (happenings : Session → W → list RuntimeOAuth.Happening * W)
    (fuel : nat) (transport : Transport) (sess : Session) (serverName : option string)
    (maxAttempts : option Js.Number) (timeoutMs : Js.Number) (w w1 w2 : W) error later :
  connect transport w = (Some error, w1) →
  isUnauthorizedError error = true →
  Js.gt_int 1 (default (Js.Finite 3) maxAttempts) = false →
  didStartAuthorization sess w1 = true →
  Js.isFinite timeoutMs = true → Js.le_zero timeoutMs = false →
  happenings sess w1 = (RuntimeOAuth.TimerFired :: later, w2) →
  let timedOut :=
    RuntimeOAuth.OAuthTimeoutError (default "unknown" serverName) timeoutMs in
  RuntimeOAuth.connectWithAuth isUnauthorizedError connect hasFinishAuth finishAuth
    didStartAuthorization happenings (S fuel) transport (Some sess) serverName
    maxAttempts (Some timeoutMs) w
  = Some (RuntimeOAuth.Threw timedOut,
          [ RuntimeOAuth.EvConnect (Some error);
            RuntimeOAuth.EvWait
              (RuntimeOAuth.Race (default "unknown" serverName) timeoutMs)
              (RuntimeOAuth.Rejected timedOut) ],
          w2).
Proof.
  intros Hconnect Hauth Hbudget Hstarted Hfin Hpos Hhappen timedOut.
  unfold RuntimeOAuth.connectWithAuth.
  set (limit := default (Js.Finite 3) maxAttempts) in *.
  simpl. rewrite Hconnect, Hauth. simpl.
  change (Js.increment 0) with 1%Z. rewrite Hbudget, Hstarted. simpl.
  unfold RuntimeOAuth.waitForAuthorizationCodeWithTimeout. simpl.
  rewrite Hfin, Hpos, Hhappen. simpl.
  by rewrite race_outer_settled.
Qed.

Lemma connectWithAuth_times_out_witness :
  RuntimeOAuth.connectWithAuth Scenarios.status_401 Scenarios.always_401 (λ _, true)
    Scenarios.finish_ok Scenarios.started Cases.never_approves
    4 () (Some ()) (Some "example") None (Some (Js.Finite 1000)) ()
  = Some (RuntimeOAuth.Threw (RuntimeOAuth.OAuthTimeoutError "example" (Js.Finite 1000)),
          [ RuntimeOAuth.EvConnect (Some Scenarios.unauthorized_error);
            RuntimeOAuth.EvWait (RuntimeOAuth.Race "example" (Js.Finite 1000))
              (RuntimeOAuth.Rejected
                 (RuntimeOAuth.OAuthTimeoutError "example" (Js.Finite 1000))) ],
          ()).
Proof.
  apply (connectWithAuth_times_out Scenarios.status_401 Scenarios.always_401 (λ _, true)
           Scenarios.finish_ok Scenarios.started Cases.never_approves
           3 () () (Some "example") None (Js.Finite 1000) () () ()
           Scenarios.unauthorized_error []).
  - reflexivity.
  - reflexivity.
  - reflexivity.
  - reflexivity.
  - reflexivity.
  - reflexivity.
  - reflexivity.
Defined.

(** ** The provider's methods *)

Example close_rejects_pending :
  OAuthProvider.close (λ _ (w : unit), w) Scenarios.waiting_provider ()
  = (Some (7%nat, OAuthSession.Reject
             "OAuth session closed before receiving authorization code."),
     OAuthSession.mkProvider Scenarios.example_server
       (Js.mkUrl "http:" "127.0.0.1" (Some 33418%N) "/" "")
       (OAuthSession.metadata Scenarios.waiting_provider) true None None,
     ()).
Proof. reflexivity. Qed.

(** X6: [close] rejects the pending code promise, if there is one, with the
    "closed before receiving authorization code" error, forgets it and
    releases the listener; closing again rejects nothing, closes nothing and
    leaves the provider as it is. *)
Theorem close_idempotent {W : Type} (closeServer : N → W → W)
    (p : OAuthSession.Provider) (w : W) :
  let first := OAuthProvider.close closeServer p w in
  first.1.1
  = ((λ handle, (handle, OAuthSession.Reject OAuthProvider.CLOSED_MESSAGE))
       <$> OAuthSession.authorizationDeferred p)
  ∧ OAuthSession.authorizationDeferred first.1.2 = None
  ∧ OAuthSession.server first.1.2 = None
  ∧ first.2 = match OAuthSession.server p with
              | Some port => closeServer port w
              | None => w
              end
  ∧ OAuthProvider.close closeServer first.1.2 first.2 = (None, first.1.2, first.2).
Proof.
  unfold OAuthProvider.close. simpl.
  destruct (OAuthSession.server p) eqn:Hserver; simpl.
  - repeat split.
  - rewrite Hserver. repeat split.
Qed.

(** X7: the promise [waitForAuthorizationCode] hands out is the one
    [redirectToAuthorization] created when the flow has started, and a new
    one otherwise; asking again hands out the same promise without creating
    another; a callback on a served path with a non-empty code that passes the
    state guard resolves exactly that promise with the code; and [close]
    rejects exactly that promise. *)
Theorem waitForAuthorizationCode_rendezvous {W : Type}
    (createDeferred : W → nat * W) (closeServer : N → W → W)
    (readState : W → OAuthSession.ReadOutcome * W)
    (p : OAuthSession.Provider) (w : W) :
  let waiting := OAuthProvider.waitForAuthorizationCode createDeferred p w in
  let handle := waiting.1.1 in
  let p1 := waiting.1.2 in
  let w1 := waiting.2 in
  handle = default (createDeferred w).1 (OAuthSession.authorizationDeferred p)
  ∧ OAuthProvider.waitForAuthorizationCode createDeferred p1 w1 = (handle, p1, w1)
  ∧ (OAuthProvider.close closeServer p1 w1).1.1
    = Some (handle, OAuthSession.Reject OAuthProvider.CLOSED_MESSAGE)
  ∧ ∀ pathname query code expectedState w2,
      OAuthProvider.servesPath p pathname = true →
      readState w1 = (OAuthSession.ReadValue expectedState, w2) →
      OAuthSession.searchParams_get query "code" = Some code → code ≠ "" →
      OAuthProvider.stateMismatch expectedState
        (OAuthSession.searchParams_get query "state") = false →
      (OAuthSession.handleRequest readState p1 (OAuthSession.Parsed pathname query) w1).1.1
      = OAuthSession.mkHandled
          (Some (OAuthSession.mkResponse 200 (Some "text/html")
                   (OAuthSession.html "Authorization successful"
                      "You can return to the CLI.")))
          (Some (handle, OAuthSession.Resolve code)).
Proof.
  intros waiting handle p1 w1.
  assert (Hp1 : OAuthSession.authorizationDeferred p1 = Some handle
                ∧ OAuthSession.redirectUrlValue p1 = OAuthSession.redirectUrlValue p).
  { subst handle p1 waiting. unfold OAuthProvider.waitForAuthorizationCode.
    destruct (OAuthSession.authorizationDeferred p) eqn:Hd; simpl; [by split|].
    by destruct (createDeferred w). }
  destruct Hp1 as [Hd Hurl].
  split; [|split; [|split]].
  - subst handle waiting. unfold OAuthProvider.waitForAuthorizationCode.
    destruct (OAuthSession.authorizationDeferred p); [done|].
    by destruct (createDeferred w).
  - unfold OAuthProvider.waitForAuthorizationCode at 1. by rewrite Hd.
  - unfold OAuthProvider.close, OAuthSession.settle. simpl. rewrite Hd. simpl.
    by destruct (OAuthSession.server p1).
  - intros pathname query code expectedState w2 Hpath Hread Hcode Hne Hstate.
    unfold OAuthSession.handleRequest.
    assert (negb (String.eqb pathname (OAuthSession.expectedPath p1))
            && negb (bool_decide (Some pathname = OAuthSession.fallbackPath p1)) = false)
      as ->.
    { unfold OAuthProvider.servesPath in Hpath.
      unfold OAuthSession.fallbackPath, OAuthSession.expectedPath in *.
      rewrite Hurl. rewrite <- negb_orb. by rewrite Hpath. }
    rewrite Hread, Hcode. unfold OAuthProvider.stateMismatch in Hstate.
    rewrite Hstate. simpl. rewrite (truthy_nonempty _ Hne).
    unfold OAuthSession.settle. by rewrite Hd.
Qed.

(** X8: a callback either is turned away with 404, touching neither the
    provider nor the pending promise nor the stored state, or it uses up the
    pending promise: whatever request or [close] follows settles nothing. *)
Theorem callback_settles_at_most_once {W : Type}
    (readState : W → OAuthSession.ReadOutcome * W) (closeServer : N → W → W)
    (p : OAuthSession.Provider) (req : OAuthSession.IncomingUrl) (w : W) :
  let handled := OAuthSession.handleRequest readState p req w in
  (handled = (OAuthSession.mkHandled
                (Some (OAuthSession.mkResponse 404 None "Not found")) None, p, w)
   ∧ ∃ pathname query,
       req = OAuthSession.Parsed pathname query
       ∧ OAuthProvider.servesPath p pathname = false)
  ∨ (OAuthSession.authorizationDeferred handled.1.2 = None
     ∧ (∀ req' w',
          OAuthSession.settled
            (OAuthSession.handleRequest readState handled.1.2 req' w').1.1 = None)
     ∧ ∀ w', (OAuthProvider.close closeServer handled.1.2 w').1.1 = None).
Proof.
  intros handled.
  assert (Hgone : ∀ q : OAuthSession.Provider,
            OAuthSession.authorizationDeferred q = None →
            (∀ req' w',
               OAuthSession.settled (OAuthSession.handleRequest readState q req' w').1.1
               = None)
            ∧ ∀ w', (OAuthProvider.close closeServer q w').1.1 = None).
  { intros q Hq. split.
    - intros req' w'. unfold OAuthSession.handleRequest, OAuthSession.settle.
      rewrite Hq.
      destruct req' as [reason|pathname query]; [done|].
      destruct (_ && _); [done|].
      destruct (readState w') as [[reason|expected] w'']; [done|].
      destruct (OAuthProvider.stateMismatch expected
                  (OAuthSession.searchParams_get query "state")) eqn:Hguard;
        unfold OAuthProvider.stateMismatch in Hguard; rewrite Hguard; [done|].
      destruct (Js.truthy_opt (OAuthSession.searchParams_get query "code")); [done|].
      by destruct (Js.truthy_opt (OAuthSession.searchParams_get query "error")).
    - intros w'. unfold OAuthProvider.close, OAuthSession.settle. simpl.
      rewrite Hq. by destruct (OAuthSession.server q). }
  subst handled. unfold OAuthSession.handleRequest.
  destruct req as [reason|pathname query].
  { right. split; [done|]. by apply Hgone. }
  destruct (negb (String.eqb pathname (OAuthSession.expectedPath p))
            && negb (bool_decide (Some pathname = OAuthSession.fallbackPath p)))
    eqn:Hpath.
  { left. split; [done|]. exists pathname, query. split; [done|].
    unfold OAuthProvider.servesPath. rewrite <- negb_orb in Hpath.
    by apply negb_true_iff in Hpath. }
  right.
  destruct (readState w) as [[reason|expected] w1].
  { split; [done|]. by apply Hgone. }
  destruct (OAuthProvider.stateMismatch expected
              (OAuthSession.searchParams_get query "state")) eqn:Hguard;
    unfold OAuthProvider.stateMismatch in Hguard; rewrite Hguard;
    [split; [done|]; by apply Hgone|].
  destruct (Js.truthy_opt (OAuthSession.searchParams_get query "code"));
    [split; [done|]; by apply Hgone|].
  destruct (Js.truthy_opt (OAuthSession.searchParams_get query "error"));
    (split; [done|]; by apply Hgone).
Qed.

(** X9: the callback handler answers 200, and resolves the pending code
    promise, in exactly one situation: the request is on a served path, the
    stored state could be read, the [code] parameter is non-empty, and the
    state guard does not fire (one of the two states is missing or empty, or
    they are equal).  The promise is then resolved with that code. *)
Theorem callback_accepts_exactly {W : Type}
    (readState : W → OAuthSession.ReadOutcome * W)
    (p : OAuthSession.Provider) (req : OAuthSession.IncomingUrl) (w : W) :
  let handled := (OAuthSession.handleRequest readState p req w).1.1 in
  let accepts (code : string) :=
    ∃ pathname query expectedState w1,
      req = OAuthSession.Parsed pathname query
      ∧ OAuthProvider.servesPath p pathname = true
      ∧ readState w = (OAuthSession.ReadValue expectedState, w1)
      ∧ OAuthSession.searchParams_get query "code" = Some code
      ∧ code ≠ ""
      ∧ OAuthProvider.stateMismatch expectedState
          (OAuthSession.searchParams_get query "state") = false in
  (OAuthSession.statusCode <$> OAuthSession.response handled = Some 200%Z
   ↔ ∃ code, accepts code)
  ∧ ∀ handle code,
      OAuthSession.settled handled = Some (handle, OAuthSession.Resolve code)
      ↔ OAuthSession.authorizationDeferred p = Some handle ∧ accepts code.
Proof.
  intros handled accepts. subst handled accepts.
  unfold OAuthSession.handleRequest, OAuthSession.settle.
  destruct req as [reason|pathname query].
  { simpl. split; [split; [done | by intros (? & ? & ? & ? & ? & [=] & _)]|].
    intros handle code. split.
    - destruct (OAuthSession.authorizationDeferred p); by intros [=].
    - by intros (_ & ? & ? & ? & ? & [=] & _). }
  assert (Hserve : negb (String.eqb pathname (OAuthSession.expectedPath p))
                   && negb (bool_decide (Some pathname = OAuthSession.fallbackPath p))
                   = negb (OAuthProvider.servesPath p pathname)).
  { unfold OAuthProvider.servesPath. by rewrite negb_orb. }
  rewrite Hserve.
  destruct (OAuthProvider.servesPath p pathname) eqn:Hpath; simpl.
  2: { split; [split; [done|]|].
       - intros (? & ? & ? & ? & ? & [= <- <-] & Hs & _). congruence.
       - intros handle code. split; [done|].
         intros (_ & ? & ? & ? & ? & [= <- <-] & Hs & _). congruence. }
  destruct (readState w) as [[reason|expected] w1] eqn:Hread; simpl.
  { split; [split; [done|]|].
    - by intros (? & ? & ? & ? & ? & [= <- <-] & _ & [=] & _).
    - intros handle code. split.
      + destruct (OAuthSession.authorizationDeferred p); by intros [=].
      + by intros (_ & ? & ? & ? & ? & [= <- <-] & _ & [=] & _). }
  fold (OAuthProvider.stateMismatch expected (OAuthSession.searchParams_get query "state")).
  destruct (OAuthProvider.stateMismatch expected _) eqn:Hguard; simpl.
  { split; [split; [done|]|].
    - intros (? & ? & ? & ? & ? & [= <- <-] & _ & [= <-] & _ & _ & Hg). congruence.
    - intros handle code. split.
      + destruct (OAuthSession.authorizationDeferred p); by intros [=].
      + intros (_ & ? & ? & ? & ? & [= <- <-] & _ & [= <-] & _ & _ & Hg). congruence. }
  destruct (OAuthSession.searchParams_get query "code") as [[|a code]|] eqn:Hcode; simpl.
  - assert (Hno : ¬ ∃ c, ∃ pathname0 query0 (expectedState : option string) (w2 : W),
               OAuthSession.Parsed pathname query = OAuthSession.Parsed pathname0 query0
               ∧ OAuthProvider.servesPath p pathname0 = true
               ∧ (OAuthSession.ReadValue expected, w1)
                 = (OAuthSession.ReadValue expectedState, w2)
               ∧ OAuthSession.searchParams_get query0 "code" = Some c ∧ c ≠ ""
               ∧ OAuthProvider.stateMismatch expectedState
                   (OAuthSession.searchParams_get query0 "state") = false).
    { intros (c & ? & ? & ? & ? & [= <- <-] & _ & _ & Hc & Hne & _). congruence. }
    split; [split; [|by intros H; destruct (Hno H)]|].
    + by destruct (Js.truthy_opt (OAuthSession.searchParams_get query "error")).
    + intros handle code. split.
      * destruct (Js.truthy_opt (OAuthSession.searchParams_get query "error"));
          destruct (OAuthSession.authorizationDeferred p); by intros [=].
      * intros [_ H]. destruct Hno. by exists code.
  - split; [split; [intros _|done]|].
    + exists (String a code), pathname, query, expected, w1. by repeat split.
    + intros handle c. split.
      * destruct (OAuthSession.authorizationDeferred p) as [h|]; simpl; [|by intros [=]].
        intros [= <- <-]. split; [done|].
        exists pathname, query, expected, w1. by repeat split.
      * intros (-> & ? & ? & ? & ? & [= <- <-] & _ & _ & Hc & _). simpl.
        rewrite Hcode in Hc. by injection Hc as <-.
  - assert (Hno : ∀ c, ¬ OAuthSession.searchParams_get query "code" = Some c)
      by (intros c; congruence).
    split; [split|].
    + by destruct (Js.truthy_opt (OAuthSession.searchParams_get query "error")).
    + intros (c & ? & ? & ? & ? & [= <- <-] & _ & _ & Hc & _). by destruct (Hno c).
    + intros handle code. split.
      * destruct (Js.truthy_opt (OAuthSession.searchParams_get query "error"));
          destruct (OAuthSession.authorizationDeferred p); by intros [=].
      * intros (_ & ? & ? & ? & ? & [= <- <-] & _ & _ & Hc & _). by destruct (Hno code).
Qed.

(** ** Metadata discovery *)

Example discoverOAuthMetadata_first_server :
  Discovery.discoverOAuthMetadata Cases.parses_auth Cases.finds_resource
    Cases.finds_server Scenarios.example_url ()
  = (Discovery.mkResult (Some Cases.resource_document) (Some Cases.server_document)
       Cases.auth_url,
     [Cases.auth_url], ()).
Proof. reflexivity. Qed.

(** X10: [discoverOAuthMetadata] never fails and always settles on an
    authorization-server URL: the first server the resource document names
    when that entry is non-empty and parses as a URL, and the root of the
    resource's origin in every other case (no document, no list, an empty
    list, an empty or malformed first entry).  Authorization-server metadata
    is looked up exactly once, at that URL, and a lookup that throws counts
    as no metadata. *)
Theorem discoverOAuthMetadata_server_url {W : Type}
    (parseUrl : string → option Js.Url)
    (discoverResource : Js.Url → W → option Discovery.ResourceDocument * W)
    (discoverServer : Js.Url → W → Discovery.Lookup * W)
    (resourceUrl : Js.Url) (w : W) :
  let run :=
    Discovery.discoverOAuthMetadata parseUrl discoverResource discoverServer
      resourceUrl w in
  let found := (discoverResource resourceUrl w).1 in
  let url := Discovery.authorizationServerUrl run.1.1 in
  let root := Js.mkUrl (Js.protocol resourceUrl) (Js.hostname resourceUrl)
                (Js.port resourceUrl) "/" "" in
  Discovery.resourceMetadata run.1.1 = found
  ∧ run.1.2 = [url]
  ∧ run.2 = (discoverServer url (discoverResource resourceUrl w).2).2
  ∧ Discovery.authorizationServerMetadata run.1.1
    = match (discoverServer url (discoverResource resourceUrl w).2).1 with
      | Discovery.Found document => document
      | Discovery.LookupThrew => None
      end
  ∧ (∀ document first rest parsed,
       found = Some document →
       Discovery.authorization_servers document = Some (first :: rest) →
       first ≠ "" → parseUrl first = Some parsed → url = parsed)
  ∧ (found = None → url = root)
  ∧ (∀ document, found = Some document →
       Discovery.authorization_servers document = None
       ∨ Discovery.authorization_servers document = Some [] → url = root)
  ∧ (∀ document first rest,
       found = Some document →
       Discovery.authorization_servers document = Some (first :: rest) →
       first = "" ∨ parseUrl first = None → url = root).
Proof.
  intros run found url root. subst run found url root.
  unfold Discovery.discoverOAuthMetadata.
  destruct (discoverResource resourceUrl w) as [resource w1]; simpl.
  set (url := default (Js.at_origin "/" resourceUrl) _).
  destruct (discoverServer url w1) as [lookup w2] eqn:Hlookup; simpl.
  rewrite Hlookup. simpl.
  split; [done|]. split; [done|]. split; [done|]. split; [by destruct lookup|].
  subst url. split; [|split; [|split]].
  - intros document first rest parsed -> Hservers Hne Hparse. simpl.
    rewrite Hservers. simpl. by rewrite (truthy_nonempty _ Hne), Hparse.
  - by intros ->.
  - intros document -> [Hservers|Hservers]; simpl; by rewrite Hservers.
  - intros document first rest -> Hservers [->|Hparse]; simpl; rewrite Hservers; simpl.
    + done.
    + destruct (Js.truthy first); by rewrite ?Hparse.
Qed.

(** X11: [resolveOAuthScope] never invents a scope: its result is one of the
    advertised scopes whenever any is advertised, and otherwise it is the
    caller's fallback, or "mcp:tools" when the caller gave none. *)
Theorem resolveOAuthScope_within_advertised (o : OAuthDiscovery.ScopeOptions) :
  let scopes := OAuthDiscovery.advertised o in
  let result := OAuthDiscovery.resolveOAuthScope o in
  (scopes ≠ [] ∧ result ∈ scopes)
  ∨ (scopes = [] ∧ result = default "mcp:tools" (OAuthDiscovery.fallbackScope o)).
Proof.
  intros scopes result. subst result. rewrite resolveOAuthScope_rule.
  unfold OAuthDiscovery.preferred_scope. fold scopes.
  destruct scopes as [|first rest] eqn:Hscopes.
  - right. split; [done|].
    rewrite !decide_False by apply not_elem_of_nil. done.
  - left. split; [done|].
    repeat case_decide; try done. simpl. left.
Qed.

(** ** Session construction, continued *)

Example create_with_discovery :
  match (OAuthSession.create Scenarios.persistence_ok Scenarios.stable_port_free
           (Discovery.forSession Cases.parses_auth Cases.finds_resource Cases.finds_server)
           Scenarios.example_server ()).1 with
  | OAuthSession.Created provider =>
      OAuthSession.scope (OAuthSession.metadata provider) = "mcp:connect"
      ∧ OAuthSession.grant_types (OAuthSession.metadata provider)
        = ["refresh_token"; "authorization_code"]
  | OAuthSession.CreateThrew => False
  end.
Proof. vm_compute. by split. Qed.

(** X12: whatever discovery reports, a session that was created registers
    as a public native client using the code flow, under the configured
    client name or "mcporter (<server name>)", and asks only for grants the
    client implements: [grant_types] is never empty and holds nothing but
    "authorization_code" and "refresh_token". *)
Theorem create_client_metadata {W : Type}
    (buildOAuthPersistence : Config.ServerDefinition → W → bool * W)
    (listen : N → string → W → OAuthSession.ListenOutcome * W)
    (discoverOAuthMetadata : Js.Url → W → OAuthSession.DiscoveryResult * W)
    definition (w : W) provider w' :
  OAuthSession.create buildOAuthPersistence listen discoverOAuthMetadata definition w
    = (OAuthSession.Created provider, w') →
  let registered := OAuthSession.metadata provider in
  OAuthSession.grant_types registered ≠ []
  ∧ (∀ grant, grant ∈ OAuthSession.grant_types registered →
       grant = "authorization_code" ∨ grant = "refresh_token")
  ∧ OAuthSession.response_types registered = ["code"]
  ∧ OAuthSession.token_endpoint_auth_method registered = "none"
  ∧ OAuthSession.application_type registered = "native"
  ∧ OAuthSession.client_name registered
    = default ("mcporter (" +:+ Config.name definition +:+ ")")
        (Config.clientName definition)
  ∧ OAuthSession.definition provider = definition
  ∧ OAuthSession.authorizationStarted provider = false
  ∧ OAuthSession.authorizationDeferred provider = None.
Proof.
  assert (Hgrants : ∀ advertised : option (list string),
            let filtered :=
              default OAuthSession.DEFAULT_GRANT_TYPES
                (filter (λ grant, grant ∈ OAuthSession.DEFAULT_GRANT_TYPES) <$> advertised) in
            let grants := match filtered with
                          | [] => OAuthSession.DEFAULT_GRANT_TYPES
                          | _ :: _ => filtered
                          end in
            grants ≠ []
            ∧ ∀ grant, grant ∈ grants →
                grant = "authorization_code" ∨ grant = "refresh_token").
  { assert (Hdefault : ∀ grant, grant ∈ OAuthSession.DEFAULT_GRANT_TYPES →
              grant = "authorization_code" ∨ grant = "refresh_token").
    { intros grant Hin. apply list_elem_of_In in Hin. simpl in Hin.
      destruct Hin as [<-|[<-|[]]]; auto. }
    intros [advertised|]; simpl; [|split; [done | exact Hdefault]].
    destruct (filter _ advertised) as [|g kept] eqn:Hkept; [split; [done | exact Hdefault]|].
    split; [done|]. intros grant Hin. apply Hdefault.
    rewrite <- Hkept in Hin. by apply list_elem_of_filter in Hin as [Hin _]. }
  unfold OAuthSession.create.
  destruct (buildOAuthPersistence definition w) as [[|] w0]; simpl; [|by intros [=]].
  destruct (OAuthSession.bindPort _ _ _ _ _) as [[port|] w1]; [|by intros [=]].
  destruct (Config.command definition) as [? ? ?|url headers].
  - intros [= <- <-]. simpl. repeat split; auto.
    intros grant Hin. apply list_elem_of_In in Hin. simpl in Hin.
    destruct Hin as [<-|[<-|[]]]; auto.
  - destruct (discoverOAuthMetadata url w1) as [discovery w2].
    intros [= <- <-]. simpl.
    destruct (Hgrants (OAuthSession.authorizationServerMetadata discovery
                         ≫= OAuthDiscovery.grant_types_supported)) as [Hne Hin].
    repeat split; auto.
Qed.

Lemma create_client_metadata_witness :
  let registered := OAuthSession.metadata Scenarios.fallback_provider in
  OAuthSession.grant_types registered ≠ []
  ∧ (∀ grant, grant ∈ OAuthSession.grant_types registered →
       grant = "authorization_code" ∨ grant = "refresh_token")
  ∧ OAuthSession.response_types registered = ["code"]
  ∧ OAuthSession.token_endpoint_auth_method registered = "none"
  ∧ OAuthSession.application_type registered = "native"
  ∧ OAuthSession.client_name registered
    = default ("mcporter (" +:+ Config.name Scenarios.example_server +:+ ")")
        (Config.clientName Scenarios.example_server)
  ∧ OAuthSession.definition Scenarios.fallback_provider = Scenarios.example_server
  ∧ OAuthSession.authorizationStarted Scenarios.fallback_provider = false
  ∧ OAuthSession.authorizationDeferred Scenarios.fallback_provider = None.
Proof.
  apply (create_client_metadata Scenarios.persistence_ok Scenarios.stable_port_busy
           Scenarios.no_discovery Scenarios.example_server ()
           Scenarios.fallback_provider ()).
  vm_compute. reflexivity.
Defined.

Example create_override_port_busy :
  OAuthSession.create Scenarios.persistence_ok Cases.all_ports_busy
    Scenarios.no_discovery Cases.override_server ()
  = (OAuthSession.CreateThrew, ()).
Proof. reflexivity. Qed.

(** X13: the fallback to an OS-assigned port is taken only without an
    [oauthRedirectUrl] override and only for "address in use": with an
    override a failed listen fails the construction outright, whatever the
    error, and without one any other error on port 33418 does too.  When the
    fallback is taken the session is created on the port the second listen
    reports, and when that second listen fails the construction fails. *)
Theorem create_port_fallback {W : Type}
    (buildOAuthPersistence : Config.ServerDefinition → W → bool * W)
    (listen : N → string → W → OAuthSession.ListenOutcome * W)
    (discoverOAuthMetadata : Js.Url → W → OAuthSession.DiscoveryResult * W)
    definition (w w0 : W) :
  buildOAuthPersistence definition w = (true, w0) →
  let run :=
    OAuthSession.create buildOAuthPersistence listen discoverOAuthMetadata definition w in
  (∀ override code w1,
     Config.oauthRedirectUrl definition = Some override →
     listen (match Js.port override with
             | Some port => port
             | None => 0%N
             end) (Js.hostname override) w0 = (OAuthSession.ListenError code, w1) →
     run = (OAuthSession.CreateThrew, w1))
  ∧ (∀ code w1,
       Config.oauthRedirectUrl definition = None →
       listen 33418%N "127.0.0.1" w0 = (OAuthSession.ListenError code, w1) →
       code ≠ Some "EADDRINUSE" →
       run = (OAuthSession.CreateThrew, w1))
  ∧ (∀ w1,
       Config.oauthRedirectUrl definition = None →
       listen 33418%N "127.0.0.1" w0
         = (OAuthSession.ListenError (Some "EADDRINUSE"), w1) →
       match listen 0%N "127.0.0.1" w1 with
       | (OAuthSession.Listening port, w2) =>
           ∃ provider w3,
             run = (OAuthSession.Created provider, w3)
             ∧ OAuthSession.server provider = Some port
       | (OAuthSession.ListenError _, w2) => run = (OAuthSession.CreateThrew, w2)
       end).
Proof.
  intros Hbuild run. subst run. unfold OAuthSession.create. rewrite Hbuild. simpl.
  split; [|split].
  - intros override code w1 Hoverride Hlisten. rewrite Hoverride. simpl.
    unfold OAuthSession.bindPort. simpl.
    destruct (Js.port override) as [[|port]|]; simpl; simpl in Hlisten;
      by rewrite Hlisten.
  - intros code w1 Hnone Hlisten Hcode. rewrite Hnone. simpl.
    unfold OAuthSession.bindPort. simpl.
    change OAuthSession.DEFAULT_CALLBACK_PORT with 33418%N.
    change OAuthSession.CALLBACK_HOST with "127.0.0.1".
    rewrite Hlisten. by rewrite bool_decide_eq_false_2.
  - intros w1 Hnone Hlisten. rewrite Hnone. simpl.
    unfold OAuthSession.bindPort. simpl.
    change OAuthSession.DEFAULT_CALLBACK_PORT with 33418%N.
    change OAuthSession.CALLBACK_HOST with "127.0.0.1".
    rewrite Hlisten. simpl.
    destruct (listen 0%N "127.0.0.1" w1) as [[port|code] w2]; [|done].
    destruct (Config.command definition) as [? ? ?|url headers].
    + by eexists _, _.
    + destruct (discoverOAuthMetadata url w2) as [discovery w3]. by eexists _, _.
Qed.

Lemma create_port_fallback_witness :
  let run :=
    OAuthSession.create Scenarios.persistence_ok Cases.permission_denied
      Scenarios.no_discovery Scenarios.example_server () in
  (∀ override code w1,
     Config.oauthRedirectUrl Scenarios.example_server = Some override →
     Cases.permission_denied
       (match Js.port override with
        | Some port => port
        | None => 0%N
        end) (Js.hostname override) () = (OAuthSession.ListenError code, w1) →
     run = (OAuthSession.CreateThrew, w1))
  ∧ (∀ code w1,
       Config.oauthRedirectUrl Scenarios.example_server = None →
       Cases.permission_denied 33418%N "127.0.0.1" ()
         = (OAuthSession.ListenError code, w1) →
       code ≠ Some "EADDRINUSE" →
       run = (OAuthSession.CreateThrew, w1))
  ∧ (∀ w1,
       Config.oauthRedirectUrl Scenarios.example_server = None →
       Cases.permission_denied 33418%N "127.0.0.1" ()
         = (OAuthSession.ListenError (Some "EADDRINUSE"), w1) →
       match Cases.permission_denied 0%N "127.0.0.1" w1 with
       | (OAuthSession.Listening port, w2) =>
           ∃ provider w3,
             run = (OAuthSession.Created provider, w3)
             ∧ OAuthSession.server provider = Some port
       | (OAuthSession.ListenError _, w2) => run = (OAuthSession.CreateThrew, w2)
       end).
Proof.
  exact (create_port_fallback Scenarios.persistence_ok Cases.permission_denied
           Scenarios.no_discovery Scenarios.example_server () () eq_refl).
Defined.

(** ** Token refresh, continued *)

Example tryRefreshTokens_keeps_refresh_token :
  (OAuthRefresh.tryRefreshTokens (Recording.lifted Scenarios.vault)
     (Recording.lifted Scenarios.token_at_slash_token)
     (Recording.recording Scenarios.persist) Scenarios.example_server ((), [])).2.2
  = [OAuthRefresh.mkTokens (Some "fresh") (Some "r1")].
Proof. reflexivity. Qed.

(** X14: [tryRefreshTokens] contacts an endpoint only for an HTTP definition
    whose vault entry holds a non-empty refresh token and client information
    with a non-empty client id.  In every other case it makes no request,
    persists nothing and returns nothing; for a stdio definition it does not
    even load the vault. *)
Theorem tryRefreshTokens_needs_credentials {W : Type}
    (loadVaultEntry : Config.ServerDefinition → W → option OAuthRefresh.VaultEntry * W)
    (fetch : OAuthRefresh.Request → W → OAuthRefresh.FetchOutcome * W)
    (saveTokens : Config.ServerDefinition → OAuthRefresh.OAuthTokens → W → bool * W)
    (definition : Config.ServerDefinition) (w : W) :
  let run :=
    OAuthRefresh.tryRefreshTokens loadVaultEntry fetch saveTokens definition w in
  (∃ url headers entry stored info refresh client,
     Config.command definition = Config.HttpCommand url headers
     ∧ (loadVaultEntry definition w).1 = Some entry
     ∧ OAuthRefresh.tokens entry = Some stored
     ∧ OAuthRefresh.refresh_token stored = Some refresh ∧ refresh ≠ ""
     ∧ OAuthRefresh.clientInfo entry = Some info
     ∧ OAuthRefresh.client_id info = Some client ∧ client ≠ "")
  ∨ (run.1.1 = None ∧ run.1.2 = []
     ∧ run.2 = if Config.is_http definition then (loadVaultEntry definition w).2 else w).
Proof.
  intros run. subst run. unfold OAuthRefresh.tryRefreshTokens, Config.is_http.
  destruct (Config.command definition) as [? ? ?|url headers]; [by right|].
  destruct (loadVaultEntry definition w) as [[entry|] w1]; simpl; [|by right].
  unfold OAuthRefresh.storedRefreshToken. simpl.
  destruct (OAuthRefresh.tokens entry) as [stored|] eqn:Htokens; simpl; [|by right].
  destruct (OAuthRefresh.refresh_token stored) as [refresh|] eqn:Hrefresh; [|by right].
  destruct (OAuthRefresh.clientInfo entry) as [info|] eqn:Hinfo; [|by right].
  destruct refresh as [|a refresh]; simpl; [by right|].
  destruct (OAuthRefresh.client_id info) as [[|b client]|] eqn:Hclient; simpl;
    [by right | | by right].
  left. exists url, headers, entry, stored, info, (String a refresh), (String b client).
  by repeat split.
Qed.

Section RefreshRecord.

Context {W : Type}.
Variable loadVaultEntry : Config.ServerDefinition → W → option OAuthRefresh.VaultEntry * W.
Variable fetch : OAuthRefresh.Request → W → OAuthRefresh.FetchOutcome * W.
Variable saveTokens : Config.ServerDefinition → OAuthRefresh.OAuthTokens → W → bool * W.

(** Tokens fit to be persisted after a refresh with stored token [refresh]:
    a non-empty access token and a non-empty refresh token. *)
Let fit (refresh : string) (t : OAuthRefresh.OAuthTokens) : Prop :=
  Js.truthy_opt (OAuthRefresh.access_token t) = true
  ∧ Js.truthy_opt (OAuthRefresh.refresh_token t) = true.

Lemma tryEndpoint_record definition refresh client secret endpoint w log result a s' :
  refresh ≠ "" →
  OAuthRefresh.tryEndpoint (Recording.lifted fetch) (Recording.recording saveTokens)
    definition refresh client secret endpoint (w, log)
  = (result, a, s') →
  (s'.2 = log ∧ result = None)
  ∨ (∃ t, s'.2 = log ++ [t] ∧ fit refresh t
          ∧ (∀ token, result = Some token → OAuthRefresh.access_token t = Some token)).
Proof.
  intros Hrefresh. unfold OAuthRefresh.tryEndpoint, Recording.lifted. simpl.
  destruct (fetch _ w) as [[|status [newTokens|]] w1]; simpl.
  - intros [= <- <- <-]. by left.
  - destruct (OAuthRefresh.ok status); simpl; [|intros [= <- <- <-]; by left].
    destruct (Js.truthy_opt (OAuthRefresh.access_token newTokens)) eqn:Haccess; simpl;
      [|intros [= <- <- <-]; by left].
    unfold Recording.recording. simpl.
    destruct (saveTokens _ _ w1) as [saved w2].
    assert (Hfit : fit refresh
              (if Js.truthy_opt (OAuthRefresh.refresh_token newTokens) then newTokens
               else OAuthRefresh.mkTokens (OAuthRefresh.access_token newTokens)
                      (Some refresh))).
    { unfold fit.
      destruct (Js.truthy_opt (OAuthRefresh.refresh_token newTokens)) eqn:Hr; simpl;
        [done|]. split; [done|]. by apply truthy_nonempty. }
    destruct saved; intros [= <- <- <-]; right; eexists; simpl;
      (split; [reflexivity|]; split; [exact Hfit|]).
    + intros token Htoken.
      by destruct (Js.truthy_opt (OAuthRefresh.refresh_token newTokens)).
    + by intros token [=].
  - destruct (OAuthRefresh.ok status); intros [= <- <- <-]; by left.
Qed.

Lemma tryEndpoints_record definition refresh client secret endpoints :
  refresh ≠ "" →
  ∀ w log result attempts s',
  OAuthRefresh.tryEndpoints (Recording.lifted fetch) (Recording.recording saveTokens)
    definition refresh client secret endpoints (w, log)
  = (result, attempts, s') →
  ∃ saved,
    s'.2 = log ++ saved
    ∧ Forall (fit refresh) saved
    ∧ (length saved ≤ length attempts)%nat
    ∧ ∀ token, result = Some token →
        ∃ t, last saved = Some t ∧ OAuthRefresh.access_token t = Some token.
Proof.
  intros Hrefresh.
  induction endpoints as [|endpoint rest IH]; intros w log result attempts s'; simpl.
  - intros [= <- <- <-]. exists []. rewrite app_nil_r.
    split; [done|]. split; [constructor|]. split; [done|]. by intros token [=].
  - destruct (OAuthRefresh.tryEndpoint _ _ _ _ _ _ endpoint (w, log))
      as [[r a] [w1 log1]] eqn:Hone.
    apply tryEndpoint_record in Hone; [|done]. simpl in Hone.
    destruct r as [token0|].
    + intros [= <- <- <-]. destruct Hone as [[_ [=]]|(t & -> & Hfit & Htoken)].
      exists [t]. simpl.
      split; [done|]. split; [constructor; [exact Hfit | constructor]|]. split; [done|].
      intros token [= <-]. exists t. split; [done | by apply Htoken].
    + destruct (OAuthRefresh.tryEndpoints _ _ _ _ _ _ rest (w1, log1))
        as [[r' tr] s2] eqn:Hrest.
      intros [= <- <- <-].
      destruct (IH _ _ _ _ _ Hrest) as (saved & Hlog & Hfits & Hlen & Hlast).
      destruct Hone as [[-> _]|(t & -> & Hfit & _)].
      * exists saved. split; [done|]. split; [done|]. split; [simpl; lia | done].
      * exists (t :: saved). rewrite Hlog, <- app_assoc. simpl.
        split; [done|]. split; [constructor; [exact Hfit | exact Hfits]|]. split; [lia|].
        intros token Hr. destruct (Hlast token Hr) as (t' & Ht' & Hacc).
        exists t'. split; [|done]. rewrite last_cons, Ht'. done.
Qed.

(** X15: every token set [tryRefreshTokens] hands to [saveTokens] carries a
    non-empty access token and a non-empty refresh token, also when the
    server's answer had none; at most one token set is handed over per
    endpoint tried; and when the call returns an access token, that token is the
    access token of the token set persisted last. *)
Theorem tryRefreshTokens_persists_refresh_token
    (definition : Config.ServerDefinition) (w : W) :
  let run :=
    OAuthRefresh.tryRefreshTokens (Recording.lifted loadVaultEntry)
      (Recording.lifted fetch) (Recording.recording saveTokens) definition (w, []) in
  let persisted := run.2.2 in
  Forall (λ t, Js.truthy_opt (OAuthRefresh.access_token t) = true
               ∧ Js.truthy_opt (OAuthRefresh.refresh_token t) = true) persisted
  ∧ (length persisted ≤ length run.1.2)%nat
  ∧ ∀ token, run.1.1 = Some token →
      ∃ t, last persisted = Some t ∧ OAuthRefresh.access_token t = Some token.
Proof.
  assert (Hnothing : ∀ s : W * list OAuthRefresh.OAuthTokens, s.2 = [] →
            let run : option string * list OAuthRefresh.Attempt
                      * (W * list OAuthRefresh.OAuthTokens) := (None, [], s) in
            Forall (λ t, Js.truthy_opt (OAuthRefresh.access_token t) = true
                         ∧ Js.truthy_opt (OAuthRefresh.refresh_token t) = true) run.2.2
            ∧ (length run.2.2 ≤ length run.1.2)%nat
            ∧ ∀ token, run.1.1 = Some token →
                ∃ t, last run.2.2 = Some t ∧ OAuthRefresh.access_token t = Some token).
  { intros s Hs. simpl. rewrite Hs. split; [constructor|]. split; [done|].
    by intros token [=]. }
  intros run persisted. subst persisted.
  assert (Hrun : run = OAuthRefresh.tryRefreshTokens (Recording.lifted loadVaultEntry)
                   (Recording.lifted fetch) (Recording.recording saveTokens)
                   definition (w, [])) by done.
  clearbody run. unfold OAuthRefresh.tryRefreshTokens in Hrun.
  destruct (Config.command definition) as [? ? ?|url headers];
    [subst run; by apply Hnothing|].
  unfold Recording.lifted at 1 in Hrun. simpl in Hrun.
  destruct (loadVaultEntry definition w) as [entry w1]; simpl in Hrun.
  destruct (OAuthRefresh.storedRefreshToken entry) as [refresh|];
    [|subst run; by apply Hnothing].
  destruct (entry ≫= OAuthRefresh.clientInfo) as [info|];
    [|subst run; by apply Hnothing].
  destruct refresh as [|a refresh]; simpl in Hrun; [subst run; by apply Hnothing|].
  destruct (OAuthRefresh.client_id info) as [[|b client]|]; simpl in Hrun;
    try (subst run; by apply Hnothing).
  destruct run as [[result attempts] s']. symmetry in Hrun.
  apply tryEndpoints_record in Hrun as (saved & Hlog & Hfits & Hlen & Hlast); [|done].
  simpl in *. rewrite Hlog. by repeat split.
Qed.

End RefreshRecord.

(** ** The client context builder, continued *)

Lemma alternates_app {Session : Type}
    (ops ops' : list (@Resources.TransportOp Session)) :
  ∀ open between final,
  Resources.alternates open ops between →
  Resources.alternates between ops' final →
  Resources.alternates open (ops ++ ops') final.
Proof.
  induction ops as [|[transport|transport] ops IH]; intros open between final; simpl.
  - by intros ->.
  - intros [-> Hrest] Hnext. split; [done|]. by eapply IH.
  - intros [-> Hrest] Hnext. split; [done|]. by eapply IH.
Qed.

Lemma is_zero_written (limit : option Js.Number) :
  Js.is_zero limit = false → ∀ d, limit ≠ Some (Js.Finite (0 # d)).
Proof. by intros Hzero d ->. Qed.

Section BuilderResources.

Context {W Session : Type}.
Variable isUnauthorizedError : RuntimeOAuth.Failure → bool.
Variable readCachedAccessToken : Config.ServerDefinition → W → Transport.CachedToken * W.
Variable materializeHeaders :
  option (gmap string string) → string
  → RuntimeOAuth.Failure + option (gmap string string).
Variable createOAuthSession :
  Config.ServerDefinition → W → (RuntimeOAuth.Failure + Session) * W.
Variable closeSession : Session → W → W.
Variable closeTransport : @Transport.ClientTransport Session → W → W.
Variable connect : @Transport.ClientTransport Session → W → option RuntimeOAuth.Failure * W.
Variable finishAuth :
  @Transport.ClientTransport Session → string → W → option RuntimeOAuth.Failure * W.
Variable didStartAuthorization : Session → W → bool.
Variable happenings : Session → W → list RuntimeOAuth.Happening * W.

Let attempt := Transport.httpAttempt isUnauthorizedError materializeHeaders
                 createOAuthSession closeSession closeTransport connect finishAuth
                 didStartAuthorization happenings.

(** The failure is what [materializeHeaders] threw for [definition], and it
    left one session open. *)
Let abandoned (definition : Config.ServerDefinition) (e : RuntimeOAuth.Failure)
    (events : list (@Transport.Event Session)) : Prop :=
  length (Resources.openedSessions events) = S (length (Resources.closedSessions events))
  ∧ ∃ url headers,
      Config.command definition = Config.HttpCommand url headers
      ∧ materializeHeaders headers (Config.name definition) = inl e.

Let recorded := Transport.performed readCachedAccessToken createOAuthSession
                  closeSession closeTransport connect finishAuth happenings.

(** What one pass through the loop body leaves behind; it starts in world
    [w] with no session held. *)
Let tidy (original definition : Config.ServerDefinition) (options : Transport.Options)
    (result : @Transport.Outcome Session + Config.ServerDefinition)
    (events : list (@Transport.Event Session)) (w w' : W) : Prop :=
  (length (Resources.openedSessions events)
   ≤ (if Config.is_oauth definition then 1 else 0))%nat
  ∧ (∃ held,
       recorded original events None w held w'
       ∧ match result with
         | inl (Transport.Ready context) => held = Transport.oauthSession context
         | inl (Transport.Failed e) => held = None ∨ abandoned definition e events
         | inl Transport.NeverSettles => True
         | inr _ => held = None
         end)
  ∧ match result with
    | inl (Transport.Ready context) =>
        length (Resources.openedSessions events)
        = (length (Resources.closedSessions events)
           + Resources.kept (Transport.oauthSession context))%nat
        ∧ Resources.alternates None (Resources.transportOps events)
            (Some (Transport.transport context))
        ∧ Transport.definition context = definition
        ∧ Resources.promotions events = []
    | inl (Transport.Failed e) =>
        Resources.alternates None (Resources.transportOps events) None
        ∧ Resources.promotions events = []
        ∧ (length (Resources.openedSessions events)
           = length (Resources.closedSessions events)
           ∨ abandoned definition e events)
    | inl Transport.NeverSettles =>
        (length (Resources.closedSessions events)
         ≤ length (Resources.openedSessions events))%nat
        ∧ (∃ pending,
             Resources.alternates None (Resources.transportOps events) (Some pending))
        ∧ Resources.promotions events = []
    | inr promoted =>
        length (Resources.openedSessions events)
        = length (Resources.closedSessions events)
        ∧ Resources.alternates None (Resources.transportOps events) None
        ∧ promoted = Config.with_oauth definition
        ∧ Config.is_oauth definition = false
        ∧ Js.is_zero (Transport.maxOAuthAttempts options) = false
        ∧ Resources.promotions events = [promoted]
    end.

(** The run was cut short by [fuel], which [maxOAuthAttempts] allows. *)
Let cut_short (fuel : nat) (options : Transport.Options) : Prop :=
  ∀ n, RuntimeOAuth.iterations (Transport.maxOAuthAttempts options) = Some n →
       (fuel < n)%nat.

Local Ltac leaves :=
  repeat first [eexists | split];
  first [ reflexivity | lia | eassumption | done
        | left; first [reflexivity | lia]
        | right; repeat first [eexists | split];
          first [reflexivity | lia | eassumption | done] ].

Local Ltac pass_ends :=
  left; eexists _, _, _; (split; [reflexivity|]);
  unfold tidy, abandoned, recorded; simpl;
  match goal with
  | H : Config.is_oauth _ = _ |- _ => rewrite ?H
  | _ => idtac
  end;
  leaves.

Lemma httpAttempt_tidy original fuel definition options (w : W) :
  (∃ result events w',
     attempt fuel definition options w = Some (result, events, w')
     ∧ tidy original definition options result events w w')
  ∨ (attempt fuel definition options w = None ∧ cut_short fuel options).
Proof.
  subst attempt. unfold Transport.httpAttempt.
  destruct (Config.command definition) as [exe args cwd|url headers] eqn:Hcmd.
  { pass_ends. }
  assert (Hpromote : OAuthSupport.Permissive.maybeEnableOAuth definition
                     = if Config.is_oauth definition then None
                       else Some (Config.with_oauth definition)).
  { unfold OAuthSupport.Permissive.maybeEnableOAuth. by rewrite Hcmd. }
  rewrite Hpromote.
  destruct (Js.is_zero (Transport.maxOAuthAttempts options)) eqn:Hmax.
  all: destruct (Config.is_oauth definition) eqn:Hoauth; cbn [negb andb].
  all: try (destruct (createOAuthSession definition w) as [[e|session] w0] eqn:Hcreate;
            [ pass_ends | ]).
  all: destruct (materializeHeaders headers (Config.name definition))
         as [thrown|resolved] eqn:Hheaders; [ pass_ends | ].
  all: match goal with
       | |- context [Transport.connectWithAuth _ _ _ _ _ ?f ?t ?s ?d ?o ?w0] =>
           destruct (Transport.connectWithAuth isUnauthorizedError connect finishAuth
                       didStartAuthorization happenings f t s d o w0)
             as [[[completion steps] w1]|] eqn:Hrun1;
           [ unfold Transport.connectWithAuth in Hrun1;
             apply connectWithAuth_performed in Hrun1
           | right; split; [reflexivity|]; intros n Hn;
             unfold Transport.connectWithAuth in Hrun1;
             exact (connectWithAuth_out_of_fuel _ _ _ _ _ _ _ _ _ _ _ _ _ Hrun1 n Hn) ]
       end.
  all: destruct completion as [|primaryError|]; try pass_ends.
  all: destruct (isUnauthorizedError primaryError); cbn [andb negb Transport.closeIfOpen];
    try pass_ends.
  all: destruct (Transport.isTimeoutError primaryError); cbn [Transport.closeIfOpen];
    try pass_ends.
  all: match goal with
       | |- context [Transport.connectWithAuth _ _ _ _ _ ?f ?t ?s ?d ?o ?w0] =>
           destruct (Transport.connectWithAuth isUnauthorizedError connect finishAuth
                       didStartAuthorization happenings f t s d o w0)
             as [[[completion' steps'] w2]|] eqn:Hrun2;
           [ unfold Transport.connectWithAuth in Hrun2;
             apply connectWithAuth_performed in Hrun2
           | right; split; [reflexivity|]; intros n Hn;
             unfold Transport.connectWithAuth in Hrun2;
             exact (connectWithAuth_out_of_fuel _ _ _ _ _ _ _ _ _ _ _ _ _ Hrun2 n Hn) ]
       end.
  all: destruct completion' as [|sseError|]; cbn [Transport.closeIfOpen];
    try pass_ends.
  all: destruct (Transport.isTimeoutError sseError); try pass_ends.
  all: destruct (isUnauthorizedError sseError); cbn [andb negb]; pass_ends.
Qed.

Lemma recorded_app original (events events' : list (@Transport.Event Session)) :
  ∀ held (w : W) between w1 held' w',
  recorded original events held w between w1 →
  recorded original events' between w1 held' w' →
  recorded original (events ++ events') held w held' w'.
Proof.
  subst recorded.
  induction events as [|e events IH]; intros held w between w1 held' w'; simpl.
  - by intros [-> ->].
  - destruct e; intros Hfirst Hnext;
      repeat match goal with
             | H : ∃ _, _ |- _ => destruct H
             | H : _ ∧ _ |- _ => destruct H
             end;
      repeat first [split | eexists];
      first [eassumption | reflexivity | by eapply IH].
Qed.

Lemma cachedAuth_events definition options (w : W) :
  let cached :=
    Transport.cachedAuth (Session := Session) readCachedAccessToken
      definition options w in
  recorded definition cached.1.2 None w None cached.2
  ∧ (cached.1.2 = [] ∨ ∃ result, cached.1.2 = [Transport.EvReadCachedToken result]).
Proof.
  unfold Transport.cachedAuth.
  destruct (_ && _); [|by split; [|left]].
  destruct (readCachedAccessToken definition w) as [[|[cached|]] w1] eqn:Hread; simpl.
  - split; [by exists w1 | right; by eexists].
  - destruct (Js.truthy cached); (split; [by exists w1 | right; by eexists]).
  - split; [by exists w1 | right; by eexists].
Qed.

(** What a whole run leaves behind, [original] being the definition the
    builder was called with and [active] the one the connection attempts
    start from, in world [w] and with no session held. *)
Let settled (original active : Config.ServerDefinition) (options : Transport.Options)
    (outcome : @Transport.Outcome Session)
    (events : list (@Transport.Event Session)) (w w' : W) : Prop :=
  (length (Resources.openedSessions events) ≤ 1)%nat
  ∧ (length (Resources.closedSessions events)
     ≤ length (Resources.openedSessions events))%nat
  ∧ (Resources.promotions events = []
     ∨ (Resources.promotions events = [Config.with_oauth active]
        ∧ Config.is_oauth active = false
        ∧ Js.is_zero (Transport.maxOAuthAttempts options) = false))
  ∧ (∃ held,
       recorded original events None w held w'
       ∧ match outcome with
         | Transport.Ready context => held = Transport.oauthSession context
         | Transport.Failed e => held = None ∨ abandoned active e events
         | Transport.NeverSettles => True
         end)
  ∧ match outcome with
    | Transport.Ready context =>
        length (Resources.openedSessions events)
        = (length (Resources.closedSessions events)
           + Resources.kept (Transport.oauthSession context))%nat
        ∧ Resources.alternates None (Resources.transportOps events)
            (Some (Transport.transport context))
        ∧ Transport.definition context
          = match Resources.promotions events with
            | [] => active
            | promoted :: _ => promoted
            end
    | Transport.Failed e =>
        Resources.alternates None (Resources.transportOps events) None
        ∧ (length (Resources.openedSessions events)
           = length (Resources.closedSessions events)
           ∨ abandoned active e events)
    | Transport.NeverSettles =>
        ∃ pending,
          Resources.alternates None (Resources.transportOps events) (Some pending)
    end.

Lemma httpLoop_settled original fuel active options (w : W) :
  (∃ outcome events w',
     Transport.httpLoop isUnauthorizedError materializeHeaders createOAuthSession
       closeSession closeTransport connect finishAuth didStartAuthorization happenings
       2 fuel active options w
     = Some (outcome, events, w')
     ∧ settled original active options outcome events w w')
  ∨ (Transport.httpLoop isUnauthorizedError materializeHeaders createOAuthSession
       closeSession closeTransport connect finishAuth didStartAuthorization happenings
       2 fuel active options w = None
     ∧ cut_short fuel options).
Proof.
  cbn [Transport.httpLoop].
  destruct (httpAttempt_tidy original fuel active options w)
    as [(result & events & w1 & Hrun & Hopened & (held & Hrec & Hheld) & Htidy)
       |[Hrun Hcut]]; cycle 1.
  { right. unfold attempt in Hrun. by rewrite Hrun. }
  unfold attempt in Hrun. rewrite Hrun.
  destruct result as [outcome|promoted].
  { left. eexists _, _, _. split; [reflexivity|]. unfold settled.
    assert (Hle : (length (Resources.openedSessions events) ≤ 1)%nat)
      by (destruct (Config.is_oauth active); lia).
    destruct outcome as [context|e|].
    - destruct Htidy as (Hs & Ht & Hd & Hp). rewrite Hp.
      split; [done|]. split; [lia|]. split; [by left|].
      split; [by exists held|]. by repeat split.
    - destruct Htidy as (Ht & Hp & Hs).
      split; [done|]. split; [destruct Hs as [Hs|[Hs _]]; lia|].
      split; [by left|]. split; [by exists held|]. by split.
    - destruct Htidy as (Hs & Ht & Hp).
      split; [done|]. split; [done|]. split; [by left|].
      split; [by exists held | done]. }
  destruct Htidy as (Hs & Ht & -> & Hoauth & Hmax & Hp).
  rewrite Hoauth in Hopened. subst held.
  destruct (httpAttempt_tidy original fuel (Config.with_oauth active) options w1)
    as [(result' & events' & w2 & Hrun' & Hopened' & (held' & Hrec' & Hheld') & Htidy')
       |[Hrun' Hcut]]; cycle 1.
  { right. unfold attempt in Hrun'. by rewrite Hrun'. }
  unfold attempt in Hrun'. rewrite Hrun'.
  destruct result' as [outcome|again]; cycle 1.
  { by destruct Htidy' as (_ & _ & _ & [=] & _). }
  pose proof (recorded_app _ _ _ _ _ _ _ _ _ Hrec Hrec') as Hboth.
  left. eexists _, _, _. split; [reflexivity|]. unfold settled, abandoned in *.
  assert (Hops : Resources.transportOps (events ++ events')
                 = Resources.transportOps events ++ Resources.transportOps events')
    by apply omap_app.
  rewrite Hops. clear Hops.
  unfold Resources.openedSessions, Resources.closedSessions, Resources.promotions in *.
  rewrite !omap_app, !length_app.
  cbn [Config.is_oauth] in Hopened'.
  assert (Hzero : length (omap (λ e : @Transport.Event Session,
                                  match e with
                                  | Transport.EvCreateSession definition true =>
                                      Some definition
                                  | _ => None
                                  end) events) = 0%nat) by lia.
  rewrite Hzero in *. rewrite Hp. simpl in Hopened'.
  destruct outcome as [context|e|].
  - destruct Htidy' as (Hs' & Ht' & Hd' & Hp'). rewrite Hp'. simpl.
    split; [lia|]. split; [lia|]. split; [by right|].
    split; [by exists held'|].
    split; [lia|]. split; [by eapply alternates_app | done].
  - destruct Htidy' as (Ht' & Hp' & Hs'). rewrite Hp'. simpl.
    split; [lia|]. split; [destruct Hs' as [Hs'|[Hs' _]]; lia|]. split; [by right|].
    split.
    { exists held'. split; [done|].
      destruct Hheld' as [->|[Hopen Hthrown]]; [by left | right].
      split; [lia | exact Hthrown]. }
    split; [by eapply alternates_app|].
    destruct Hs' as [Hs'|[Hs' Hthrown]]; [left; lia | right].
    split; [lia | exact Hthrown].
  - destruct Htidy' as (Hs' & [pending Ht'] & Hp'). rewrite Hp'. simpl.
    split; [lia|]. split; [lia|]. split; [by right|].
    split; [by exists held'|].
    exists pending. by eapply alternates_app.
Qed.

Lemma createClientContext_settled fuel definition options (w : W) :
  (∃ outcome events w',
     Transport.createClientContext isUnauthorizedError readCachedAccessToken
       materializeHeaders createOAuthSession closeSession closeTransport connect
       finishAuth didStartAuthorization happenings fuel definition options w
     = Some (outcome, events, w')
     ∧ settled definition
         (Transport.cachedAuth (Session := Session) readCachedAccessToken
            definition options w).1.1
         options outcome events w w')
  ∨ (Transport.createClientContext isUnauthorizedError readCachedAccessToken
       materializeHeaders createOAuthSession closeSession closeTransport connect
       finishAuth didStartAuthorization happenings fuel definition options w = None
     ∧ cut_short fuel options).
Proof.
  unfold Transport.createClientContext.
  pose proof (cachedAuth_events definition options w) as [Hrec0 Hev0].
  destruct (Transport.cachedAuth _ _ _ _) as [[active ev0] w0]. simpl in Hrec0, Hev0.
  cbn [fst snd].
  assert (Hwrap : ∀ outcome events w1,
            settled definition active options outcome events w0 w1 →
            settled definition active options outcome
              (ev0 ++ [Transport.EvEnvApplied (Config.env active)] ++ events
               ++ [Transport.EvEnvRestored]) w w1).
  { intros outcome events w1 (Hone & Hle & Hp & (held & Hrec & Hheld) & Hout).
    assert (Hall : recorded definition
                     (ev0 ++ [Transport.EvEnvApplied (Config.env active)] ++ events
                      ++ [Transport.EvEnvRestored]) None w held w1).
    { eapply recorded_app; [exact Hrec0|].
      change (recorded definition (events ++ [Transport.EvEnvRestored]) None w0 held w1).
      eapply recorded_app; [exact Hrec|]. by split. }
    revert Hone Hle Hp Hheld Hout.
    unfold settled, abandoned, Resources.openedSessions, Resources.closedSessions,
      Resources.transportOps, Resources.promotions.
    rewrite !omap_app. simpl. rewrite ?app_nil_r.
    intros Hone Hle Hp Hheld Hout.
    destruct Hev0 as [->|[result ->]]; simpl;
      (split; [done|]; split; [done|]; split; [done|]; split; [by exists held | done]). }
  destruct (Config.command active) as [exe args cwd|url headers] eqn:Hcmd.
  - destruct (connect _ w0) as [[error|] w1] eqn:Hstdio.
    + left. eexists _, _, _. split; [reflexivity|]. apply Hwrap.
      unfold settled. simpl. split; [lia|]. split; [lia|]. split; [by left|].
      split; [|split; [done | by left]].
      exists None. split; [|by left]. unfold recorded. simpl.
      exists w1. split; [by exists w1 | done].
    + left. eexists _, _, _. split; [reflexivity|]. apply Hwrap.
      unfold settled. simpl. split; [lia|]. split; [lia|]. split; [by left|].
      split; [|by repeat split].
      exists None. split; [|done]. unfold recorded. simpl.
      exists w1. split; [by exists w1 | done].
  - destruct (httpLoop_settled definition fuel active options w0)
      as [(outcome & events & w1 & Hrun & Hsettled)|[Hrun Hcut]].
    + left. rewrite Hrun. eexists _, _, _. split; [reflexivity|]. by apply Hwrap.
    + right. by rewrite Hrun.
Qed.

(** When the headers cannot be materialised, a pass through the loop body
    ends before anything is connected or closed. *)
Lemma httpAttempt_headers_thrown fuel definition options url headers thrown (w : W) :
  Config.command definition = Config.HttpCommand url headers →
  materializeHeaders headers (Config.name definition) = inl thrown →
  ∃ e events w',
    attempt fuel definition options w = Some (inl (Transport.Failed e), events, w')
    ∧ Resources.closedSessions events = []
    ∧ Resources.promotions events = []
    ∧ (length (Resources.openedSessions events) = 1%nat
       ↔ ∃ session, (createOAuthSession definition w).1 = inr session
                    ∧ Config.is_oauth definition = true
                    ∧ Js.is_zero (Transport.maxOAuthAttempts options) = false).
Proof.
  intros Hcmd Hheaders. subst attempt. unfold Transport.httpAttempt. rewrite Hcmd.
  destruct (Config.is_oauth definition) eqn:Hoauth;
    destruct (Js.is_zero (Transport.maxOAuthAttempts options)) eqn:Hmax; cbn [negb andb].
  2: destruct (createOAuthSession definition w) as [[e|session] w0] eqn:Hcreate.
  all: rewrite ?Hheaders; eexists _, _, _; (split; [reflexivity|]);
    split; [done|]; split; [done|]; simpl; split; try done.
  all: try by intros (session' & _ & [=] & _).
  all: try by intros (session' & _ & _ & [=]).
  - by intros (session' & [=] & _).
  - intros _. by exists session.
Qed.

Lemma createClientContext_headers_thrown fuel definition options url headers thrown
    (w : W) :
  let cached :=
    Transport.cachedAuth (Session := Session) readCachedAccessToken definition options w in
  Config.command cached.1.1 = Config.HttpCommand url headers →
  materializeHeaders headers (Config.name cached.1.1) = inl thrown →
  ∃ e events w',
    Transport.createClientContext isUnauthorizedError readCachedAccessToken
      materializeHeaders createOAuthSession closeSession closeTransport connect
      finishAuth didStartAuthorization happenings fuel definition options w
    = Some (Transport.Failed e, events, w')
    ∧ Resources.closedSessions events = []
    ∧ (length (Resources.openedSessions events) = 1%nat
       ↔ ∃ session, (createOAuthSession cached.1.1 cached.2).1 = inr session
                    ∧ Config.is_oauth cached.1.1 = true
                    ∧ Js.is_zero (Transport.maxOAuthAttempts options) = false).
Proof.
  intros cached. subst cached. unfold Transport.createClientContext.
  pose proof (cachedAuth_events definition options w) as [_ Hev0].
  destruct (Transport.cachedAuth _ _ _ _) as [[active ev0] w0]. simpl in Hev0.
  cbn [fst snd]. intros Hcmd Hheaders. rewrite Hcmd. cbn [Transport.httpLoop].
  destruct (httpAttempt_headers_thrown fuel active options url headers thrown w0
              Hcmd Hheaders)
    as (e & events & w1 & Hrun & Hclosed & _ & Hopened).
  unfold attempt in Hrun. rewrite Hrun.
  eexists _, _, _. split; [reflexivity|].
  unfold Resources.closedSessions, Resources.openedSessions in *.
  rewrite !omap_app, !length_app. rewrite Hclosed.
  destruct Hev0 as [->|[result ->]]; simpl; rewrite ?Nat.add_0_r;
    (split; [done | exact Hopened]).
Qed.

(** X16: a run of [createClientContext] opens at most one OAuth session and
    never closes more sessions than it opened; what it records is what it
    did to the world: a session is created only while none is held, the
    session closed is the one [createOAuthSession] returned, and each connect
    is given the session held at that point.  When it returns a context, the
    only session still open is the one that context carries.  When it fails,
    the session it opened has been closed again, with one exception: the
    failure is what [materializeHeaders] threw for the definition the
    connection attempts started from.  Whenever [materializeHeaders] throws
    for that definition the run fails without closing anything, so that the
    session opened just before, if one was (auth "oauth", [maxOAuthAttempts]
    not 0, [createOAuthSession] went through), is left open.  The run is cut
    short by [fuel] only where [maxOAuthAttempts] lets a connect loop run
    that long. *)
Theorem createClientContext_sessions fuel definition options (w : W) :
  let cached :=
    Transport.cachedAuth (Session := Session) readCachedAccessToken definition options w in
  let active := cached.1.1 in
  match Transport.createClientContext isUnauthorizedError readCachedAccessToken
          materializeHeaders createOAuthSession closeSession closeTransport connect
          finishAuth didStartAuthorization happenings fuel definition options w with
  | Some (outcome, events, w') =>
      (length (Resources.openedSessions events) ≤ 1)%nat
      ∧ (length (Resources.closedSessions events)
         ≤ length (Resources.openedSessions events))%nat
      ∧ (∃ held,
           Transport.performed readCachedAccessToken createOAuthSession closeSession
             closeTransport connect finishAuth happenings definition events None w held w'
           ∧ match outcome with
             | Transport.Ready context => held = Transport.oauthSession context
             | Transport.Failed e =>
                 held = None
                 ∨ ∃ url headers,
                     Config.command active = Config.HttpCommand url headers
                     ∧ materializeHeaders headers (Config.name active) = inl e
             | Transport.NeverSettles => True
             end)
      ∧ match outcome with
        | Transport.Ready context =>
            length (Resources.openedSessions events)
            = (length (Resources.closedSessions events)
               + Resources.kept (Transport.oauthSession context))%nat
        | Transport.Failed e =>
            length (Resources.openedSessions events)
            = length (Resources.closedSessions events)
            ∨ (length (Resources.openedSessions events)
               = S (length (Resources.closedSessions events))
               ∧ ∃ url headers,
                   Config.command active = Config.HttpCommand url headers
                   ∧ materializeHeaders headers (Config.name active) = inl e)
        | Transport.NeverSettles => True
        end
      ∧ ∀ url headers thrown,
          Config.command active = Config.HttpCommand url headers →
          materializeHeaders headers (Config.name active) = inl thrown →
          (∃ e, outcome = Transport.Failed e)
          ∧ Resources.closedSessions events = []
          ∧ (length (Resources.openedSessions events) = 1%nat
             ↔ ∃ session, (createOAuthSession active cached.2).1 = inr session
                          ∧ Config.is_oauth active = true
                          ∧ Js.is_zero (Transport.maxOAuthAttempts options) = false)
  | None =>
      ∀ n, RuntimeOAuth.iterations (Transport.maxOAuthAttempts options) = Some n →
           (fuel < n)%nat
  end.
Proof.
  intros cached active.
  destruct (createClientContext_settled fuel definition options w)
    as [(outcome & events & w' & Hrun & Hone & Hle & _ & (held & Hrec & Hheld) & Hout)
       |[-> Hcut]]; [|done].
  rewrite Hrun. fold cached active in Hout, Hheld.
  split; [done|]. split; [done|]. split.
  { exists held. split; [done|].
    destruct outcome as [context|e|]; [done| |done].
    destruct Hheld as [->|[_ Hthrown]]; [by left | by right]. }
  split.
  { destruct outcome as [context|e|]; [by destruct Hout | by destruct Hout | done]. }
  intros url headers thrown Hcmd Hthrown.
  destruct (createClientContext_headers_thrown fuel definition options url headers
              thrown w Hcmd Hthrown)
    as (e & events2 & w2 & Hrun2 & Hclosed & Hopened).
  rewrite Hrun in Hrun2. injection Hrun2 as -> -> ->.
  split; [by exists e|]. by split.
Qed.

(** X17: [createClientContext] never has two transports open at once: a
    transport is connected only after the one connected before it has been
    closed, and what is closed is the transport connected last; the connects
    and closes recorded are the calls made, in that order, each in the world
    the call before left behind.  After a failed build no transport is left
    open, after a successful build exactly the transport of the returned
    context is, and a build that never settles is waiting on the one
    transport connected last.  The run is cut short by [fuel] only where
    [maxOAuthAttempts] lets a connect loop run that long. *)
Theorem createClientContext_transports fuel definition options (w : W) :
  match Transport.createClientContext isUnauthorizedError readCachedAccessToken
          materializeHeaders createOAuthSession closeSession closeTransport connect
          finishAuth didStartAuthorization happenings fuel definition options w with
  | Some (outcome, events, w') =>
      (∃ held,
         Transport.performed readCachedAccessToken createOAuthSession closeSession
           closeTransport connect finishAuth happenings definition events None w held w')
      ∧ match outcome with
        | Transport.Ready context =>
            Resources.alternates None (Resources.transportOps events)
              (Some (Transport.transport context))
        | Transport.Failed _ =>
            Resources.alternates None (Resources.transportOps events) None
        | Transport.NeverSettles =>
            ∃ pending,
              Resources.alternates None (Resources.transportOps events) (Some pending)
        end
  | None =>
      ∀ n, RuntimeOAuth.iterations (Transport.maxOAuthAttempts options) = Some n →
           (fuel < n)%nat
  end.
Proof.
  destruct (createClientContext_settled fuel definition options w)
    as [(outcome & events & w' & -> & _ & _ & _ & (held & Hrec & _) & Hout)
       |[-> Hcut]]; [|done].
  split; [by exists held|].
  destruct outcome as [context|e|]; [by destruct Hout as (_ & Ht & _) | by destruct Hout | done].
Qed.

(** X18: a run promotes the definition at most once, only when
    [maxOAuthAttempts] is not 0, however a zero may be written, and the
    definition it started from (the input, with the cached bearer where one
    was injected) did not already have auth "oauth"; the promoted definition
    is that one with auth set to "oauth" and is what [onDefinitionPromoted]
    is told.  A returned context holds the promoted definition when there was
    a promotion and the starting definition otherwise.  The run is cut short
    by [fuel] only where [maxOAuthAttempts] lets a connect loop run that
    long. *)
Theorem createClientContext_definition fuel definition options (w : W) :
  let active :=
    (Transport.cachedAuth (Session := Session) readCachedAccessToken
       definition options w).1.1 in
  match Transport.createClientContext isUnauthorizedError readCachedAccessToken
          materializeHeaders createOAuthSession closeSession closeTransport connect
          finishAuth didStartAuthorization happenings fuel definition options w with
  | Some (outcome, events, w') =>
      (Resources.promotions events = []
       ∨ (Resources.promotions events = [Config.with_oauth active]
          ∧ Config.auth active ≠ Some "oauth"
          ∧ ∀ d, Transport.maxOAuthAttempts options ≠ Some (Js.Finite (0 # d))))
      ∧ ∀ context,
          outcome = Transport.Ready context →
          (Resources.promotions events = [] ∧ Transport.definition context = active)
          ∨ (Resources.promotions events = [Config.with_oauth active]
             ∧ Transport.definition context = Config.with_oauth active)
  | None =>
      ∀ n, RuntimeOAuth.iterations (Transport.maxOAuthAttempts options) = Some n →
           (fuel < n)%nat
  end.
Proof.
  intros active.
  destruct (createClientContext_settled fuel definition options w)
    as [(outcome & events & w' & -> & _ & _ & Hp & _ & Hout)|[-> Hcut]]; [|done].
  fold active in Hp, Hout. split.
  - destruct Hp as [Hp|(Hp & Hoauth & Hmax)]; [by left|]. right.
    split; [done|]. split; [|by apply is_zero_written].
    unfold Config.is_oauth in Hoauth. by apply bool_decide_eq_false in Hoauth.
  - intros context ->. destruct Hout as (_ & _ & Hd).
    destruct Hp as [Hp|(Hp & _)]; rewrite Hp in Hd; [left | right]; by split.
Qed.

End BuilderResources.

(** Headers that cannot be materialised fail the build after the session
    was opened, and nothing closes it. *)
Example createClientContext_leaves_session_open :
  Transport.createClientContext Scenarios.status_401 Scenarios.cached_token
    Cases.unresolved_headers Scenarios.opens_session (Scenarios.closes unit)
    (Scenarios.closes _) Scenarios.rejects_all Scenarios.finishes Scenarios.started
    Scenarios.approves 4 Scenarios.example_server (Transport.mkOptions None None false) ()
  = Some (Transport.Failed Cases.placeholder_error,
          [ Transport.EvEnvApplied None;
            Transport.EvCreateSession Scenarios.example_server true;
            Transport.EvEnvRestored ],
          ()).
Proof. reflexivity. Qed.

(** ** The registration fetch *)

Section FetchFacts.

Context {W Headers Literal Blob Opaque Response Thrown : Type}.
Variable trim toUpperCase toLowerCase : string → string.
Variable parseUrl : string → option Js.Url.
Variable newHeaders :
  option (OAuthFetch.HeadersInit (Headers := Headers) (Literal := Literal))
  → option Headers.
Variable headersSet : Headers → string → string → option Headers.
Variable fetch :
  OAuthFetch.Input (Headers := Headers)
  → option (OAuthFetch.RequestInit (Headers := Headers) (Literal := Literal)
              (Blob := Blob) (Opaque := Opaque))
  → W → OAuthFetch.Fetched (Response := Response) (Thrown := Thrown) * W.
Variable status : Response → N.
Variable statusText : Response → string.
Variable codeUnits : string → nat.
Variable sliceUnits : nat → string → string.

Let oauthFetch :=
  OAuthFetch.createOAuthFetch trim toUpperCase toLowerCase parseUrl newHeaders
    headersSet fetch status statusText codeUnits sliceUnits.

(** A POST, in any letter case the platform upper-cases to "POST", to a URL
    that parses and whose path ends in "/register". *)
Let registration (input : OAuthFetch.Input (Headers := Headers))
    (init : option (OAuthFetch.RequestInit (Headers := Headers)
                      (Literal := Literal) (Blob := Blob) (Opaque := Opaque)))
  : Prop :=
  ∃ url,
    OAuthFetch.resolveFetchUrl parseUrl input = Some url
    ∧ toUpperCase (OAuthFetch.requestMethod toUpperCase input init) = "POST"
    ∧ OAuthFetch.endsWith (Js.pathname url) "/register" = true.

Lemma isRegistrationRequest_spec input init :
  OAuthFetch.isRegistrationRequest toUpperCase
    (OAuthFetch.resolveFetchUrl parseUrl input)
    (OAuthFetch.requestMethod toUpperCase input init) = true
  ↔ registration input init.
Proof.
  unfold registration, OAuthFetch.isRegistrationRequest.
  destruct (OAuthFetch.resolveFetchUrl parseUrl input) as [url|].
  - destruct (String.eqb_spec
                (toUpperCase (OAuthFetch.requestMethod toUpperCase input init))
                "POST") as [Hpost|Hpost]; simpl.
    + split.
      * intros Hend. by exists url.
      * by intros (url' & [= <-] & _ & Hend).
    + split; [done|]. by intros (url' & _ & Hpost' & _).
  - split; [done|]. by intros (url' & [=] & _).
Qed.

Lemma headerValue_truthy env :
  Js.truthy_opt (OAuthFetch.headerValue trim toLowerCase env) = true →
  ∃ token,
    OAuthFetch.rawToken trim env = Some token ∧ token ≠ ""
    ∧ OAuthFetch.headerValue trim toLowerCase env
      = Some (if String.eqb (toLowerCase (OAuthFetch.headerName trim env))
                   "authorization"
              then "Bearer " +:+ token else token).
Proof.
  unfold OAuthFetch.headerValue.
  destruct (OAuthFetch.rawToken trim env) as [token|] eqn:Hraw; simpl.
  - destruct token as [|a token]; simpl; [done|].
    intros _. exists (String a token). split; [done|]. split; [done|].
    by destruct (String.eqb _ _).
  - done.
Qed.

(** X19: the function [createOAuthFetch] returns leaves a request alone
    unless it is a POST to a URL whose path ends in "/register" and a
    non-blank registration token is configured: in every other case it calls
    [fetch] with the caller's own input and init, returns what [fetch]
    returned, and logs nothing unless the request is a registration. *)
Theorem createOAuthFetch_passes_through env input init (w : W) :
  (registration input init
   ∧ ∃ token, OAuthFetch.rawToken trim env = Some token ∧ token ≠ "")
  ∨ ((oauthFetch env input init w).1.1
       = OAuthFetch.Sent init (fetch input init w).1
     ∧ (oauthFetch env input init w).2 = (fetch input init w).2
     ∧ ((oauthFetch env input init w).1.2 = [] ∨ registration input init)).
Proof.
  unfold oauthFetch, OAuthFetch.createOAuthFetch.
  destruct (OAuthFetch.isRegistrationRequest toUpperCase
              (OAuthFetch.resolveFetchUrl parseUrl input)
              (OAuthFetch.requestMethod toUpperCase input init)) eqn:Hreg.
  - apply isRegistrationRequest_spec in Hreg.
    destruct (Js.truthy_opt (OAuthFetch.headerValue trim toLowerCase env))
      eqn:Hvalue.
    + left. split; [done|].
      destruct (headerValue_truthy env Hvalue) as (token & Hraw & Hne & _).
      by exists token.
    + right. destruct (fetch input init w) as [result w']. simpl.
      split; [done|]. split; [done|]. by right.
  - right. destruct (fetch input init w) as [result w']. simpl.
    split; [done|]. split; [done|]. by left.
Qed.

(** X20: when the function does alter a request, it alters the headers
    only: what reaches [fetch] is the caller's init with [headers] replaced
    by a copy of the caller's headers on which one header was set, the
    method, body and remaining members being the caller's.  The header is
    the trimmed [MCPORTER_OAUTH_REGISTRATION_HEADER], or "Authorization"
    when that is unset or blank; its value is the trimmed token, behind
    "Bearer " exactly when the header name lower-cases to "authorization".
    If building the headers throws, [fetch] is never called. *)
Theorem createOAuthFetch_sets_one_header env input init (w : W) :
  match (oauthFetch env input init w).1.1 with
  | OAuthFetch.Sent sent result =>
      (result, (oauthFetch env input init w).2) = fetch input sent w
      ∧ (sent = init
         ∨ ∃ copied set token,
             newHeaders (OAuthFetch.inheritedHeaders input init) = Some copied
             ∧ OAuthFetch.rawToken trim env = Some token
             ∧ headersSet copied (OAuthFetch.headerName trim env)
                 (if String.eqb (toLowerCase (OAuthFetch.headerName trim env))
                       "authorization"
                  then "Bearer " +:+ token else token) = Some set
             ∧ sent = Some (OAuthFetch.withHeaders init set)
             ∧ (sent ≫= OAuthFetch.method) = (init ≫= OAuthFetch.method)
             ∧ (sent ≫= OAuthFetch.body) = (init ≫= OAuthFetch.body)
             ∧ (OAuthFetch.others <$> sent)
               = Some (default ∅ (OAuthFetch.others <$> init)))
  | OAuthFetch.HeadersThrew =>
      (oauthFetch env input init w).2 = w
      ∧ (oauthFetch env input init w).1.2 = []
      ∧ registration input init
  end.
Proof.
  unfold oauthFetch, OAuthFetch.createOAuthFetch.
  destruct (OAuthFetch.isRegistrationRequest toUpperCase
              (OAuthFetch.resolveFetchUrl parseUrl input)
              (OAuthFetch.requestMethod toUpperCase input init)) eqn:Hreg.
  - apply isRegistrationRequest_spec in Hreg.
    destruct (Js.truthy_opt (OAuthFetch.headerValue trim toLowerCase env))
      eqn:Hvalue.
    + destruct (headerValue_truthy env Hvalue) as (token & Hraw & Hne & Hv).
      rewrite Hv. simpl.
      destruct (newHeaders (OAuthFetch.inheritedHeaders input init))
        as [copied|] eqn:Hcopy; [|done].
      destruct (headersSet copied _ _) as [set|] eqn:Hset; [|done].
      destruct (fetch input (Some (OAuthFetch.withHeaders init set)) w)
        as [result w'] eqn:Hfetch. simpl.
      split; [done|]. right. exists copied, set, token.
      split; [done|]. split; [done|]. split; [done|]. split; [done|].
      by destruct init.
    + destruct (fetch input init w) as [result w'] eqn:Hfetch. simpl.
      split; [done|]. by left.
  - destruct (fetch input init w) as [result w'] eqn:Hfetch. simpl.
    split; [done|]. by left.
Qed.

End FetchFacts.

(** The registration POST leaves with the bearer token next to the caller's
    own header; the token request of the same flow leaves as it came. *)
Example registration_request_decorated :
  Cases.registration_fetch
    (OAuthFetch.InputText "https://auth.example.com/oauth/register")
    (Some Cases.json_post) 0%nat
  = (OAuthFetch.Sent
       (Some (OAuthFetch.mkRequestInit (Some "post")
                (Some (OAuthFetch.HeadersObject
                         [("content-type", "application/json");
                          ("authorization", "Bearer s3cret")]))
                (Some (OAuthFetch.TextBody "{}")) ∅))
       (OAuthFetch.Resolved (201%N, "Created")),
     ["OAuth registration request: https://auth.example.com/oauth/register (added header Authorization).";
      "OAuth registration payload: {}";
      "OAuth registration response: 201 Created"],
     1%nat).
Proof. vm_compute. reflexivity. Qed.

Example token_request_untouched :
  Cases.registration_fetch
    (OAuthFetch.InputText "https://auth.example.com/oauth/token")
    (Some Cases.json_post) 0%nat
  = (OAuthFetch.Sent (Some Cases.json_post)
       (OAuthFetch.Resolved (201%N, "Created")), [], 1%nat).
Proof. vm_compute. reflexivity. Qed.
